(** * Law-StackExchange curation notebooks: data frames, curation, formatting,
      splitting and checkpoint conversion

    A shallow embedding of the code cells of [step-1-data-curation.ipynb] and
    [step-2-download-model.ipynb].  Data frames are lists of rows, a row maps
    column names to cells; the notebook's exceptions are an error monad, and
    the cells that touch the disk or the console thread a [World]. *)

From Stdlib Require Import Ascii String QArith Qround Qabs.
From stdpp Require Import gmap strings list fin_maps pretty sorting.

Local Open Scope string_scope.
Local Open Scope Z_scope.

Set Warnings "-clear-no-such-hyp".

(** ** Exceptions *)

Inductive error :=
  | KeyError (key : string)
  | TypeError
  | AttributeError
  | ValueError (msg : string)
  | AssertionError (msg : string)
  | OSError.

Inductive result (A : Type) :=
  | Ok (a : A)
  | Raise (e : error).
Arguments Ok {A} a.
Arguments Raise {A} e.

#[global] Instance result_ret : MRet result := λ A a, Ok a.
#[global] Instance result_bind : MBind result := λ A B f m,
  match m with Ok a => f a | Raise e => Raise e end.

(** ** Cells, rows, series and frames *)

(** A cell of a frame: text ([title], [question], [tags], ...) or a number
    (the scores). *)
Inductive cell :=
  | Str (s : string)
  | Num (z : Z).

#[global] Instance cell_eq_dec : EqDecision cell.
Proof. solve_decision. Defined.

(** A Series is a column of cells. *)
Abbreviation Series := (list cell).
Abbreviation row := (gmap string cell).

Record DataFrame := mkDataFrame {
  columns : list string;
  rows : list row
}.

(** [len(df)] *)
Definition len (df : DataFrame) : Z := Z.of_nat (length (rows df)).

(** Every row carries exactly the frame's columns. *)
Definition wf_frame (df : DataFrame) : Prop :=
  Forall (λ r : row, dom r = list_to_set (columns df)) (rows df).

Definition row_get (c : string) (r : row) : result cell :=
  match r !! c with
  | Some v => Ok v
  | None => Raise (KeyError c)
  end.

(** [df[c]] as an expression. *)
Definition getitem (df : DataFrame) (c : string) : result Series :=
  if decide (c ∈ columns df) then mapM (row_get c) (rows df)
  else Raise (KeyError c).

(** A column that is assigned to keeps its place; a new one goes last. *)
Definition add_column (c : string) (cols : list string) : list string :=
  if decide (c ∈ cols) then cols else cols ++ [c].

(** [df[c] = series]: overwrites the column, or appends a new one. *)
Definition setitem (c : string) (s : Series) (df : DataFrame) : result DataFrame :=
  if decide (length s = length (rows df)) then
    Ok {| columns := add_column c (columns df);
          rows := zip_with (λ r v, <[c := v]> r) (rows df) s |}
  else Raise (ValueError "Length of values does not match length of index").

(** [df[c] = scalar]: the scalar is broadcast to every row. *)
Definition setitem_scalar (c : string) (v : cell) (df : DataFrame) : DataFrame :=
  {| columns := add_column c (columns df);
     rows := (λ r : row, <[c := v]> r) <$> rows df |}.

(** [df.drop(columns=cs)]: a label that is not a column is a [KeyError]. *)
Definition df_drop (cs : list string) (df : DataFrame) : result DataFrame :=
  match filter (λ c, c ∉ columns df) cs with
  | c :: _ => Raise (KeyError c)
  | [] =>
      Ok {| columns := filter (λ c, c ∉ cs) (columns df);
            rows := (λ r : row, foldr delete r cs) <$> rows df |}
  end.

(** [ddf.drop(columns=cs)] on the dask frame of a dataset.  Dask tries the
    drop on its empty metadata frame first, and the [KeyError] of a missing
    label comes out as a [ValueError] whose message starts with the sentence
    below and goes on with the original error and a traceback. *)
Definition dask_drop (cs : list string) (df : DataFrame) : result DataFrame :=
  match df_drop cs df with
  | Ok df' => Ok df'
  | Raise _ => Raise (ValueError "Metadata inference failed in `drop`.")
  end.

(** [df[bool_mask]]: the rows whose mask entry is true. *)
Fixpoint mask_rows (rs : list row) (mask : list bool) : list row :=
  match rs, mask with
  | r :: rs', b :: mask' =>
      if b then r :: mask_rows rs' mask' else mask_rows rs' mask'
  | _, _ => []
  end.

(** [df.iloc[idx]]: the rows at the given positions, in that order. *)
Definition iloc (df : DataFrame) (idx : list nat) : DataFrame :=
  {| columns := columns df;
     rows := omap (λ i, rows df !! i) idx |}.

(** ** Text operations *)

(** [str + cell] and [cell + str] of Python: concatenation of two strings, a
    [TypeError] when the cell is a number. *)
Definition str_radd (s : string) (c : cell) : result cell :=
  match c with
  | Str t => Ok (Str (s ++ t))
  | Num _ => Raise TypeError
  end.

Definition str_add (c : cell) (s : string) : result cell :=
  match c with
  | Str t => Ok (Str (t ++ s))
  | Num _ => Raise TypeError
  end.

Definition cell_add (a b : cell) : result cell :=
  match a, b with
  | Str s, Str t => Ok (Str (s ++ t))
  | Num x, Num y => Ok (Num (x + y))
  | _, _ => Raise TypeError
  end.

(** [s + series], [series + s] and [series + series], element by element. *)
Definition series_radd (s : string) (col : Series) : result Series :=
  mapM (str_radd s) col.

Definition series_add_str (col : Series) (s : string) : result Series :=
  mapM (λ c, str_add c s) col.

Definition series_add (a b : Series) : result Series :=
  mapM (λ p : cell * cell, cell_add p.1 p.2) (zip a b).

(** ** Word counting *)

(** The ASCII characters Python's [str.isspace] accepts: tab, line feed,
    vertical tab, form feed, carriage return, the four separators 28-31 and
    the space. *)
Definition is_whitespace (a : ascii) : bool :=
  let n := nat_of_ascii a in
  ((9 <=? n)%nat && (n <=? 13)%nat) || ((28 <=? n)%nat && (n <=? 32)%nat).

(** [text.split()]: the maximal runs of non-whitespace characters. [cur] is
    the word being read, if any. *)
Fixpoint split_go (cur : option string) (s : string) : list string :=
  match s with
  | EmptyString => option_list cur
  | String a s' =>
      if is_whitespace a then option_list cur ++ split_go None s'
      else split_go (Some (default "" cur ++ String a "")) s'
  end.

Definition split (s : string) : list string := split_go None s.

Definition word_count (s : string) : Z := Z.of_nat (length (split s)).

(** ** Curation modules *)

(** The interface of a document filter: a score computed from the cell of
    the text field, and the decision taken on the score. *)
Record DocumentFilter := mkDocumentFilter {
  score : Type;
  score_document : cell → result score;
  keep_document : score → bool
}.

(** Modelled from the spec: [nemo_curator.filters.WordCountFilter] is not in
    the notebooks; section 4.2 gives its contract: the score is the word
    count of the text, a record passes if
    [min_words <= score <= max_words].  A number has no words to count. *)
Definition WordCountFilter (min_words max_words : Z) : DocumentFilter :=
  {| score := Z;
     score_document c :=
       match c with
       | Str text => Ok (word_count text)
       | Num _ => Raise AttributeError
       end;
     keep_document sc := (min_words <=? sc) && (sc <=? max_words) |}.

(** Modelled from the spec: [helpers.filters.FilterLowScores] is not in the
    notebooks; section 4.3 gives its contract: the record passes iff
    [score >= threshold], a Boolean decision that leaves the value alone.
    Comparing a text with the threshold is a [TypeError]. *)
Definition FilterLowScores (score_threshold : Z) : DocumentFilter :=
  {| score := bool;
     score_document c :=
       match c with
       | Num x => Ok (score_threshold <=? x)
       | Str _ => Raise TypeError
       end;
     keep_document sc := sc |}.

(** Modelled from the spec: [nemo_curator.ScoreFilter] (section 4.4, a stage
    that removes the records failing its predicate).  The scores are computed
    from the text field, the mask from the scores, and the frame is indexed
    with the mask; no [score_field] is given, so no column is added. *)
Definition ScoreFilter (flt : DocumentFilter) (text_field : string)
    (df : DataFrame) : result DataFrame :=
  col ← getitem df text_field;
  scores ← mapM (score_document flt) col;
  let bool_mask := keep_document flt <$> scores in
  Ok {| columns := columns df; rows := mask_rows (rows df) bool_mask |}.

(** Modelled from the spec: [nemo_curator.modules.modify.Modify] (section
    4.4, a stage that transforms a field): the modifier is applied to every
    cell of the text field. *)
Definition Modify (modify_document : string → string) (text_field : string)
    (df : DataFrame) : result DataFrame :=
  col ← getitem df text_field;
  col' ← mapM (λ c, match c with
                    | Str text => Ok (Str (modify_document text))
                    | Num _ => Raise TypeError
                    end) col;
  setitem text_field col' df.

(** Modelled from the spec: [nemo_curator.Sequential] (section 4.4): the
    stages are applied strictly in order, each consuming the output of the
    previous one; a failing stage aborts the pipeline. *)
Definition Sequential (modules : list (DataFrame → result DataFrame))
    (df : DataFrame) : result DataFrame :=
  foldl (λ acc module, acc ≫= module) (Ok df) modules.


(** ** Formatting *)

(** The line break. *)
Definition nl : string := "
".

Definition SYSTEM_PROMPT : string :=
  "Read the following title and question about a legal issue and assign the most appropriate tag to it. All tags must be in lowercase, ordered lexicographically and separated by commas."
  ++ nl ++ nl.

Definition format_dataset (dataset : DataFrame) (filename : string)
    : result DataFrame :=
  let df := dataset in
  let has_tags := bool_decide ("tags" ∈ columns df) in
  title ← getitem df "title";
  e1 ← series_radd (SYSTEM_PROMPT ++ ("TITLE:" ++ nl)) title;
  e2 ← series_add_str e1 (nl ++ nl);
  e3 ← series_add_str e2 ("QUESTION:" ++ nl);
  question ← getitem df "question";
  input ← series_add e3 question;
  df ← setitem "input" input df;
  df ← (if has_tags then tags ← getitem df "tags"; setitem "output" tags df
        else Ok (setitem_scalar "output" (Str "") df));
  let df := setitem_scalar "filename" (Str filename) df in
  df ← df_drop ["title"; "question"] df;
  if has_tags then df_drop ["tags"] df else Ok df.

(** ** The notebook's world: files, directories and the console *)

Inductive content :=
  | Jsonl (records : list row)
  | Text (s : string).

Record World := mkWorld {
  files : gmap string content;
  dirs : gset string;
  console : list string
}.

(** A cell of a notebook reads and changes the world and may raise; what it
    did before raising stays done. *)
Definition IO (A : Type) : Type := World → result A * World.

Definition io_ret {A} (a : A) : IO A := λ w, (Ok a, w).

Definition io_bind {A B} (m : IO A) (k : A → IO B) : IO B := λ w,
  match m w with
  | (Ok a, w') => k a w'
  | (Raise e, w') => (Raise e, w')
  end.

Declare Scope io_scope.
Delimit Scope io_scope with io.
Notation "'let*' x := m 'in' k" := (io_bind m (λ x, k))
  (at level 10, x pattern, m at level 100, k at level 200) : io_scope.
Notation "m ;; k" := (io_bind m (λ _, k))
  (at level 100, k at level 200, right associativity) : io_scope.

Definition lift {A} (r : result A) : IO A := λ w, (r, w).

Definition print (s : string) : IO unit := λ w,
  (Ok tt, {| files := files w; dirs := dirs w; console := console w ++ [s] |}).

(** [assert cond, msg] *)
Definition assert (cond : bool) (msg : string) : IO unit :=
  if cond then io_ret tt else lift (Raise (AssertionError msg)).

(** [os.path.exists] *)
Definition path_exists (p : string) : IO bool := λ w,
  (Ok (bool_decide (is_Some (files w !! p)) || bool_decide (p ∈ dirs w)), w).

(** [os.remove]: deletes a file, fails on anything else. *)
Definition remove (p : string) : IO unit := λ w,
  match files w !! p with
  | Some _ =>
      (Ok tt, {| files := delete p (files w); dirs := dirs w;
                 console := console w |})
  | None => (Raise OSError, w)
  end.

(** [os.makedirs(d, exist_ok=True)] *)
Definition makedirs (d : string) : IO unit := λ w,
  (Ok tt, {| files := files w; dirs := {[d]} ∪ dirs w; console := console w |}).

Definition write_file (p : string) (c : content) : IO unit := λ w,
  (Ok tt, {| files := <[p := c]> (files w); dirs := dirs w;
             console := console w |}).

Fixpoint io_iter {A} (f : A → IO unit) (l : list A) : IO unit :=
  match l with
  | [] => io_ret tt
  | x :: l' => (f x ;; io_iter f l')%io
  end.

(** The records of a frame that go to the file named by [fn]. *)
Definition write_partition (output_file_dir : string) (df : DataFrame)
    (fn : cell) : IO unit :=
  match fn with
  | Str name =>
      write_file (output_file_dir ++ "/" ++ name)
        (Jsonl (filter (λ r : row, r !! "filename" = Some fn) (rows df)))
  | Num _ => lift (Raise TypeError)
  end.

(** Modelled from the spec: [DocumentDataset.to_json] with
    [write_to_filename=True] is the external writer; section 6 gives its
    contract: one line-delimited JSON file per destination named in the
    [filename] column, one record per line, shaped as the frame's rows. *)
Definition to_json (df : DataFrame) (output_file_dir : string) : IO unit :=
  (let* filenames := lift (getitem df "filename") in
   makedirs output_file_dir ;;
   io_iter (write_partition output_file_dir df) (remove_dups filenames))%io.

(** ** Splitting *)

(** [int(x)] truncates toward zero. *)
Definition py_int (x : Q) : Z := Z.quot (Qnum x) (Zpos (Qden x)).

(** The [round] the specification speaks of: to the nearest integer, a tie
    going to the even neighbour as Python's [round] does. *)
Definition py_round (x : Q) : Z :=
  let fl := Qfloor x in
  match 2 * (Qnum x - fl * Zpos (Qden x)) ?= Zpos (Qden x) with
  | Lt => fl
  | Gt => fl + 1
  | Eq => if Z.even fl then fl else fl + 1
  end.

(** *** Binary64 numbers

    A Python [float] is a binary64 number.  A finite one is modelled by its
    value, a rational; what an operation returns is the exact result rounded
    to the nearest binary64 number.  Infinities and NaN are left out: the
    cell admits ratios in [[0,1]] only, and a length times such a ratio is
    far from the largest binary64 number. *)

(** [2^e] *)
Definition Qpow2 (e : Z) : Q :=
  match e with
  | Zpos p => inject_Z (2 ^ Zpos p)
  | Z0 => 1
  | Zneg p => 1 # (2 ^ p)%positive
  end.

(** The exponent of the leading bit of a positive number: the [k] with
    [2^k <= x < 2^(k+1)]. *)
Definition ilog2 (x : Q) : Z :=
  let k := Z.log2 (Qnum x) - Z.log2 (Zpos (Qden x)) in
  if Qle_bool (Qpow2 k) x then k else k - 1.

(** The binary64 number nearest to [x], a tie going to the even
    significand: 53 significant bits, the last of them at exponent -1074 at
    least.  The value comes in lowest terms. *)
Definition round64 (x : Q) : Q :=
  if Qeq_bool x 0 then 0 else
  let e := Z.max (ilog2 (Qabs x) - 52) (-1074) in
  Qred (inject_Z (py_round (x / Qpow2 e)) * Qpow2 e).

(** [float(n)], which is what [n * x] makes of its integer operand. *)
Definition float_of_int (n : Z) : Q := round64 (inject_Z n).

(** [x * y] on binary64 numbers. *)
Definition fmul (x y : Q) : Q := round64 (x * y).

(** [VAL_RATIO = 0.05]: the binary64 number the literal denotes, which is
    [0.05 * (1 + 2^-54)]. *)
Definition VAL_RATIO : Q := 3602879701896397 # 72057594037927936.

(** [val_size = int(len(df) * VAL_RATIO)]: the length is converted to
    binary64, the product is a binary64 product, and [int] truncates it. *)
Definition val_size (n : Z) (VAL_RATIO : Q) : Z :=
  py_int (fmul (float_of_int n) VAL_RATIO).

(** *** Frames with an index

    A pandas frame with its index: row by row, the label the row carries.
    The frames of the curation and of the formatter are in the order of their
    index and leave it implicit; the two parts of a split are not.  A row of
    a part keeps the label it had in the frame that was split, which is
    modelled by its position there: the labels of that frame increase with
    the positions. *)
Record Indexed := mkIndexed {
  index : list nat;
  frame : DataFrame
}.

(** [df.iloc[idx]] with its index: the rows at the given positions, each
    with the label it has in [df]. *)
Definition iloc_indexed (df : DataFrame) (idx : list nat) : Indexed :=
  {| index := idx; frame := iloc df idx |}.

(** Two labelled rows compare as their labels do. *)
Definition label_le (a b : nat * row) : Prop := (a.1 ≤ b.1)%nat.

#[global] Instance label_le_dec : RelDecision label_le.
Proof. intros a b. unfold label_le. apply _. Defined.

(** Modelled from the spec: [DocumentDataset.from_pandas] is nemo_curator
    code that is not in the notebooks.  Section 3 has a dataset as an ordered
    collection of records; the library builds it with [sort=True], which puts
    the rows in the order of their index labels.  A frame that is in that
    order already stays as it is, which is the case wherever else the
    notebook calls [from_pandas]. *)
Definition from_pandas (data : Indexed) : DataFrame :=
  {| columns := columns (frame data);
     rows := (merge_sort label_le
                (zip (index data) (rows (frame data)))).*2 |}.

Section Split.
(** [RandomState(42).permutation(n)]: the shuffle of the positions
    [0 .. n-1] that the fixed seed gives. *)
Variable permutation : nat → list nat.
Variable DATA_DIR : string.

(** Modelled from the spec: [sklearn.model_selection.train_test_split] is
    the external splitter of section 4.6: a complementary pair, assignment
    by the seeded shuffle, the second part of the requested size.  An
    integer [test_size] has to leave both parts non-empty. *)
Definition train_test_split (df : DataFrame) (test_size : Z)
    : result (Indexed * Indexed) :=
  let n_samples := length (rows df) in
  if decide (test_size ≤ 0 ∨ Z.of_nat n_samples ≤ test_size) then
    Raise (ValueError "test_size should be positive and smaller than the number of samples")
  else
    let n_test := Z.to_nat test_size in
    let p := permutation n_samples in
    Ok (iloc_indexed df (drop n_test p), iloc_indexed df (take n_test p)).

(** [part["filename"] = fn] on a part of the split: the index stays. *)
Definition set_filename (fn : string) (part : Indexed) : Indexed :=
  {| index := index part;
     frame := setitem_scalar "filename" (Str fn) (frame part) |}.

Definition split_cell (formatted_dataset : DataFrame) (VAL_RATIO : Q)
    : IO (Indexed * Indexed) :=
  (let df := formatted_dataset in
   (* Some sanity checks *)
   assert (0 <? len df) "The dataset is empty." ;;
   assert (Qle_bool 0 VAL_RATIO && Qle_bool VAL_RATIO 1)
     "VAL_RATIO must be between 0 and 1." ;;
   let val_size := val_size (len df) VAL_RATIO in
   let output_dir := DATA_DIR ++ "/split" in
   makedirs output_dir ;;
   let* (train_df, val_df) := lift (train_test_split df val_size) in
   print ("Original size: " ++ pretty (len df)) ;;
   print "After splitting:" ;;
   print ("    Train size: " ++ pretty (len (frame train_df))) ;;
   print ("    Validation size: " ++ pretty (len (frame val_df))) ;;
   let train_df := set_filename "train.jsonl" train_df in
   let val_df := set_filename "val.jsonl" val_df in
   to_json (from_pandas train_df) output_dir ;;
   to_json (from_pandas val_df) output_dir ;;
   io_ret (train_df, val_df))%io.
End Split.

(** ** The curation pipeline *)

Section Curation.
(** [UnicodeReformatter().modify_document], the external text normalizer. *)
Variable UnicodeReformatter : string → string.

Definition cpu_curation_steps : list (DataFrame → result DataFrame) :=
  [ (* Unify the text encoding to Unicode. *)
    Modify UnicodeReformatter "title";
    Modify UnicodeReformatter "question";
    (* Filter out records based on the question word counts. *)
    ScoreFilter (WordCountFilter 50 500) "question";
    (* Filter out records where the question has a negative score. *)
    ScoreFilter (FilterLowScores 0) "question_score" ].

(** [orig_dataset] keeps the frame the function was given: the modifiers
    rewrite cells and the filters build new frames, so its length is the
    original one. *)
Definition run_curation_pipeline (dataset : DataFrame) (device : string)
    : IO DataFrame :=
  (print ("Running curation pipeline on '" ++ device ++ "'...") ;;
   let orig_dataset := dataset in
   let* dataset := lift (Sequential cpu_curation_steps dataset) in
   (* Drop the columns that are no longer needed. *)
   let* dataset :=
     lift (dask_drop ["answer"; "answer_score"; "question_score"] dataset) in
   let orig_len := len orig_dataset in
   let new_len := len dataset in
   print ("Original dataset length: " ++ pretty orig_len) ;;
   print ("New dataset length: " ++ pretty new_len) ;;
   io_ret dataset)%io.
End Curation.

(** ** The cells of the curation notebook *)

(** How an f-string shows [df.columns]. *)
Definition show_columns (df : DataFrame) : string :=
  "Index([" ++ String.concat ", " ((λ c, "'" ++ c ++ "'") <$> columns df)
  ++ "], dtype='object')".

Section Notebook.
Variable UnicodeReformatter : string → string.
Variable permutation : nat → list nat.
(** [DocumentDataset.read_json], the external reader. *)
Variable read_json : string → IO DataFrame.
Variable DATA_DIR : string.
Variable device : string.

Definition output_dir : string := DATA_DIR ++ "/split".

(** The cells from running the pipeline to saving the curated dataset. *)
Definition curation_cells (raw_dataset : DataFrame) : IO DataFrame :=
  (let* curated_dataset :=
     run_curation_pipeline UnicodeReformatter raw_dataset device in
   let* formatted_dataset :=
     lift (format_dataset curated_dataset "law-stackexchange-curated.jsonl") in
   print ("Original dataset columns: " ++ show_columns curated_dataset) ;;
   print ("Formatted dataset columns: " ++ show_columns formatted_dataset) ;;
   print ("Curated dataset columns: " ++ show_columns formatted_dataset) ;;
   let result_fp := DATA_DIR ++ "/curated_dataset" in
   print "" ;;
   print ("Saving curated dataset to '" ++ result_fp ++ "'...") ;;
   to_json formatted_dataset result_fp ;;
   io_ret formatted_dataset)%io.

Definition submission_cell : IO unit :=
  (let submission_ds :=
     "data/submission/evaluation-dataset-verified-for-participants.jsonl" in
   let* found := path_exists submission_ds in
   assert found ("The submission dataset does not exist at '"
                 ++ submission_ds ++ "'") ;;
   let* submission_ds := read_json submission_ds in
   let* submission_ds := lift (format_dataset submission_ds "submission.jsonl") in
   print "Writing the formatted submission dataset to disk..." ;;
   to_json submission_ds output_dir)%io.

(** The notebook from the raw dataset on, cell after cell. *)
Definition step_1 (raw_dataset : DataFrame) (VAL_RATIO : Q) : IO unit :=
  (let* formatted_dataset := curation_cells raw_dataset in
   split_cell permutation DATA_DIR formatted_dataset VAL_RATIO ;;
   submission_cell)%io.
End Notebook.

(** ** The conversion cell of the model notebook *)

Record CompletedProcess := mkCompletedProcess {
  returncode : Z;
  stdout : string
}.

Definition model_to_use : string := "google/gemma-2-2b".

(** [model_to_use.split('/')[-1].lower()] *)
Definition model_name : string := "gemma-2-2b".

Definition command : string :=
  nl ++ "python3 /opt/NeMo/scripts/checkpoint_converters/convert_gemma2_hf_to_nemo.py \"
  ++ nl ++ "    --input_name_or_path ./models/" ++ model_name ++ " \"
  ++ nl ++ "    --tokenizer_path ./models/" ++ model_name ++ "/tokenizer.model \"
  ++ nl ++ "    --output_path ./models/" ++ model_name ++ ".nemo \"
  ++ nl ++ "    --run_verification" ++ nl.

Definition log_filename : string := "model_conversion.log".

Definition hashes : string := String.concat "" (replicate 80 "#").

Section Conversion.
(** [subprocess.run(command, shell=True, stdout=PIPE, stderr=STDOUT,
    text=True)]: the external converter; it returns its exit status and
    its captured output, and does to the world whatever it does. *)
Variable subprocess_run : string → World → CompletedProcess * World.
(** [os.path.abspath] *)
Variable abspath : string → string.

(** What the cell does once the converter has returned. *)
Definition report_conversion (process : CompletedProcess) : IO unit :=
  ((* Did the conversion process succeed? *)
   if returncode process =? 0 then
     print "Model conversion completed successfully!"
   else
     (* Write the logs to a file *)
     write_file log_filename (Text (stdout process)) ;;
     print "Model conversion failed!" ;;
     print (hashes ++ nl ++ "Logs:" ++ nl ++ hashes) ;;
     print (stdout process) ;;
     print (hashes ++ nl) ;;
     print ("Logs also saved to '" ++ abspath log_filename ++ "'." ++ nl
            ++ "Please share this file with us if you need help debugging the issue."))%io.

Definition conversion_cell : IO unit :=
  (let* found := path_exists log_filename in
   (if found then remove log_filename else io_ret tt) ;;
   print "Model conversion started. This will take some time..." ;;
   let* process :=
     (λ w, let '(p, w') := subprocess_run command w in (Ok p, w')) in
   report_conversion process)%io.
End Conversion.

(** ** What the formatter makes of one record *)

(** The text in column [c] of a record. *)
Definition text (c : string) (r : row) : string :=
  match r !! c with
  | Some (Str s) => s
  | _ => ""
  end.

(** The prompt the model is given for a title and a question. *)
Definition formatted_input (title question : string) : string :=
  SYSTEM_PROMPT ++ "TITLE:" ++ nl ++ title
  ++ nl ++ nl ++ "QUESTION:" ++ nl ++ question.

Definition format_row (filename : string) (r : row) : row :=
  let input := Str (formatted_input (text "title" r) (text "question" r)) in
  let output := default (Str "") (r !! "tags") in
  foldr delete
    (<["filename" := Str filename]> (<["output" := output]> (<["input" := input]> r)))
    ["tags"; "title"; "question"].

Definition is_text (c : cell) : Prop := ∃ s, c = Str s.

(** A record whose title and question are strings. *)
Definition has_text (r : row) : Prop :=
  (∃ t, r !! "title" = Some (Str t)) ∧ (∃ q, r !! "question" = Some (Str q)).

(** The fields of a formatted record. *)
Definition formatted_fields : gset string := {["input"; "output"; "filename"]}.

(** Whether a record passes a filter applied to its field [c]. *)
Definition passes (flt : DocumentFilter) (c : string) (r : row) : bool :=
  match r !! c with
  | Some v =>
      match score_document flt v with
      | Ok sc => keep_document flt sc
      | Raise _ => false
      end
  | None => false
  end.

(** A dataset of one question whose list of tags is empty. *)
Definition empty_tags_dataset : DataFrame :=
  {| columns := ["title"; "question"; "tags"];
     rows := [ {[ "title" := Str "Lease issue";
                  "question" := Str "Can my landlord end the lease early?";
                  "tags" := Str "" ]} ] |}.

(** ** Sample data *)

(** Modelled from the spec: the schema of the raw dataset, which
    [helpers.docbuilder.download_and_convert_dataset] (not in the notebooks)
    builds; section 3 lists the fields of a record. *)
Definition raw_columns : list string :=
  ["title"; "question"; "answer"; "tags"; "question_score"; "answer_score"].

(** A text of [n] words. *)
Definition words (n : nat) : string := String.concat " " (replicate n "word").

Definition raw_record (title question tags : string) (question_score : Z)
    : row :=
  {[ "title" := Str title; "question" := Str question;
     "answer" := Str "It depends on the jurisdiction.";
     "tags" := Str tags; "question_score" := Num question_score;
     "answer_score" := Num 1 ]}.

(** The three records of the end-to-end example of section 8, and one
    more that passes both filters. *)
Definition sample_dataset : DataFrame :=
  {| columns := raw_columns;
     rows := [ raw_record "Contract dispute" (words 520) "contracts" 3;
               raw_record "Lease issue" (words 120) "leases" (-1);
               raw_record "Tenant rights" (words 200) "contracts,leases" 2;
               raw_record "Security deposit" (words 60) "deposits" 5 ] |}.

(** [df["filename"] = fn] on one record. *)
Definition tag (fn : string) (r : row) : row := <["filename" := Str fn]> r.

(** The world once the conversion cell has cleared an old log and announced
    the conversion, which is when the converter starts. *)
Definition conversion_started (w : World) : World :=
  {| files := delete log_filename (files w); dirs := dirs w;
     console := console w
                ++ ["Model conversion started. This will take some time..."] |}.

(** What the conversion cell prints after a failed conversion. *)
Definition failure_report (abspath : string → string)
    (process : CompletedProcess) : list string :=
  [ "Model conversion failed!";
    hashes ++ nl ++ "Logs:" ++ nl ++ hashes;
    stdout process;
    hashes ++ nl;
    "Logs also saved to '" ++ abspath log_filename ++ "'." ++ nl
    ++ "Please share this file with us if you need help debugging the issue." ].

(** A converter that fails without touching the world. *)
Definition failing_converter (cmd : string) (w : World)
    : CompletedProcess * World :=
  ({| returncode := 1; stdout := "FileNotFoundError: tokenizer.model" |}, w).

(** What a cell may have done to the files: each file is as it was, or holds
    records that satisfy [P]. *)
Definition wrote (P : row → Prop) (w w' : World) : Prop :=
  ∀ p, files w' !! p = files w !! p ∨
       ∃ recs, files w' !! p = Some (Jsonl recs) ∧ Forall P recs.

(** A record with exactly the fields [input], [output] and [filename]. *)
Definition formatted_record (r : row) : Prop := dom r = formatted_fields.

(** A submission dataset of one question, and a reader that finds it. *)
Definition submission_sample : DataFrame :=
  {| columns := ["title"; "question"];
     rows := [ {[ "title" := Str "Noise at night";
                  "question" := Str "Can I report my neighbour?" ]} ] |}.

Definition sample_read_json (p : string) : IO DataFrame :=
  λ w, (Ok submission_sample, w).

Definition sample_world : World :=
  {| files :=
       {[ "data/submission/evaluation-dataset-verified-for-participants.jsonl"
          := Jsonl (rows submission_sample) ]};
     dirs := ∅; console := [] |}.

(** The four files of section 6, for [DATA_DIR = "data"]. *)
Definition output_files : list string :=
  [ "data/curated_dataset/law-stackexchange-curated.jsonl";
    "data/split/train.jsonl"; "data/split/val.jsonl";
    "data/split/submission.jsonl" ].

(** A formatted dataset of [n] records. *)
Definition numbered_dataset (n : nat) : DataFrame :=
  {| columns := ["input"; "output"; "filename"];
     rows := (λ i : nat,
                {[ "input" := Str ("question " ++ pretty i);
                   "output" := Str "contracts";
                   "filename" := Str "law-stackexchange-curated.jsonl" ]})
             <$> seq 0 n |}.

(** A shuffle for the examples: the positions from the last to the first. *)
Definition backwards (n : nat) : list nat := reverse (seq 0 n).

(** The binary64 number that the literal [0.7] denotes. *)
Definition ratio_0_7 : Q := 3152519739159347 # 4503599627370496.

(** A world with nothing on disk and nothing printed. *)
Definition empty_world : World := {| files := ∅; dirs := ∅; console := [] |}.

(** A submission set whose records carry an [id] beside title and question. *)
Definition submission_with_id : DataFrame :=
  {| columns := ["id"; "title"; "question"];
     rows := [ {[ "id" := Num 17; "title" := Str "Noise at night";
                  "question" := Str "Can I report my neighbour?" ]} ] |}.

(** The number in column [c] of a record. *)
Definition number (c : string) (r : row) : Z :=
  match r !! c with
  | Some (Num z) => z
  | _ => 0
  end.

(** A record with a text title, a text question and a numeric question
    score. *)
Definition typed_record (r : row) : Prop :=
  has_text r ∧ ∃ z, r !! "question_score" = Some (Num z).

(** What the two modifier stages make of a record. *)
Definition normalize_row (reformat : string → string) (r : row) : row :=
  <["question" := Str (reformat (text "question" r))]>
    (<["title" := Str (reformat (text "title" r))]> r).

(** Whether a record gets through both filter stages: they see the question
    as the modifier left it. *)
Definition survives (reformat : string → string) (r : row) : bool :=
  (50 <=? word_count (reformat (text "question" r)))
  && (word_count (reformat (text "question" r)) <=? 500)
  && (0 <=? number "question_score" r).

(** The columns the pipeline drops at its end. *)
Definition dropped_columns : list string :=
  ["answer"; "answer_score"; "question_score"].

(** The sample dataset without its [answer] column. *)
Definition sample_without_answer : DataFrame :=
  {| columns := filter (λ c, c ≠ "answer") (columns sample_dataset);
     rows := delete "answer" <$> rows sample_dataset |}.

(** A converter that succeeds without touching the world, and a world that
    still holds the log of an earlier failure. *)
Definition passing_converter (cmd : string) (w : World)
    : CompletedProcess * World :=
  ({| returncode := 0; stdout := "Verification passed." |}, w).

Definition world_with_old_log : World :=
  {| files := {[ log_filename := Text "an earlier failure" ]};
     dirs := ∅; console := [] |}.

(** A world where the name of the log is taken by a directory. *)
Definition world_with_log_directory : World :=
  {| files := ∅; dirs := {[ log_filename ]}; console := [] |}.

(** The path the submission cell reads. *)
Definition submission_path : string :=
  "data/submission/evaluation-dataset-verified-for-participants.jsonl".

(** A dataset whose only question is too short for the word-count filter. *)
Definition short_dataset : DataFrame :=
  {| columns := raw_columns;
     rows := [ raw_record "Parking" (words 12) "traffic" 4 ] |}.

(** ** The model name and the training notebook *)

Fixpoint contains_slash (s : string) : bool :=
  match s with
  | EmptyString => false
  | String a s' => Ascii.eqb a "/" || contains_slash s'
  end.

(** [s.split('/')[-1]], which is also [os.path.basename(s)]: the text after
    the last slash of [s], all of [s] when it has none. *)
Fixpoint last_component (s : string) : string :=
  match s with
  | EmptyString => EmptyString
  | String a s' =>
      if contains_slash s' then last_component s'
      else if Ascii.eqb a "/" then s' else String a s'
  end.

(** [c.lower()] on an ASCII character. *)
Definition lower_ascii (a : ascii) : ascii :=
  let n := nat_of_ascii a in
  if ((65 <=? n)%nat && (n <=? 90)%nat) then ascii_of_nat (n + 32) else a.

(** [s.lower()] on ASCII text. *)
Fixpoint lower (s : string) : string :=
  match s with
  | EmptyString => EmptyString
  | String a s' => String (lower_ascii a) (lower s')
  end.

(** [model_to_use.split('/')[-1].lower()] *)
Definition derive_model_name (model_to_use : string) : string :=
  lower (last_component model_to_use).

(** The capital letters of ASCII and, place for place, their small
    counterparts. *)
Definition capital_letters : string := "ABCDEFGHIJKLMNOPQRSTUVWXYZ".
Definition small_letters : string := "abcdefghijklmnopqrstuvwxyz".

(** Whether a text has ASCII characters only, as the identifiers of models
    do.  On other characters [str.lower] follows Unicode, which [lower] does
    not model. *)
Fixpoint is_ascii (s : string) : bool :=
  match s with
  | EmptyString => true
  | String a s' => (nat_of_ascii a <? 128)%nat && is_ascii s'
  end.

(** The state of the training notebook's kernel: the world and the
    environment variables that the [%env] lines set for the shell cells. *)
Record Kernel := mkKernel {
  world : World;
  environ : gmap string string
}.

Definition Cell (A : Type) : Type := Kernel → result A * Kernel.

Definition cell_ret {A} (a : A) : Cell A := λ k, (Ok a, k).

Definition cell_bind {A B} (m : Cell A) (f : A → Cell B) : Cell B := λ k,
  match m k with
  | (Ok a, k') => f a k'
  | (Raise e, k') => (Raise e, k')
  end.

Declare Scope cell_scope.
Delimit Scope cell_scope with cell.
Notation "'let*' x := m 'in' k" := (cell_bind m (λ x, k))
  (at level 10, x pattern, m at level 100, k at level 200) : cell_scope.
Notation "m ;; k" := (cell_bind m (λ _, k))
  (at level 100, k at level 200, right associativity) : cell_scope.

(** A step that only concerns the world. *)
Definition run_io {A} (m : IO A) : Cell A := λ k,
  let '(r, w') := m (world k) in
  (r, {| world := w'; environ := environ k |}).

(** [%env name=value]: sets the variable and says so. *)
Definition set_env (name value : string) : Cell unit := λ k,
  (Ok tt,
   {| world := {| files := files (world k); dirs := dirs (world k);
                  console := console (world k)
                             ++ ["env: " ++ name ++ "=" ++ value] |};
      environ := <[name := value]> (environ k) |}).

(** [assert os.path.exists(p), msg] *)
Definition assert_exists (p msg : string) : Cell unit :=
  (let* found := run_io (path_exists p) in run_io (assert found msg))%cell.

Definition data_dir : string := "data/split".

Section Training.
(** [os.path.abspath] *)
Variable abspath : string → string.

Definition nemo_model_fp (model_to_use : string) : string :=
  abspath ("models/" ++ derive_model_name model_to_use ++ ".nemo").

Definition result_dir : string := abspath "results".

Definition train_fp : string := abspath (data_dir ++ "/train.jsonl").

Definition val_fp : string := abspath (data_dir ++ "/val.jsonl").

(** The sanity-check cell. *)
Definition sanity_check_cell (model_to_use : string) : Cell unit :=
  (let nemo_model_fp := nemo_model_fp model_to_use in
   (* The directory where the results will be stored. *)
   run_io (makedirs result_dir) ;;
   (* Sanity checks *)
   assert_exists nemo_model_fp
     ("The model checkpoint at '" ++ nemo_model_fp
      ++ "' does not exist. Please ensure the model was downloaded successfully.") ;;
   assert_exists data_dir
     ("The data directory '" ++ data_dir
      ++ "' does not exist. Please ensure the data was prepared successfully.") ;;
   (* Sanity checks *)
   assert_exists train_fp
     ("The training data at '" ++ train_fp
      ++ "' does not exist. Please ensure the data was prepared successfully.") ;;
   assert_exists val_fp
     ("The validation data at '" ++ val_fp
      ++ "' does not exist. Please ensure the data was prepared successfully.") ;;
   (* Set the environment variables (needed for executing the next cell) *)
   set_env "BASE_MODEL" nemo_model_fp ;;
   set_env "DATA_DIR" data_dir ;;
   set_env "TRAIN_DS" train_fp ;;
   set_env "VAL_DS" val_fp ;;
   set_env "RESULT_DIR" result_dir ;;
   run_io (print (nl ++ hashes)) ;;
   run_io (print "All checks passed. You are ready to go!") ;;
   run_io (print ("    Base model file: " ++ nemo_model_fp)) ;;
   run_io (print ("    Data directory: " ++ data_dir)) ;;
   run_io (print ("    Results: " ++ result_dir)))%cell.

(** The cell that prepares the inference. *)
Definition inference_cell : Cell unit :=
  (let test_fp := abspath (data_dir ++ "/submission.jsonl") in
   assert_exists test_fp
     ("The submission data at '" ++ test_fp
      ++ "' does not exist. Please ensure the data was prepared successfully.") ;;
   let test_fp := abspath test_fp in
   let adapter_fp :=
     result_dir ++ "/checkpoints/megatron_gpt_peft_lora_tuning.nemo" in
   run_io (makedirs (result_dir ++ "/inference")) ;;
   run_io (print ("Inference set: " ++ test_fp)) ;;
   run_io (print ("Trained adapter: " ++ adapter_fp)) ;;
   let test_filename := last_component test_fp in
   set_env "TEST_DS" test_fp ;;
   set_env "TEST_FP" test_filename ;;
   set_env "TRAINED_ADAPTER" adapter_fp)%cell.
End Training.

(** Whether [os.path.exists(p)] holds in a world. *)
Definition present (w : World) (p : string) : bool :=
  bool_decide (is_Some (files w !! p)) || bool_decide (p ∈ dirs w).

(** The checks of the sanity-check cell, in their order: the path that has
    to exist and the message of the assertion. *)
Definition sanity_checks (abspath : string → string) (model_to_use : string)
    : list (string * string) :=
  [ (nemo_model_fp abspath model_to_use,
     "The model checkpoint at '" ++ nemo_model_fp abspath model_to_use
     ++ "' does not exist. Please ensure the model was downloaded successfully.");
    (data_dir,
     "The data directory '" ++ data_dir
     ++ "' does not exist. Please ensure the data was prepared successfully.");
    (train_fp abspath,
     "The training data at '" ++ train_fp abspath
     ++ "' does not exist. Please ensure the data was prepared successfully.");
    (val_fp abspath,
     "The validation data at '" ++ val_fp abspath
     ++ "' does not exist. Please ensure the data was prepared successfully.") ].

(** The kernel once the results directory has been made. *)
Definition with_results_dir (abspath : string → string) (k : Kernel) : Kernel :=
  {| world := {| files := files (world k);
                 dirs := {[result_dir abspath]} ∪ dirs (world k);
                 console := console (world k) |};
     environ := environ k |}.

(** A kernel with the checkpoint and the split files in place, for a
    notebook directory [/ws]. *)
Definition ws_abspath (p : string) : string := "/ws/" ++ p.

Definition prepared_kernel : Kernel :=
  {| world :=
       {| files := {[ "/ws/models/gemma-2-2b.nemo" := Text "checkpoint";
                      "/ws/data/split/train.jsonl" := Jsonl [];
                      "/ws/data/split/val.jsonl" := Jsonl [];
                      "/ws/data/split/submission.jsonl" := Jsonl [] ]};
          dirs := {[ "data/split" ]}; console := [] |};
     environ := ∅ |}.

Definition empty_kernel : Kernel := {| world := empty_world; environ := ∅ |}.

(** The columns [format_dataset] consumes or sets. *)
Definition formatter_columns : list string :=
  ["title"; "question"; "tags"; "input"; "output"; "filename"].

(** * Properties *)

(** ** The error monad on lists *)

Section MapM.
Context {A B : Type}.
Implicit Types (f : A → result B) (l : list A).

Lemma mapM_cons f x l :
  mapM f (x :: l) = y ← f x; k ← mapM f l; Ok (y :: k).
Proof. reflexivity. Qed.

Lemma mapM_ok_fmap f (g : A → B) l :
  (∀ x, x ∈ l → f x = Ok (g x)) → mapM f l = Ok (g <$> l).
Proof.
  induction l as [|x l IH]; intros Hf; [done|].
  rewrite mapM_cons, (Hf x) by set_solver.
  rewrite IH by (intros; apply Hf; set_solver). done.
Qed.

Lemma mapM_ok_inv f l (k : list B) :
  mapM f l = Ok k → Forall2 (λ x y, f x = Ok y) l k.
Proof.
  revert k. induction l as [|x l IH]; intros k Hm.
  - injection Hm as <-. constructor.
  - rewrite mapM_cons in Hm.
    destruct (f x) as [y|] eqn:Hx; [|done]. simpl in Hm.
    destruct (mapM f l) as [k'|] eqn:Hl; [|done].
    injection Hm as <-. constructor; auto.
Qed.

End MapM.

Lemma mapM_fmap {A B C} (f : B → result C) (g : A → B) (l : list A) :
  mapM f (g <$> l) = mapM (f ∘ g) l.
Proof.
  induction l as [|x l IH]; [done|].
  rewrite fmap_cons, !mapM_cons, IH. done.
Qed.

Lemma zip_with_fmap_same {A B C} (h : A → B → C) (g : A → B) (l : list A) :
  zip_with h l (g <$> l) = (λ x, h x (g x)) <$> l.
Proof. induction l as [|x l IH]; [done|]. csimpl. by rewrite IH. Qed.

Lemma zip_fmap_same {A B C} (f : A → B) (g : A → C) (l : list A) :
  zip (f <$> l) (g <$> l) = (λ x, (f x, g x)) <$> l.
Proof. induction l as [|x l IH]; [done|]. csimpl. by rewrite IH. Qed.

(** ** Frames *)

Lemma foldr_delete_lookup (cs : list string) (r : row) (c : string) :
  foldr delete r cs !! c = if decide (c ∈ cs) then None else r !! c.
Proof.
  induction cs as [|c' cs IH].
  - case_decide; [set_solver|done].
  - change (foldr delete r (c' :: cs)) with (delete c' (foldr delete r cs)).
    destruct (decide (c' = c)) as [->|Hne].
    + rewrite lookup_delete_eq.
      destruct (decide (c ∈ c :: cs)); [done|set_solver].
    + rewrite lookup_delete_ne, IH by done.
      repeat case_decide; set_solver.
Qed.

Lemma foldr_delete_dom (cs : list string) (r : row) :
  dom (foldr delete r cs) = dom r ∖ list_to_set cs.
Proof.
  apply set_eq. intros c. rewrite elem_of_difference, !elem_of_dom.
  rewrite foldr_delete_lookup, elem_of_list_to_set.
  case_decide; split; try tauto; intros []; by try done.
Qed.

Lemma df_drop_ok (cs : list string) (df : DataFrame) :
  cs ⊆ columns df →
  df_drop cs df =
    Ok {| columns := filter (λ c, c ∉ cs) (columns df);
          rows := (λ r : row, foldr delete r cs) <$> rows df |}.
Proof.
  intros Hsub. unfold df_drop.
  destruct (filter (λ c, c ∉ columns df) cs) as [|c l] eqn:Hf; [done|].
  assert (c ∈ filter (λ c, c ∉ columns df) cs) as Hc by (rewrite Hf; set_solver).
  apply list_elem_of_filter in Hc as [Hc1 Hc2]. set_solver.
Qed.

Lemma elem_of_add_column (c x : string) (cols : list string) :
  x ∈ add_column c cols ↔ x = c ∨ x ∈ cols.
Proof. unfold add_column. case_decide; set_solver. Qed.

Lemma setitem_fmap (c : string) (g : row → cell) (df : DataFrame) :
  setitem c (g <$> rows df) df =
    Ok {| columns := add_column c (columns df);
          rows := (λ r : row, <[c := g r]> r) <$> rows df |}.
Proof.
  unfold setitem. rewrite decide_True by apply length_fmap.
  by rewrite zip_with_fmap_same.
Qed.

Lemma getitem_fmap (c : string) (g : row → cell) (df : DataFrame) :
  c ∈ columns df →
  (∀ r, r ∈ rows df → r !! c = Some (g r)) →
  getitem df c = Ok (g <$> rows df).
Proof.
  intros Hc Hg. unfold getitem. rewrite decide_True by done.
  apply mapM_ok_fmap. intros r Hr. unfold row_get. by rewrite (Hg r Hr).
Qed.

(** ** Strings *)

Lemma append_assoc (a b c : string) : ((a ++ b) ++ c = a ++ (b ++ c))%string.
Proof.
  induction a as [|x a IH]; [done|].
  change (String x ((a ++ b) ++ c) = String x (a ++ (b ++ c)))%string.
  by f_equal.
Qed.

Lemma prefix_append (a b : string) : String.prefix a (a ++ b) = true.
Proof.
  induction a as [|x a IH]; [by destruct b|].
  change (String.prefix (String x a) (String x (a ++ b)) = true)%string.
  cbn. destruct (ascii_dec x x); [done|congruence].
Qed.

(** ** The formatter *)

Lemma bind_ok {A B} (a : A) (f : A → result B) : (Ok a ≫= f) = f a.
Proof. reflexivity. Qed.

Lemma has_text_title (r : row) :
  has_text r → r !! "title" = Some (Str (text "title" r)).
Proof. intros [[t Ht] _]. unfold text. by rewrite Ht. Qed.

Lemma has_text_question (r : row) :
  has_text r → r !! "question" = Some (Str (text "question" r)).
Proof. intros [_ [q Hq]]. unfold text. by rewrite Hq. Qed.

Lemma wf_frame_lookup (df : DataFrame) (r : row) (c : string) :
  wf_frame df → r ∈ rows df → (is_Some (r !! c) ↔ c ∈ columns df).
Proof.
  intros Hwf Hr. unfold wf_frame in Hwf. rewrite Forall_forall in Hwf.
  rewrite <-elem_of_dom, (Hwf r Hr). apply elem_of_list_to_set.
Qed.

Section SeriesOfText.
Context {A : Type}.
Implicit Types (g h : A → string) (l : list A).

Lemma series_radd_fmap (s : string) g l :
  series_radd s ((λ x, Str (g x)) <$> l) = Ok ((λ x, Str (s ++ g x)) <$> l).
Proof. unfold series_radd. rewrite mapM_fmap. by apply mapM_ok_fmap. Qed.

Lemma series_add_str_fmap (s : string) g l :
  series_add_str ((λ x, Str (g x)) <$> l) s = Ok ((λ x, Str (g x ++ s)) <$> l).
Proof. unfold series_add_str. rewrite mapM_fmap. by apply mapM_ok_fmap. Qed.

Lemma series_add_fmap g h l :
  series_add ((λ x, Str (g x)) <$> l) ((λ x, Str (h x)) <$> l)
  = Ok ((λ x, Str (g x ++ h x)) <$> l).
Proof.
  unfold series_add. rewrite zip_fmap_same, mapM_fmap. by apply mapM_ok_fmap.
Qed.
End SeriesOfText.

Lemma format_dataset_ok (df : DataFrame) (filename : string) :
  wf_frame df → "title" ∈ columns df → "question" ∈ columns df →
  Forall has_text (rows df) →
  ∃ cols,
    format_dataset df filename =
      Ok {| columns := cols; rows := format_row filename <$> rows df |} ∧
    list_to_set cols =
      (list_to_set (columns df) ∖ {["title"; "question"; "tags"]}) ∪ formatted_fields.
Proof.
  intros Hwf Ht Hq Htext. rewrite Forall_forall in Htext.
  unfold format_dataset.
  rewrite (getitem_fmap "title" (λ r, Str (text "title" r)))
    by auto using has_text_title.
  rewrite bind_ok, series_radd_fmap, bind_ok, series_add_str_fmap, bind_ok,
    series_add_str_fmap, bind_ok.
  rewrite (getitem_fmap "question" (λ r, Str (text "question" r)))
    by auto using has_text_question.
  rewrite bind_ok, series_add_fmap, bind_ok, setitem_fmap, bind_ok.
  set (inp := λ r : row,
    Str (((((SYSTEM_PROMPT ++ ("TITLE:" ++ nl)) ++ text "title" r)
           ++ (nl ++ nl)) ++ ("QUESTION:" ++ nl)) ++ text "question" r)).
  set (df1 := {| columns := add_column "input" (columns df); rows := _ |}).
  set (out := λ r : row, default (Str "") (r !! "tags")).
  assert (∀ r, r ∈ rows df → format_row filename r =
      foldr delete (<["filename" := Str filename]>
        (<["output" := out r]> (<["input" := inp r]> r)))
        ["tags"; "title"; "question"]) as Hrow.
  { intros r _. unfold format_row, inp, formatted_input.
    by rewrite !append_assoc. }
  destruct (bool_decide_reflect ("tags" ∈ columns df)) as [Htags|Htags].
  - rewrite (getitem_fmap "tags" out df1).
    2:{ apply elem_of_add_column. by right. }
    2:{ intros r' [r [-> Hr]]%list_elem_of_fmap. unfold out.
        rewrite !lookup_insert_ne by done.
        destruct (proj2 (wf_frame_lookup df r "tags" Hwf Hr) Htags) as [v Hv].
        by rewrite Hv. }
    rewrite bind_ok, setitem_fmap, bind_ok, df_drop_ok.
    2:{ intros c Hc. cbn. rewrite !elem_of_add_column. set_solver. }
    rewrite bind_ok, df_drop_ok.
    2:{ intros c Hc. cbn. rewrite list_elem_of_filter, !elem_of_add_column.
        split; set_solver. }
    eexists. split.
    + f_equal. f_equal. cbn. rewrite <-!list_fmap_compose.
      apply list_fmap_ext. intros i r Hr%list_elem_of_lookup_2.
      rewrite (Hrow r Hr). cbn. unfold out.
      by rewrite !lookup_insert_ne by done.
    + cbn. apply set_eq. intros c.
      rewrite !elem_of_list_to_set, !list_elem_of_filter, !elem_of_add_column.
      unfold formatted_fields. set_solver.
  - rewrite bind_ok, df_drop_ok.
    2:{ intros c Hc. cbn. rewrite !elem_of_add_column. set_solver. }
    rewrite bind_ok.
    eexists. split.
    + f_equal. f_equal. cbn. rewrite <-!list_fmap_compose.
      apply list_fmap_ext. intros i r Hr%list_elem_of_lookup_2.
      rewrite (Hrow r Hr). cbn. unfold out.
      assert (r !! "tags" = None) as Hnone.
      { apply eq_None_not_Some. by rewrite (wf_frame_lookup df r "tags"). }
      rewrite Hnone. cbn.
      rewrite (delete_id _ "tags"); [done|].
      by rewrite !lookup_delete_ne, !lookup_insert_ne.
    + cbn. apply set_eq. intros c.
      rewrite !elem_of_list_to_set, !list_elem_of_filter, !elem_of_add_column.
      unfold formatted_fields.
      rewrite elem_of_union, elem_of_difference, !elem_of_list_to_set.
      destruct (decide (c = "tags")) as [->|]; set_solver.
Qed.

Lemma format_row_input (filename : string) (r : row) :
  format_row filename r !! "input"
  = Some (Str (formatted_input (text "title" r) (text "question" r))).
Proof.
  unfold format_row. rewrite foldr_delete_lookup.
  rewrite decide_False by set_solver.
  rewrite !lookup_insert_ne by done. apply lookup_insert_eq.
Qed.

Lemma format_row_output (filename : string) (r : row) :
  format_row filename r !! "output" = Some (default (Str "") (r !! "tags")).
Proof.
  unfold format_row. rewrite foldr_delete_lookup.
  rewrite decide_False by set_solver.
  rewrite lookup_insert_ne by done. apply lookup_insert_eq.
Qed.

Lemma format_row_filename (filename : string) (r : row) :
  format_row filename r !! "filename" = Some (Str filename).
Proof.
  unfold format_row. rewrite foldr_delete_lookup.
  rewrite decide_False by set_solver.
  by rewrite lookup_insert_eq.
Qed.

Lemma format_row_dom (filename : string) (r : row) :
  dom (format_row filename r)
  = (dom r ∖ {["title"; "question"; "tags"]}) ∪ formatted_fields.
Proof.
  unfold format_row, formatted_fields.
  rewrite foldr_delete_dom, !dom_insert_L. set_solver.
Qed.

Lemma formatted_input_nonempty (title question : string) :
  formatted_input title question ≠ "".
Proof. discriminate. Qed.

Lemma SYSTEM_PROMPT_nonempty : SYSTEM_PROMPT ≠ "".
Proof. discriminate. Qed.

(** C2, as the code has it.  Formatting is total on records with a text title
    and a text question: one formatted record per record, at the same
    position, with a non-empty [input]; its [output] is the record's [tags]
    value when there is one and the empty string when there is none, so it is
    empty exactly when the record has no [tags] field or an empty one. *)
Theorem format_dataset_total (df : DataFrame) (filename : string) :
  wf_frame df → "title" ∈ columns df → "question" ∈ columns df →
  Forall has_text (rows df) →
  ∃ df', format_dataset df filename = Ok df' ∧
    length (rows df') = length (rows df) ∧
    ∀ i r, rows df !! i = Some r →
      ∃ r' input,
        rows df' !! i = Some r' ∧
        r' !! "input" = Some (Str input) ∧ input ≠ "" ∧
        r' !! "output" = Some (default (Str "") (r !! "tags")) ∧
        (r' !! "output" = Some (Str "") ↔
           r !! "tags" = None ∨ r !! "tags" = Some (Str "")).
Proof.
  intros Hwf Ht Hq Htext.
  destruct (format_dataset_ok df filename Hwf Ht Hq Htext) as (cols & -> & _).
  eexists. split; [done|]. cbn. split; [by rewrite length_fmap|].
  intros i r Hi. eexists (format_row filename r), _.
  rewrite list_lookup_fmap, Hi, format_row_input, format_row_output.
  repeat split; [apply formatted_input_nonempty|..].
  - intros Hout. destruct (r !! "tags") as [v|]; [right|by left].
    by injection Hout as ->.
  - by intros [->| ->].
Qed.

Lemma format_dataset_total_witness :
  ∃ df', format_dataset empty_tags_dataset "submission.jsonl" = Ok df' ∧
         length (rows df') = 1%nat.
Proof.
  destruct (format_dataset_total empty_tags_dataset "submission.jsonl")
    as (df' & Hf & Hlen & _).
  - repeat constructor.
  - set_solver.
  - set_solver.
  - repeat constructor; eexists; reflexivity.
  - exists df'. by split.
Defined.

(** C2, as the specification has it, fails: the record of
    [empty_tags_dataset] has a [tags] field, and its formatted [output] is
    empty all the same. *)
Lemma format_dataset_empty_tags :
  ∃ df' r r',
    format_dataset empty_tags_dataset "law-stackexchange-curated.jsonl" = Ok df' ∧
    rows empty_tags_dataset = [r] ∧ rows df' = [r'] ∧
    r !! "tags" = Some (Str "") ∧
    r' !! "output" = Some (Str "") ∧
    ¬ (r' !! "output" = Some (Str "") ↔ r !! "tags" = None).
Proof.
  eexists _, _, _. split; [vm_compute; reflexivity|].
  split; [reflexivity|]. split; [reflexivity|].
  split; [reflexivity|]. split; [reflexivity|].
  intros [Himp _]. discriminate (Himp eq_refl).
Qed.

(** C10.  For records whose title and question are strings, the [input] of
    the formatted record is the instruction prompt, then [TITLE:], a line
    break and the title, then a blank line, [QUESTION:], a line break and the
    question; so every input starts with the same non-empty prompt. *)
Theorem format_dataset_input (df : DataFrame) (filename : string) :
  wf_frame df → "title" ∈ columns df → "question" ∈ columns df →
  Forall has_text (rows df) →
  SYSTEM_PROMPT ≠ "" ∧
  ∃ df', format_dataset df filename = Ok df' ∧
    ∀ i r title question,
      rows df !! i = Some r →
      r !! "title" = Some (Str title) →
      r !! "question" = Some (Str question) →
      ∃ r' input,
        rows df' !! i = Some r' ∧
        r' !! "input" = Some (Str input) ∧
        input = (SYSTEM_PROMPT ++ ("TITLE:" ++ nl ++ title)
                 ++ (nl ++ nl ++ "QUESTION:" ++ nl ++ question))%string ∧
        String.prefix SYSTEM_PROMPT input = true.
Proof.
  intros Hwf Ht Hq Htext. split; [apply SYSTEM_PROMPT_nonempty|].
  destruct (format_dataset_ok df filename Hwf Ht Hq Htext) as (cols & -> & _).
  eexists. split; [done|]. cbn.
  intros i r title question Hi Htitle Hquestion.
  eexists (format_row filename r), _.
  rewrite list_lookup_fmap, Hi, format_row_input.
  unfold text. rewrite Htitle, Hquestion.
  split; [done|]. split; [done|]. split.
  - unfold formatted_input. by rewrite !append_assoc.
  - apply prefix_append.
Qed.

Lemma format_dataset_input_witness :
  ∃ df' r', format_dataset empty_tags_dataset "submission.jsonl" = Ok df' ∧
    rows df' !! 0%nat = Some r' ∧
    r' !! "input" =
      Some (Str (SYSTEM_PROMPT ++ "TITLE:" ++ nl ++ "Lease issue" ++ nl ++ nl
                 ++ "QUESTION:" ++ nl ++ "Can my landlord end the lease early?")).
Proof.
  destruct (format_dataset_input empty_tags_dataset "submission.jsonl")
    as (_ & df' & Hf & Hrows).
  - repeat constructor.
  - set_solver.
  - set_solver.
  - repeat constructor; eexists; reflexivity.
  - destruct (Hrows 0%nat _ "Lease issue" "Can my landlord end the lease early?"
                eq_refl eq_refl eq_refl) as (r' & input & Hr' & Hin & -> & _).
    exists df', r'. by repeat split.
Defined.

(** ** Filters *)

Lemma mapM_is_ok {A B} (f : A → result B) (l : list A) :
  (∀ x, x ∈ l → ∃ y, f x = Ok y) → ∃ k, mapM f l = Ok k.
Proof.
  induction l as [|x l IH]; intros Hf; [by eexists|].
  destruct (Hf x) as [y Hy]; [set_solver|].
  destruct IH as [k Hk]; [intros; apply Hf; set_solver|].
  exists (y :: k). by rewrite mapM_cons, Hy, Hk.
Qed.

Lemma mask_rows_scores (flt : DocumentFilter) (c : string)
    (rs : list row) (col : Series) (scores : list (score flt)) :
  Forall2 (λ r v, row_get c r = Ok v) rs col →
  Forall2 (λ v sc, score_document flt v = Ok sc) col scores →
  mask_rows rs (keep_document flt <$> scores)
  = filter (λ r, passes flt c r = true) rs.
Proof.
  intros Hcol. revert scores.
  induction Hcol as [|r v rs col Hr _ IH]; intros scores Hsc.
  - by apply Forall2_nil_inv_l in Hsc as ->.
  - apply Forall2_cons_inv_l in Hsc as (sc & scores' & Hv & Hsc & ->).
    assert (passes flt c r = keep_document flt sc) as Hp.
    { unfold passes, row_get in *.
      destruct (r !! c) as [v'|]; [|done]. injection Hr as ->. by rewrite Hv. }
    csimpl. rewrite (IH _ Hsc), filter_cons, Hp.
    destruct (keep_document flt sc); by case_decide.
Qed.

Lemma ScoreFilter_inv (flt : DocumentFilter) (c : string) (df df' : DataFrame) :
  ScoreFilter flt c df = Ok df' →
  columns df' = columns df ∧
  rows df' = filter (λ r, passes flt c r = true) (rows df).
Proof.
  unfold ScoreFilter, getitem. case_decide; [|done].
  destruct (mapM (row_get c) (rows df)) as [col|] eqn:Hcol; [|done].
  rewrite bind_ok.
  destruct (mapM (score_document flt) col) as [scores|] eqn:Hsc; [|done].
  rewrite bind_ok. intros [= <-]. split; [done|]. cbn.
  eauto using mask_rows_scores, mapM_ok_inv.
Qed.

Lemma ScoreFilter_ok (flt : DocumentFilter) (c : string) (df : DataFrame) :
  c ∈ columns df →
  (∀ r, r ∈ rows df → ∃ v sc, r !! c = Some v ∧ score_document flt v = Ok sc) →
  ScoreFilter flt c df =
    Ok {| columns := columns df;
          rows := filter (λ r, passes flt c r = true) (rows df) |}.
Proof.
  intros Hc Hrows.
  assert (∃ df', ScoreFilter flt c df = Ok df') as [df' Hdf'].
  { unfold ScoreFilter, getitem. rewrite decide_True by done.
    destruct (mapM_is_ok (row_get c) (rows df)) as [col Hcol].
    { intros r (v & sc & Hv & _)%Hrows. exists v.
      unfold row_get. by rewrite Hv. }
    rewrite Hcol, bind_ok.
    destruct (mapM_is_ok (score_document flt) col) as [scores Hsc].
    { intros v Hv. apply mapM_ok_inv in Hcol.
      destruct (list_elem_of_lookup_1 _ _ Hv) as [i Hi].
      destruct (Forall2_lookup_r _ _ _ _ _ Hcol Hi) as (r & Hr & Hget).
      apply list_elem_of_lookup_2, Hrows in Hr as (v' & sc & Hv' & Hsc).
      unfold row_get in Hget. rewrite Hv' in Hget. injection Hget as ->.
      by eexists. }
    rewrite Hsc, bind_ok. by eexists. }
  rewrite Hdf'. destruct (ScoreFilter_inv _ _ _ _ Hdf') as [Hcols Hrs].
  destruct df'. cbn in *. by subst.
Qed.



(** ** The cells' monad *)

Lemma io_bind_inv {A B} (m : IO A) (k : A → IO B) (w w' : World) (b : B) :
  io_bind m k w = (Ok b, w') →
  ∃ a w1, m w = (Ok a, w1) ∧ k a w1 = (Ok b, w').
Proof.
  unfold io_bind. destruct (m w) as [[a|e] w1]; [|done]. intros. by exists a, w1.
Qed.

Lemma lift_inv {A} (r : result A) (w w' : World) (a : A) :
  lift r w = (Ok a, w') → r = Ok a ∧ w' = w.
Proof. unfold lift. by intros [= -> ->]. Qed.

Lemma bind_inv {A B} (m : result A) (f : A → result B) (b : B) :
  m ≫= f = Ok b → ∃ a, m = Ok a ∧ f a = Ok b.
Proof. destruct m as [a|]; [|done]. intros. by exists a. Qed.

Lemma print_inv (s : string) (w w' : World) (a : unit) :
  print s w = (Ok a, w') →
  files w' = files w ∧ dirs w' = dirs w ∧ console w' = (console w ++ [s])%list.
Proof. unfold print. by intros [= _ <-]. Qed.

(** ** The curation pipeline *)

Lemma df_drop_inv (cs : list string) (df df' : DataFrame) :
  df_drop cs df = Ok df' →
  cs ⊆ columns df ∧
  columns df' = filter (λ c, c ∉ cs) (columns df) ∧
  rows df' = (λ r : row, foldr delete r cs) <$> rows df.
Proof.
  unfold df_drop.
  destruct (filter (λ c, c ∉ columns df) cs) as [|c l] eqn:Hf; [|done].
  intros [= <-]. split; [|done].
  intros c Hc. destruct (decide (c ∈ columns df)) as [|Hn]; [done|].
  assert (c ∈ filter (λ c, c ∉ columns df) cs) as Hin
    by by apply list_elem_of_filter.
  rewrite Hf in Hin. set_solver.
Qed.

Lemma dask_drop_inv (cs : list string) (df df' : DataFrame) :
  dask_drop cs df = Ok df' → df_drop cs df = Ok df'.
Proof. unfold dask_drop. by destruct (df_drop cs df). Qed.

Lemma dask_drop_raise (cs : list string) (df : DataFrame) (e : error) :
  dask_drop cs df = Raise e →
  e = ValueError "Metadata inference failed in `drop`." ∧ ¬ cs ⊆ columns df.
Proof.
  unfold dask_drop. destruct (df_drop cs df) as [d|e'] eqn:Hd; [done|].
  intros [= <-]. split; [done|]. intros Hsub. revert Hd. unfold df_drop.
  destruct (filter (λ c, c ∉ columns df) cs) as [|c l] eqn:Hf; [done|].
  assert (c ∈ filter (λ c, c ∉ columns df) cs) as [Hn Hc]%list_elem_of_filter
    by (rewrite Hf; set_solver).
  destruct (Hn (Hsub c Hc)).
Qed.

Section CurationFacts.
Variable UnicodeReformatter : string → string.

Lemma Sequential_cpu_curation_steps_inv (raw d4 : DataFrame) :
  Sequential (cpu_curation_steps UnicodeReformatter) raw = Ok d4 →
  ∃ d1 d2 d3,
    Modify UnicodeReformatter "title" raw = Ok d1 ∧
    Modify UnicodeReformatter "question" d1 = Ok d2 ∧
    ScoreFilter (WordCountFilter 50 500) "question" d2 = Ok d3 ∧
    ScoreFilter (FilterLowScores 0) "question_score" d3 = Ok d4.
Proof.
  unfold Sequential, cpu_curation_steps. cbn [foldl]. rewrite bind_ok.
  intros (d3 & (d2 & (d1 & H1 & H2)%bind_inv & H3)%bind_inv & H4)%bind_inv.
  by exists d1, d2, d3.
Qed.

Lemma run_curation_pipeline_inv (raw curated : DataFrame) (device : string)
    (w w' : World) :
  run_curation_pipeline UnicodeReformatter raw device w = (Ok curated, w') →
  files w' = files w ∧ dirs w' = dirs w ∧
  ∃ d4,
    Sequential (cpu_curation_steps UnicodeReformatter) raw = Ok d4 ∧
    df_drop ["answer"; "answer_score"; "question_score"] d4 = Ok curated.
Proof.
  unfold run_curation_pipeline.
  intros (? & w1 & (Hf1 & Hd1 & _)%print_inv & H1)%io_bind_inv.
  apply io_bind_inv in H1 as (d4 & w2 & [Hseq ->]%lift_inv & H2).
  apply io_bind_inv in H2 as (d5 & w3 & [Hdrop%dask_drop_inv ->]%lift_inv & H3).
  apply io_bind_inv in H3 as (? & w4 & (Hf4 & Hd4 & _)%print_inv & H4).
  apply io_bind_inv in H4 as (? & w5 & (Hf5 & Hd5 & _)%print_inv & [= <- <-]).
  split; [congruence|]. split; [congruence|]. by exists d4.
Qed.
End CurationFacts.

(** The end-to-end example of section 8: the 520-word question goes at the
    word count, the question of score -1 at the score, and [Tenant rights]
    comes out formatted with its tags as output. *)
Example end_to_end :
  ∃ curated w' formatted,
    run_curation_pipeline id sample_dataset "cpu" empty_world = (Ok curated, w') ∧
    text "title" <$> rows curated = ["Tenant rights"; "Security deposit"] ∧
    console w' = ["Running curation pipeline on 'cpu'...";
                  "Original dataset length: 4"; "New dataset length: 2"] ∧
    format_dataset curated "law-stackexchange-curated.jsonl" = Ok formatted ∧
    columns formatted = ["input"; "output"; "filename"] ∧
    (λ r : row, r !! "output") <$> rows formatted
      = [Some (Str "contracts,leases"); Some (Str "deposits")] ∧
    (λ r : row, r !! "filename") <$> rows formatted
      = [Some (Str "law-stackexchange-curated.jsonl");
         Some (Str "law-stackexchange-curated.jsonl")].
Proof.
  eexists _, _, _. split; [vm_compute; reflexivity|].
  split; [reflexivity|]. split; [reflexivity|].
  split; [vm_compute; reflexivity|]. by vm_compute.
Qed.

Section CurationClaims.
Variable UnicodeReformatter : string → string.


End CurationClaims.



(** ** Positions and rows *)

Lemma omap_cons_Some {A B} (f : A → option B) (x : A) (y : B) (l : list A) :
  f x = Some y → omap f (x :: l) = y :: omap f l.
Proof. intros Hx. change (omap f (x :: l)) with
  (match f x with Some y => y :: omap f l | None => omap f l end).
  by rewrite Hx. Qed.

Lemma omap_lookup_seq_app {A} (k l : list A) :
  omap (λ i, (k ++ l)%list !! i) (seq (length k) (length l)) = l.
Proof.
  revert k. induction l as [|x l IH]; intros k; [done|].
  cbn [length seq].
  rewrite (omap_cons_Some _ _ x) by (by apply list_lookup_middle).
  f_equal. specialize (IH (k ++ [x])%list).
  rewrite length_app, Nat.add_1_r, <-app_assoc in IH. exact IH.
Qed.

Lemma omap_lookup_seq {A} (l : list A) :
  omap (λ i, l !! i) (seq 0 (length l)) = l.
Proof. apply (omap_lookup_seq_app []). Qed.

Lemma length_omap_lookup {A} (l : list A) (idx : list nat) :
  Forall (λ i, (i < length l)%nat) idx →
  length (omap (λ i, l !! i) idx) = length idx.
Proof.
  induction 1 as [|i idx Hi _ IH]; [done|].
  apply lookup_lt_is_Some in Hi as [x Hx].
  rewrite (omap_cons_Some _ _ x) by done. cbn. by rewrite IH.
Qed.

(** ** Rounding *)

Lemma py_int_floor (x : Q) : (0 <= x)%Q → py_int x = Qfloor x.
Proof.
  destruct x as [a b]. unfold Qle, py_int, Qfloor. cbn. intros Ha.
  apply Z.quot_div_nonneg; lia.
Qed.

Lemma py_round_bounds (x : Q) : Qfloor x ≤ py_round x ≤ Qceiling x.
Proof.
  destruct x as [a b]. unfold py_round, Qceiling, Qfloor. cbn [Qnum Qden Qopp].
  pose proof (Z.div_mod a (Zpos b) ltac:(lia)) as Hdm.
  pose proof (Z.mod_pos_bound a (Zpos b) ltac:(lia)) as Hmod.
  assert (a / Z.pos b ≤ - (- a / Z.pos b) ∧
          (a mod Z.pos b ≠ 0 → a / Z.pos b + 1 ≤ - (- a / Z.pos b))) as [H1 H2].
  { pose proof (Z.div_mod (- a) (Zpos b) ltac:(lia)) as Hdm'.
    pose proof (Z.mod_pos_bound (- a) (Zpos b) ltac:(lia)) as Hmod'.
    split; [nia|]. intros Hne. nia. }
  destruct (2 * (a - a / Z.pos b * Z.pos b) ?= Z.pos b) eqn:Hc.
  - apply Z.compare_eq in Hc. destruct (Z.even (a / Z.pos b)); [lia|].
    split; [lia|]. apply H2. nia.
  - lia.
  - apply Z.compare_gt_iff in Hc. split; [lia|]. apply H2. nia.
Qed.

Lemma Qpow2_nonpos (e : Z) : e ≤ 0 → ∃ s : positive, Qpow2 e = 1 # s.
Proof. destruct e as [|p|p]; [by exists 1%positive|lia|by eexists]. Qed.

(** Rounding on a grid that contains the integers does not cross an
    integer. *)
Lemma round_grid_bounds (x : Q) (s : positive) :
  (inject_Z (Qfloor x) <= inject_Z (py_round (x / (1 # s))) * (1 # s))%Q ∧
  (inject_Z (py_round (x / (1 # s))) * (1 # s) <= inject_Z (Qceiling x))%Q.
Proof.
  set (y := (x / (1 # s))%Q).
  assert (y == x * inject_Z (Zpos s))%Q as Hy by (unfold y; reflexivity).
  destruct (py_round_bounds y) as [Hlo Hhi].
  assert (Qfloor x * Zpos s ≤ Qfloor y) as Hlo'.
  { rewrite <-(Qfloor_Z (Qfloor x * Z.pos s)). apply Qfloor_resp_le.
    rewrite Hy, inject_Z_mult. apply Qmult_le_compat_r; [apply Qfloor_le|done]. }
  assert (Qceiling y ≤ Qceiling x * Zpos s) as Hhi'.
  { rewrite <-(Qceiling_Z (Qceiling x * Z.pos s)). apply Qceiling_resp_le.
    rewrite Hy, inject_Z_mult. apply Qmult_le_compat_r; [apply Qle_ceiling|done]. }
  unfold Qle. cbn. split; nia.
Qed.

(** A positive number below [2^L] has its leading bit below [L]. *)
Lemma ilog2_lt (x : Q) (L : Z) :
  0 < L → (0 < x)%Q → (x < inject_Z (2 ^ L))%Q → ilog2 x < L.
Proof.
  intros HL Hpos Hlt. apply Z.nle_gt. intros Hbig. apply Qlt_not_le in Hlt.
  apply Hlt. clear Hlt. revert Hbig. unfold ilog2.
  destruct x as [a b]. cbn [Qnum Qden].
  assert (0 < a) as Ha by (revert Hpos; unfold Qlt; cbn; lia).
  pose proof (Z.log2_spec a Ha) as [Hla _].
  pose proof (Z.log2_spec (Zpos b) ltac:(lia)) as [_ Hlb].
  pose proof (Z.log2_nonneg (Zpos b)) as Hlb0.
  set (la := Z.log2 a) in *. set (lb := Z.log2 (Zpos b)) in *.
  destruct (Qle_bool (Qpow2 (la - lb)) (a # b)) eqn:Htest.
  - intros Hk. apply Qle_bool_iff in Htest.
    eapply Qle_trans; [|exact Htest].
    destruct (la - lb) as [|p|p] eqn:Hp; [lia| |lia].
    cbn [Qpow2]. rewrite <-Zle_Qle. apply Z.pow_le_mono_r; lia.
  - intros Hk. unfold Qle. cbn [Qnum Qden inject_Z].
    assert (2 ^ L * 2 ^ (lb + 1) ≤ 2 ^ la) as Hpow.
    { rewrite <-Z.pow_add_r by lia. apply Z.pow_le_mono_r; lia. }
    replace (Z.succ lb) with (lb + 1) in Hlb by lia.
    assert (0 < 2 ^ L) by (apply Z.pow_pos_nonneg; lia). nia.
Qed.

(** Below [2^53] the integers are binary64 numbers, so rounding to binary64
    does not cross an integer. *)
Lemma round64_bounds (x : Q) :
  (0 <= x)%Q → (x < inject_Z (2 ^ 53))%Q →
  (inject_Z (Qfloor x) <= round64 x)%Q ∧ (round64 x <= inject_Z (Qceiling x))%Q.
Proof.
  intros H0 Hlt. unfold round64.
  destruct (Qeq_bool x 0) eqn:Hz.
  - apply Qeq_bool_iff in Hz.
    rewrite Hz. change (Qfloor 0) with 0. change (Qceiling 0) with 0. done.
  - apply Qeq_bool_neq in Hz.
    assert (0 < x)%Q as Hpos.
    { apply Qle_lteq in H0 as [?|Heq]; [done|]. destruct Hz. by symmetry. }
    assert (Qabs x = x) as ->.
    { destruct x as [a b]. unfold Qabs. f_equal. apply Z.abs_eq.
      revert H0. unfold Qle. cbn. lia. }
    cbv zeta.
    destruct (Qpow2_nonpos (Z.max (ilog2 x - 52) (-1074))) as [s ->].
    { pose proof (ilog2_lt x 53 ltac:(lia) Hpos Hlt). lia. }
    rewrite Qred_correct. apply round_grid_bounds.
Qed.

Lemma Qred_inject_Z (n : Z) : Qred (inject_Z n) = inject_Z n.
Proof.
  unfold Qred, inject_Z.
  pose proof (Z.ggcd_gcd n 1) as Hg.
  pose proof (Z.ggcd_correct_divisors n 1) as Hd.
  destruct (Z.ggcd n 1) as [g [aa bb]]. cbn in Hg, Hd.
  rewrite Z.gcd_1_r in Hg. subst g. destruct Hd as [Ha Hb].
  f_equal; [lia|]. assert (bb = 1) as -> by lia. done.
Qed.

(** The conversion of a length is exact. *)
Lemma float_of_int_exact (n : Z) :
  0 ≤ n < 2 ^ 53 → float_of_int n = inject_Z n.
Proof.
  intros Hn. unfold float_of_int.
  destruct (round64_bounds (inject_Z n)) as [Hlo Hhi].
  { change 0%Q with (inject_Z 0). rewrite <-Zle_Qle. lia. }
  { rewrite <-Zlt_Qlt. lia. }
  rewrite Qfloor_Z in Hlo. rewrite Qceiling_Z in Hhi.
  assert (round64 (inject_Z n) == inject_Z n)%Q as Heq by (by apply Qle_antisym).
  revert Heq. unfold round64. destruct (Qeq_bool (inject_Z n) 0) eqn:Hz.
  - apply Qeq_bool_iff in Hz. revert Hz. unfold Qeq. cbn. intros Hz _.
    assert (n = 0) as -> by lia. done.
  - intros Heq. rewrite Qred_correct in Heq.
    rewrite (Qred_complete _ _ Heq). apply Qred_inject_Z.
Qed.

Lemma val_size_between (n : Z) (v : Q) :
  0 ≤ n < 2 ^ 53 → (0 <= v)%Q → (v <= 1)%Q →
  Qfloor (inject_Z n * v) ≤ val_size n v ≤ Qceiling (inject_Z n * v) ∧
  0 ≤ val_size n v ≤ n.
Proof.
  intros Hn Hv0 Hv1. unfold val_size, fmul.
  rewrite float_of_int_exact by done.
  set (x := (inject_Z n * v)%Q).
  assert (0 <= inject_Z n)%Q as Hn0
    by (change 0%Q with (inject_Z 0); rewrite <-Zle_Qle; lia).
  assert (0 <= x)%Q as Hx0 by (by apply Qmult_le_0_compat).
  assert (x <= inject_Z n)%Q as Hxn.
  { unfold x. rewrite <-(Qmult_1_r (inject_Z n)) at 2.
    apply Qmult_le_compat_nonneg; split; try done; apply Qle_refl. }
  destruct (round64_bounds x) as [Hlo Hhi]; [done| |].
  { eapply Qle_lt_trans; [exact Hxn|]. rewrite <-Zlt_Qlt. lia. }
  apply Qfloor_resp_le in Hx0 as Hfl0. change (Qfloor 0) with 0 in Hfl0.
  rewrite py_int_floor.
  2:{ eapply Qle_trans; [|exact Hlo].
      change 0%Q with (inject_Z 0). by rewrite <-Zle_Qle. }
  apply Qfloor_resp_le in Hlo, Hhi. rewrite Qfloor_Z in Hlo, Hhi.
  split; [done|].
  apply Qceiling_resp_le in Hxn. rewrite Qceiling_Z in Hxn. lia.
Qed.

(** Rounding to the nearest integer adds a half at most. *)
Lemma py_round_le_half (y : Q) :
  2 * py_round y * Zpos (Qden y) ≤ 2 * Qnum y + Zpos (Qden y).
Proof.
  destruct y as [a b]. unfold py_round, Qfloor. cbn [Qnum Qden].
  pose proof (Z.div_mod a (Zpos b) ltac:(lia)) as Hdm.
  pose proof (Z.mod_pos_bound a (Zpos b) ltac:(lia)) as Hmod.
  destruct (2 * (a - a / Z.pos b * Z.pos b) ?= Z.pos b) eqn:Hc.
  - apply Z.compare_eq in Hc. destruct (Z.even (a / Z.pos b)); nia.
  - nia.
  - apply Z.compare_gt_iff in Hc. nia.
Qed.

Lemma notebook_ratio_arith (n s m : Z) :
  0 < n < 2 ^ 32 → 2 ^ 25 ≤ s →
  2 * m * 72057594037927936 ≤ 2 * (n * 3602879701896397 * s) + 72057594037927936 →
  m < (n / 20 + 1) * s.
Proof.
  intros Hn Hs Hm.
  pose proof (Z.div_mod n 20 ltac:(lia)) as Hdm.
  pose proof (Z.mod_pos_bound n 20 ltac:(lia)) as Hmod.
  set (K := n / 20) in *.
  apply Z.nle_gt. intros Hge.
  assert (n + 1 ≤ 20 * (K + 1)) as HK by lia.
  change (2 ^ 32) with 4294967296 in Hn. change (2 ^ 25) with 33554432 in Hs.
  assert (20 * (K + 1) * s * 72057594037927936
          ≤ 10 * (2 * m * 72057594037927936)) as H1 by nia.
  assert ((n + 1) * s * 72057594037927936 ≤ 20 * (K + 1) * s * 72057594037927936)
    as H2 by nia.
  assert (s * (72057594037927936 - 4 * n) ≤ 10 * 72057594037927936) as H3 by nia.
  assert (36028797018963968 ≤ 72057594037927936 - 4 * n) as H4 by lia.
  nia.
Qed.

(** With the notebook's ratio the product of a length below [2^32] is
    rounded on a grid of step [2^-25] at most, too fine to reach the next
    integer from [n/20]. *)
Lemma val_size_VAL_RATIO (n : Z) :
  0 ≤ n < 2 ^ 32 → val_size n VAL_RATIO = n / 20.
Proof.
  intros Hn. destruct (decide (n = 0)) as [->|Hn0]; [vm_compute; reflexivity|].
  unfold val_size, fmul. rewrite float_of_int_exact by lia.
  change (2 ^ 32) with 4294967296 in Hn.
  set (x := (inject_Z n * VAL_RATIO)%Q).
  assert (Qnum x = n * 3602879701896397 ∧ Qden x = 72057594037927936%positive)
    as [Hnum Hden] by done.
  assert (0 < x)%Q as Hpos by (unfold Qlt; rewrite Hnum; cbn; lia).
  assert (x < inject_Z (2 ^ 28))%Q as Hlt
    by (unfold Qlt; rewrite Hnum, Hden; cbn; lia).
  pose proof (ilog2_lt x 28 ltac:(lia) Hpos Hlt) as Hlog.
  unfold round64.
  assert (Qeq_bool x 0 = false) as ->.
  { apply not_true_is_false. intros H%Qeq_bool_iff. rewrite H in Hpos.
    by apply Qlt_irrefl in Hpos. }
  assert (Qabs x = x) as ->.
  { destruct x as [a b]. unfold Qabs. f_equal. apply Z.abs_eq.
    cbn in Hnum. lia. }
  cbv zeta.
  destruct (Z.max (ilog2 x - 52) (-1074)) as [| |p] eqn:He; try lia.
  cbn [Qpow2]. set (s := (2 ^ p)%positive).
  assert (2 ^ 25 ≤ Zpos s) as Hs.
  { unfold s. rewrite Pos2Z.inj_pow. apply Z.pow_le_mono_r; lia. }
  destruct (round_grid_bounds x s) as [Hlo _].
  pose proof (py_round_le_half (x / (1 # s))) as Hhi.
  set (m := py_round (x / (1 # s))) in *.
  assert (Qnum (x / (1 # s)) = n * 3602879701896397 * Zpos s ∧
          Qden (x / (1 # s)) = 72057594037927936%positive) as [Hnum' Hden'].
  { unfold Qdiv, Qinv, Qmult. cbn [Qnum Qden]. rewrite Hnum, Hden.
    split; [done|]. apply Pos.mul_1_r. }
  rewrite Hnum', Hden' in Hhi.
  assert (Qfloor x * Zpos s ≤ m) as Hlo'.
  { revert Hlo. unfold Qle. cbn [Qnum Qden inject_Z Qmult]. lia. }
  assert (n / 20 ≤ Qfloor x) as HK.
  { unfold Qfloor. destruct x as [a b]. cbn in Hnum, Hden. subst a b.
    apply Z.div_le_lower_bound; [lia|].
    pose proof (Z.div_mod n 20 ltac:(lia)).
    pose proof (Z.mod_pos_bound n 20 ltac:(lia)). nia. }
  pose proof (notebook_ratio_arith n (Zpos s) m ltac:(lia) Hs Hhi) as Hup.
  assert (0 ≤ n / 20) as HK0 by (apply Z.div_pos; lia).
  rewrite py_int_floor.
  2:{ rewrite Qred_correct. unfold Qle. cbn. nia. }
  rewrite (Qfloor_comp _ _ (Qred_correct _)).
  unfold Qfloor, Qmult, inject_Z. cbn [Qnum Qden].
  rewrite Z.mul_1_r, Pos.mul_1_l.
  apply Z.le_antisymm.
  - apply Z.lt_succ_r, Z.div_lt_upper_bound; lia.
  - apply Z.div_le_lower_bound; [lia|]. nia.
Qed.

(** In binary64 [100 * 0.29] is 28.999999999999996, [10 * 0.7] is 7.0,
    [3 * (1/3)] is 1.0 and [35 * 0.05] is 1.75. *)
Example val_size_examples :
  val_size 100 (5224175567749775 # 18014398509481984) = 28 ∧
  val_size 10 ratio_0_7 = 7 ∧
  val_size 3 (6004799503160661 # 18014398509481984) = 1 ∧
  val_size 35 VAL_RATIO = 1.
Proof. repeat split; vm_compute; reflexivity. Qed.

(** ** Writing frames *)

Lemma wrote_refl (P : row → Prop) (w : World) : wrote P w w.
Proof. intros p. by left. Qed.

Lemma wrote_trans (P : row → Prop) (w1 w2 w3 : World) :
  wrote P w1 w2 → wrote P w2 w3 → wrote P w1 w3.
Proof.
  intros H12 H23 p. destruct (H23 p) as [->|?]; [apply H12|by right].
Qed.

Lemma wrote_same_files (P : row → Prop) (w w' : World) :
  files w' = files w → wrote P w w'.
Proof. intros Hf p. left. by rewrite Hf. Qed.

Lemma write_partition_files (P : row → Prop) (dir : string) (df : DataFrame)
    (fn : cell) (w w' : World) (a : unit) :
  Forall P (rows df) →
  write_partition dir df fn w = (Ok a, w') → wrote P w w'.
Proof.
  intros HP. destruct fn as [name|z]; [|done]. intros [= _ <-] p. cbn.
  destruct (decide (dir ++ "/" ++ name = p)) as [<-|Hne].
  - right. eexists. rewrite lookup_insert_eq. split; [done|].
    rewrite Forall_forall in HP. apply Forall_forall.
    intros r [_ Hr]%list_elem_of_filter. by apply HP.
  - left. by rewrite lookup_insert_ne.
Qed.

Lemma io_iter_files {A} (P : row → Prop) (f : A → IO unit) (l : list A) :
  (∀ x w w' a, f x w = (Ok a, w') → wrote P w w') →
  ∀ w w' a, io_iter f l w = (Ok a, w') → wrote P w w'.
Proof.
  intros Hf. induction l as [|x l IH]; intros w w' a.
  - intros [= _ <-]. apply wrote_refl.
  - cbn [io_iter]. intros (? & w1 & H1 & H2)%io_bind_inv.
    eapply wrote_trans; eauto.
Qed.

Lemma to_json_files (P : row → Prop) (df : DataFrame) (dir : string)
    (w w' : World) (a : unit) :
  Forall P (rows df) →
  to_json df dir w = (Ok a, w') → wrote P w w'.
Proof.
  intros HP. unfold to_json.
  intros (fns & w1 & [_ ->]%lift_inv & H1)%io_bind_inv.
  apply io_bind_inv in H1 as (? & w2 & [= _ <-] & H2).
  apply (io_iter_files P) in H2.
  - intros p. apply (H2 p).
  - intros. by eapply write_partition_files.
Qed.

Lemma io_iter_ok {A} (f : A → IO unit) (l : list A) :
  (∀ x, x ∈ l → ∀ w, ∃ w', f x w = (Ok tt, w')) →
  ∀ w, ∃ w', io_iter f l w = (Ok tt, w').
Proof.
  induction l as [|x l IH]; intros Hf w; [by eexists|].
  destruct (Hf x ltac:(set_solver) w) as [w1 H1].
  destruct (IH ltac:(intros; apply Hf; set_solver) w1) as [w2 H2].
  exists w2. cbn [io_iter]. unfold io_bind. by rewrite H1.
Qed.

(** ** Splitting *)

Lemma io_bind_ok_eq {A B} (m : IO A) (k : A → IO B) (w w1 : World) (a : A) :
  m w = (Ok a, w1) → io_bind m k w = k a w1.
Proof. unfold io_bind. by intros ->. Qed.

Lemma io_bind_ok_ex {A B} (m : IO A) (k : A → IO B) (w w1 : World) (a : A)
    (r : result B) :
  m w = (Ok a, w1) → (∃ w', k a w1 = (r, w')) → ∃ w', io_bind m k w = (r, w').
Proof. intros Hm [w' Hk]. exists w'. by rewrite (io_bind_ok_eq _ _ _ _ _ Hm). Qed.

(** *** What the writer writes *)

Lemma remove_dups_constant {A B} `{EqDecision B} (y : B) (l : list A) :
  l ≠ [] → remove_dups ((λ _, y) <$> l) = [y].
Proof.
  induction l as [|x l IH]; [done|]. intros _.
  destruct l as [|x' l]; [done|].
  change (remove_dups ((λ _, y) <$> x :: x' :: l))
    with (if decide_rel (∈) y ((λ _ : A, y) <$> x' :: l)
          then remove_dups ((λ _ : A, y) <$> x' :: l)
          else y :: remove_dups ((λ _ : A, y) <$> x' :: l)).
  destruct (decide_rel _ _ _) as [_|Hn]; [by apply IH|].
  exfalso. apply Hn. rewrite fmap_cons. set_solver.
Qed.

Lemma filter_all {A} (P : A → Prop) `{!∀ x, Decision (P x)} (l : list A) :
  (∀ x, x ∈ l → P x) → filter P l = l.
Proof.
  induction l as [|x l IH]; intros Hl; [done|].
  rewrite filter_cons_True by (apply Hl; set_solver).
  f_equal. apply IH. intros. apply Hl. set_solver.
Qed.

(** A frame whose records all go to the file [fn] is written to that file, as
    it is; an empty one is not written at all. *)
Lemma to_json_constant (df : DataFrame) (fn dir : string) (w : World) :
  "filename" ∈ columns df →
  (∀ r, r ∈ rows df → r !! "filename" = Some (Str fn)) →
  to_json df dir w =
    (Ok tt,
     {| files := if decide (rows df = []) then files w
                 else <[dir ++ "/" ++ fn := Jsonl (rows df)]> (files w);
        dirs := {[dir]} ∪ dirs w; console := console w |}).
Proof.
  intros Hc Hfn. unfold to_json.
  rewrite (getitem_fmap "filename" (λ _, Str fn)) by done.
  unfold io_bind, lift, makedirs. cbv beta iota.
  destruct (decide (rows df = [])) as [->|Hne]; [done|].
  rewrite remove_dups_constant by done.
  cbn [io_iter]. unfold io_bind, write_partition, write_file, io_ret.
  cbv beta iota. cbn [files dirs console].
  by rewrite (filter_all _ _ Hfn).
Qed.

Lemma setitem_scalar_filename (fn : string) (df : DataFrame) :
  "filename" ∈ columns (setitem_scalar "filename" (Str fn) df) ∧
  ∀ r, r ∈ rows (setitem_scalar "filename" (Str fn) df) →
       r !! "filename" = Some (Str fn).
Proof.
  split; [apply elem_of_add_column; by left|].
  intros r' (r & -> & _)%list_elem_of_fmap. apply lookup_insert_eq.
Qed.

(** *** Frames in index order *)

#[global] Instance label_le_trans : Transitive label_le.
Proof. intros a b c. unfold label_le. lia. Qed.

#[global] Instance label_le_total : Total label_le.
Proof. intros a b. unfold label_le. lia. Qed.

Lemma from_pandas_rows_subseteq (data : Indexed) :
  rows (from_pandas data) ⊆ rows (frame data).
Proof.
  intros r ([i r'] & -> & Hin)%list_elem_of_fmap.
  rewrite merge_sort_Permutation in Hin. by apply elem_of_zip_r in Hin.
Qed.

Lemma from_pandas_filename (fn : string) (part : Indexed) :
  "filename" ∈ columns (from_pandas (set_filename fn part)) ∧
  ∀ r, r ∈ rows (from_pandas (set_filename fn part)) →
       r !! "filename" = Some (Str fn).
Proof.
  split; [apply elem_of_add_column; by left|].
  intros r Hr%from_pandas_rows_subseteq.
  by apply (setitem_scalar_filename fn (frame part)).
Qed.

Lemma to_json_part (fn dir : string) (part : Indexed) (w : World) :
  let recs := rows (from_pandas (set_filename fn part)) in
  to_json (from_pandas (set_filename fn part)) dir w =
    (Ok tt,
     {| files := if decide (recs = []) then files w
                 else <[dir ++ "/" ++ fn := Jsonl recs]> (files w);
        dirs := {[dir]} ∪ dirs w; console := console w |}).
Proof. apply to_json_constant; apply from_pandas_filename. Qed.

Lemma omap_lookup_default {A} (d : A) (l : list A) (idx : list nat) :
  Forall (λ i, (i < length l)%nat) idx →
  omap (λ i, l !! i) idx = (λ i, default d (l !! i)) <$> idx.
Proof.
  induction 1 as [|i idx Hi _ IH]; [done|].
  apply lookup_lt_is_Some in Hi as [x Hx].
  rewrite (omap_cons_Some _ _ x) by done. csimpl. by rewrite Hx, IH.
Qed.

(** The records of a part come out of [from_pandas] in the order of their
    positions in the frame that was split. *)
Lemma from_pandas_sorted (fn : string) (df : DataFrame) (idx : list nat) :
  Forall (λ i, (i < length (rows df))%nat) idx →
  rows (from_pandas (set_filename fn (iloc_indexed df idx)))
    = tag fn <$> omap (λ i, rows df !! i) (merge_sort le idx).
Proof.
  intros Hidx.
  cbn [from_pandas set_filename iloc_indexed rows frame index setitem_scalar iloc].
  rewrite (omap_lookup_default ∅) by done.
  rewrite (omap_lookup_default ∅) by (by rewrite merge_sort_Permutation).
  rewrite <-!list_fmap_compose.
  set (g := (λ r : row, <["filename" := Str fn]> r)
            ∘ (λ i, default ∅ (rows df !! i))).
  change (tag fn ∘ _) with g.
  assert (zip idx (g <$> idx) = (λ i, (i, g i)) <$> idx) as ->.
  { rewrite <-(list_fmap_id idx) at 1. apply zip_fmap_same. }
  set (h := λ i : nat, (i, g i)).
  pose proof (merge_sort_Permutation label_le (h <$> idx)) as Hperm.
  set (ps := merge_sort label_le (h <$> idx)) in *.
  assert (ps = h <$> ps.*1) as Hform.
  { assert (Forall (λ p, p = h p.1) ps) as Hall.
    { rewrite Hperm. apply Forall_fmap, Forall_true. done. }
    clear Hperm. induction Hall as [|p ps' Hp _ IH]; [done|].
    csimpl. by rewrite <-Hp, <-IH. }
  assert (ps.*1 = merge_sort le idx) as Hkeys.
  { apply (StronglySorted_unique le).
    - apply (StronglySorted_fmap _ label_le); [done|].
      apply StronglySorted_merge_sort; apply _.
    - apply StronglySorted_merge_sort; apply _.
    - rewrite Hperm, <-list_fmap_compose, merge_sort_Permutation.
      by rewrite list_fmap_id. }
  rewrite Hform, <-list_fmap_compose, Hkeys. done.
Qed.

Section SplitFacts.
Variable permutation : nat → list nat.
Variable DATA_DIR : string.
Hypothesis permutation_spec : ∀ n, permutation n ≡ₚ seq 0 n.

Lemma permutation_length (n : nat) : length (permutation n) = n.
Proof. by rewrite permutation_spec, length_seq. Qed.

Lemma permutation_bound (n : nat) (idx : list nat) :
  idx ⊆ permutation n → Forall (λ i, (i < n)%nat) idx.
Proof.
  intros Hsub. apply Forall_forall. intros i Hi%Hsub.
  rewrite permutation_spec in Hi. apply elem_of_seq in Hi. lia.
Qed.

Lemma train_test_split_ok (df : DataFrame) (test_size : Z) :
  0 < test_size < len df →
  train_test_split permutation df test_size =
    Ok (iloc_indexed df
          (drop (Z.to_nat test_size) (permutation (length (rows df)))),
        iloc_indexed df
          (take (Z.to_nat test_size) (permutation (length (rows df))))).
Proof.
  intros Hts. unfold train_test_split, len in *.
  rewrite decide_False by lia. done.
Qed.

Lemma train_test_split_raise (df : DataFrame) (test_size : Z) :
  test_size ≤ 0 ∨ len df ≤ test_size →
  ∃ msg, train_test_split permutation df test_size = Raise (ValueError msg).
Proof.
  intros Hts. unfold train_test_split, len in *.
  rewrite decide_True by lia. by eexists.
Qed.

Lemma train_test_split_lengths (df : DataFrame) (test_size : Z) :
  0 < test_size < len df →
  let p := permutation (length (rows df)) in
  len (iloc df (take (Z.to_nat test_size) p)) = test_size ∧
  len (iloc df (drop (Z.to_nat test_size) p)) = len df - test_size.
Proof.
  intros Hts p. unfold len in *. cbn.
  rewrite !length_omap_lookup.
  - rewrite length_take, length_drop. unfold p.
    rewrite permutation_length. lia.
  - apply permutation_bound, subseteq_drop.
  - apply permutation_bound, subseteq_take.
Qed.

(** The whole cell, when both parts are non-empty. *)
Lemma split_cell_ok (df : DataFrame) (v : Q) (w : World) :
  (0 <= v)%Q → (v <= 1)%Q →
  0 < val_size (len df) v < len df →
  let p := permutation (length (rows df)) in
  let n_test := Z.to_nat (val_size (len df) v) in
  ∃ w',
    split_cell permutation DATA_DIR df v w =
      (Ok (set_filename "train.jsonl" (iloc_indexed df (drop n_test p)),
           set_filename "val.jsonl" (iloc_indexed df (take n_test p))),
       w').
Proof.
  intros Hv0 Hv1 Hsize p n_test. unfold split_cell. cbv zeta.
  replace (0 <? len df) with true by (symmetry; apply Z.ltb_lt; lia).
  replace (Qle_bool 0 v && Qle_bool v 1) with true.
  2:{ symmetry. apply andb_true_iff. by rewrite !Qle_bool_iff. }
  rewrite train_test_split_ok by done.
  fold p n_test.
  do 8 (eapply io_bind_ok_ex; [reflexivity|]).
  eapply io_bind_ok_ex; [apply to_json_part|].
  eapply io_bind_ok_ex; [apply to_json_part|].
  by eexists.
Qed.

Lemma split_cell_empty (df : DataFrame) (v : Q) (w : World) :
  len df ≤ 0 →
  split_cell permutation DATA_DIR df v w =
    (Raise (AssertionError "The dataset is empty."), w).
Proof.
  intros Hlen. unfold split_cell. cbv zeta.
  by replace (0 <? len df) with false by (symmetry; apply Z.ltb_ge; lia).
Qed.

Lemma split_cell_bad_ratio (df : DataFrame) (v : Q) (w : World) :
  0 < len df → ¬ ((0 <= v)%Q ∧ (v <= 1)%Q) →
  split_cell permutation DATA_DIR df v w =
    (Raise (AssertionError "VAL_RATIO must be between 0 and 1."), w).
Proof.
  intros Hlen Hv. unfold split_cell. cbv zeta.
  replace (0 <? len df) with true by (symmetry; apply Z.ltb_lt; lia).
  replace (Qle_bool 0 v && Qle_bool v 1) with false; [done|].
  symmetry. apply not_true_is_false.
  by rewrite andb_true_iff, !Qle_bool_iff.
Qed.

Lemma split_cell_rejected (df : DataFrame) (v : Q) (w : World) :
  0 < len df → (0 <= v)%Q → (v <= 1)%Q →
  val_size (len df) v ≤ 0 ∨ len df ≤ val_size (len df) v →
  ∃ msg,
    split_cell permutation DATA_DIR df v w =
      (Raise (ValueError msg),
       {| files := files w; dirs := {[DATA_DIR ++ "/split"]} ∪ dirs w;
          console := console w |}).
Proof.
  intros Hlen Hv0 Hv1 Hsize. unfold split_cell. cbv zeta.
  replace (0 <? len df) with true by (symmetry; apply Z.ltb_lt; lia).
  replace (Qle_bool 0 v && Qle_bool v 1) with true.
  2:{ symmetry. apply andb_true_iff. by rewrite !Qle_bool_iff. }
  destruct (train_test_split_raise df _ Hsize) as [msg ->].
  by exists msg.
Qed.

(** A split that succeeds is the one [split_cell_ok] describes. *)
Lemma split_cell_inv (df : DataFrame) (train val : Indexed) (v : Q)
    (w w' : World) :
  split_cell permutation DATA_DIR df v w = (Ok (train, val), w') →
  let p := permutation (length (rows df)) in
  let n_test := Z.to_nat (val_size (len df) v) in
  0 < val_size (len df) v < len df ∧ (0 <= v)%Q ∧ (v <= 1)%Q ∧
  train = set_filename "train.jsonl" (iloc_indexed df (drop n_test p)) ∧
  val = set_filename "val.jsonl" (iloc_indexed df (take n_test p)).
Proof.
  intros Hcell p n_test.
  destruct (decide (len df ≤ 0)) as [Hlen|Hlen].
  { by rewrite split_cell_empty in Hcell. }
  assert ((0 <= v)%Q ∧ (v <= 1)%Q) as [Hv0 Hv1].
  { rewrite <-!Qle_bool_iff, <-andb_true_iff.
    destruct (Qle_bool 0 v && Qle_bool v 1) eqn:Hv; [done|].
    rewrite split_cell_bad_ratio in Hcell; [done|lia|].
    rewrite <-!Qle_bool_iff, <-andb_true_iff. congruence. }
  destruct (decide (0 < val_size (len df) v < len df)) as [Hsize|Hsize].
  2:{ destruct (split_cell_rejected df v w) as (msg & Hr);
        [lia|done|done|lia|]. by rewrite Hr in Hcell. }
  destruct (split_cell_ok df v w Hv0 Hv1 Hsize) as [w1 Hok].
  rewrite Hok in Hcell. by injection Hcell as <- <- <-.
Qed.
End SplitFacts.

Lemma len_setitem_scalar (c : string) (v : cell) (df : DataFrame) :
  len (setitem_scalar c v df) = len df.
Proof. unfold len. cbn. by rewrite length_fmap. Qed.

Lemma len_numbered_dataset (n : nat) : len (numbered_dataset n) = Z.of_nat n.
Proof. unfold len, numbered_dataset, rows. by rewrite length_fmap, length_seq. Qed.

Lemma backwards_spec (n : nat) : backwards n ≡ₚ seq 0 n.
Proof. apply reverse_Permutation. Qed.

Section SplitClaims.
Variable permutation : nat → list nat.
Variable DATA_DIR : string.
Hypothesis permutation_spec : ∀ n, permutation n ≡ₚ seq 0 n.

(** C1, as the code has it.  For a ratio in [[0,1]] the validation part has
    [int(N*v)] records, the product being the binary64 product: that is N*v
    rounded down, or rounded up when the binary64 product reaches the next
    integer.  The training part has the other [N - int(N*v)] records.  This
    whenever both parts are non-empty; the length is below [2^53], so that
    its conversion to binary64 is exact. *)
Theorem split_sizes (df : DataFrame) (v : Q) (w : World) :
  let size := py_int (fmul (float_of_int (len df)) v) in
  (0 <= v)%Q → (v <= 1)%Q →
  len df < 2 ^ 53 →
  0 < size < len df →
  Qfloor (inject_Z (len df) * v) ≤ size ≤ Qceiling (inject_Z (len df) * v) ∧
  ∃ train val w',
    split_cell permutation DATA_DIR df v w = (Ok (train, val), w') ∧
    len (frame val) = size ∧
    len (frame train) = len df - size.
Proof.
  intros size Hv0 Hv1 Hbig Hsize. fold (val_size (len df) v) in size.
  subst size.
  split; [apply val_size_between; [lia|done|done]|].
  destruct (split_cell_ok permutation DATA_DIR df v w Hv0 Hv1 Hsize) as [w' Hok].
  destruct (train_test_split_lengths permutation permutation_spec df _ Hsize)
    as [Hval Htrain].
  eexists _, _, w'. split; [exact Hok|].
  cbn [frame set_filename iloc_indexed].
  rewrite !len_setitem_scalar. lia.
Qed.

(** C5.  The two parts a split returns carry the positions their records have
    in the dataset.  Every position of the dataset is in exactly one of the
    two parts, the records of a part are the dataset's records at the part's
    positions with the destination as [filename], and the two parts together
    are the dataset, record for record, but for that field. *)
Theorem split_partition (df : DataFrame) (train val : Indexed) (v : Q)
    (w w' : World) :
  split_cell permutation DATA_DIR df v w = (Ok (train, val), w') →
  ((index train ++ index val)%list ≡ₚ seq 0 (length (rows df))) ∧
  (∀ i, (i < length (rows df))%nat →
        (i ∈ index train ∧ i ∉ index val) ∨ ((i ∉ index train) ∧ i ∈ index val)) ∧
  rows (frame train)
    = tag "train.jsonl" <$> omap (λ i, rows df !! i) (index train) ∧
  rows (frame val)
    = tag "val.jsonl" <$> omap (λ i, rows df !! i) (index val) ∧
  length (rows (frame train)) = length (index train) ∧
  length (rows (frame val)) = length (index val) ∧
  (delete "filename" <$> (rows (frame train) ++ rows (frame val)))%list
    ≡ₚ (delete "filename" <$> rows df).
Proof.
  intros (Hsize & _ & _ & -> & ->)%split_cell_inv.
  set (p := permutation (length (rows df))).
  set (n_test := Z.to_nat (val_size (len df) v)).
  cbn [index frame set_filename iloc_indexed rows setitem_scalar iloc].
  assert ((drop n_test p ++ take n_test p)%list ≡ₚ seq 0 (length (rows df)))
    as Hperm.
  { rewrite Permutation_app_comm, take_drop. apply permutation_spec. }
  assert (Forall (λ i, (i < length (rows df))%nat) (drop n_test p)) as Hbt
    by apply (permutation_bound permutation permutation_spec), subseteq_drop.
  assert (Forall (λ i, (i < length (rows df))%nat) (take n_test p)) as Hbv
    by apply (permutation_bound permutation permutation_spec), subseteq_take.
  split; [done|]. split; [|split; [done|split; [done|split; [|split]]]].
  - intros i Hi.
    assert (NoDup (drop n_test p ++ take n_test p)) as Hnd
      by (rewrite Hperm; apply NoDup_seq).
    apply NoDup_app in Hnd as (_ & Hdisj & _).
    assert (i ∈ (drop n_test p ++ take n_test p)%list) as Hin
      by (rewrite Hperm; apply elem_of_seq; lia).
    apply elem_of_app in Hin as [Hin|Hin].
    + left. split; [done|]. by apply Hdisj.
    + right. split; [|done]. intros Hd. by apply (Hdisj i).
  - by rewrite length_fmap, length_omap_lookup.
  - by rewrite length_fmap, length_omap_lookup.
  - assert (∀ fn (l : list row),
              delete "filename" <$> ((λ r : row, <["filename" := Str fn]> r) <$> l)
              = delete "filename" <$> l)
      as Htag.
    { intros fn l. rewrite <-list_fmap_compose. apply list_fmap_ext.
      intros i r _. unfold compose. apply delete_insert_eq. }
    rewrite fmap_app, !Htag, <-fmap_app, <-omap_app, Hperm.
    by rewrite omap_lookup_seq.
Qed.
End SplitClaims.

Section SplitAsserts.
Variable permutation : nat → list nat.
Variable DATA_DIR : string.

(** C8.  The split cell first checks that the dataset is not empty and
    that the ratio is in [[0,1]]; a failed check raises its assertion
    error and leaves the world as it was, so nothing of the split is
    written; with both checks passed no assertion error is raised. *)
Theorem split_cell_asserts (df : DataFrame) (v : Q) (w : World) :
  (len df ≤ 0 →
     split_cell permutation DATA_DIR df v w =
       (Raise (AssertionError "The dataset is empty."), w)) ∧
  (0 < len df → ¬ ((0 <= v)%Q ∧ (v <= 1)%Q) →
     split_cell permutation DATA_DIR df v w =
       (Raise (AssertionError "VAL_RATIO must be between 0 and 1."), w)) ∧
  (0 < len df → (0 <= v)%Q → (v <= 1)%Q →
     ∀ msg w',
       split_cell permutation DATA_DIR df v w ≠ (Raise (AssertionError msg), w')).
Proof.
  split; [apply split_cell_empty|]. split; [apply split_cell_bad_ratio|].
  intros Hlen Hv0 Hv1 msg w'.
  destruct (decide (0 < val_size (len df) v < len df)) as [Hsize|Hsize].
  - destruct (split_cell_ok permutation DATA_DIR df v w Hv0 Hv1 Hsize)
      as [w1 ->]. done.
  - destruct (split_cell_rejected permutation DATA_DIR df v w)
      as (msg' & ->); [done|done|done|lia|done].
Qed.
End SplitAsserts.

Lemma split_sizes_witness :
  ∃ train val w',
    split_cell backwards "data" (numbered_dataset 40) VAL_RATIO empty_world
      = (Ok (train, val), w') ∧
    len (frame val) = 2 ∧ len (frame train) = 38.
Proof.
  destruct (split_sizes backwards "data" backwards_spec
              (numbered_dataset 40) VAL_RATIO empty_world)
    as (_ & train & val & w' & Hcell & Hval & Htrain).
  - done.
  - done.
  - by rewrite len_numbered_dataset.
  - rewrite len_numbered_dataset. vm_compute. done.
  - exists train, val, w'. split; [done|].
    rewrite Htrain, Hval, len_numbered_dataset. vm_compute.
    split; reflexivity.
Defined.

(** C1, as the specification has it, fails: of 35 records at the notebook's
    ratio 0.05 the validation part gets [int(1.75) = 1] record, and
    [round(1.75)] is 2. *)
Lemma split_sizes_not_round :
  ∃ train val w',
    split_cell backwards "data" (numbered_dataset 35) VAL_RATIO empty_world
      = (Ok (train, val), w') ∧
    len (frame val) = 1 ∧ len (frame train) = 34 ∧
    fmul (float_of_int (len (numbered_dataset 35))) VAL_RATIO = 7 # 4 ∧
    py_round (fmul (float_of_int (len (numbered_dataset 35))) VAL_RATIO) = 2 ∧
    len (frame val)
      ≠ py_round (fmul (float_of_int (len (numbered_dataset 35))) VAL_RATIO).
Proof.
  pose proof (len_numbered_dataset 35) as Hlen.
  assert (val_size (Z.of_nat 35) VAL_RATIO = 1) as Hvs by (vm_compute; reflexivity).
  assert (0 < val_size (len (numbered_dataset 35)) VAL_RATIO
            < len (numbered_dataset 35)) as Hsize.
  { rewrite Hlen. rewrite Hvs. lia. }
  destruct (split_cell_ok backwards "data" (numbered_dataset 35) VAL_RATIO
              empty_world) as [w' Hcell]; [done..|].
  destruct (train_test_split_lengths backwards backwards_spec
              (numbered_dataset 35) _ Hsize) as [Hval Htrain].
  eexists _, _, w'. split; [exact Hcell|].
  cbn [frame set_filename iloc_indexed].
  rewrite !len_setitem_scalar, Hval, Htrain, Hlen, Hvs.
  clear. vm_compute. repeat split; (reflexivity || discriminate).
Qed.

Lemma split_partition_witness :
  ∃ train val w',
    split_cell backwards "data" (numbered_dataset 40) VAL_RATIO empty_world
      = (Ok (train, val), w') ∧
    (index train ++ index val)%list ≡ₚ seq 0 40 ∧
    index val = [39; 38]%nat.
Proof.
  assert (val_size (Z.of_nat 40) VAL_RATIO = 2) as Hvs by (vm_compute; reflexivity).
  destruct (split_cell_ok backwards "data" (numbered_dataset 40) VAL_RATIO
              empty_world) as [w' Hcell];
    [done|done|rewrite len_numbered_dataset, Hvs; lia|].
  destruct (split_partition backwards "data" backwards_spec
              (numbered_dataset 40) _ _ VAL_RATIO empty_world w' Hcell)
    as (Hperm & _).
  eexists _, _, w'. split; [exact Hcell|]. split.
  - revert Hperm. unfold numbered_dataset. cbn [rows].
    by rewrite length_fmap, length_seq.
  - cbn [index set_filename iloc_indexed].
    rewrite len_numbered_dataset, Hvs. unfold numbered_dataset. cbn [rows].
    rewrite length_fmap, length_seq. vm_compute. reflexivity.
Defined.

Lemma split_cell_asserts_witness :
  split_cell (seq 0) "data" (numbered_dataset 0) VAL_RATIO empty_world
    = (Raise (AssertionError "The dataset is empty."), empty_world) ∧
  split_cell (seq 0) "data" (numbered_dataset 40) (3 # 2) empty_world
    = (Raise (AssertionError "VAL_RATIO must be between 0 and 1."), empty_world).
Proof.
  split.
  - apply (split_cell_asserts (seq 0) "data" (numbered_dataset 0)). done.
  - apply (split_cell_asserts (seq 0) "data" (numbered_dataset 40)).
    + by rewrite len_numbered_dataset.
    + intros [_ H]. vm_compute in H. by apply H.
Defined.

(** ** The conversion cell *)

Section ConversionClaims.
Variable subprocess_run : string → World → CompletedProcess * World.
Variable abspath : string → string.

Lemma report_conversion_ok (process : CompletedProcess) (w : World) :
  report_conversion abspath process w =
    (Ok tt,
     if returncode process =? 0 then
       {| files := files w; dirs := dirs w;
          console := console w ++ ["Model conversion completed successfully!"] |}
     else
       {| files := <[log_filename := Text (stdout process)]> (files w);
          dirs := dirs w;
          console := console w ++ failure_report abspath process |}).
Proof.
  unfold report_conversion. destruct (returncode process =? 0); [done|].
  unfold io_bind, write_file, print, failure_report. cbn.
  by rewrite <-!app_assoc.
Qed.

Lemma conversion_cell_start (w : World) :
  log_filename ∉ dirs w →
  conversion_cell subprocess_run abspath w =
    report_conversion abspath (subprocess_run command (conversion_started w)).1
      (subprocess_run command (conversion_started w)).2.
Proof.
  intros Hdir. unfold conversion_cell, conversion_started.
  unfold io_bind at 1. unfold path_exists.
  rewrite (bool_decide_eq_false_2 (log_filename ∈ dirs w)) by done.
  rewrite orb_false_r.
  destruct (files w !! log_filename) as [c|] eqn:Hlog.
  - rewrite bool_decide_eq_true_2 by by eexists.
    unfold io_bind at 1. unfold io_bind at 1. unfold remove. rewrite Hlog.
    unfold print at 1. cbn [files dirs console].
    unfold io_bind. by destruct (subprocess_run _ _).
  - rewrite bool_decide_eq_false_2 by (by intros [? ?]).
    unfold io_bind at 1. unfold io_bind at 1. unfold io_ret, print at 1.
    rewrite delete_id by done.
    unfold io_bind. by destruct (subprocess_run _ _).
Qed.

(** C7.  The conversion cell clears an old log, runs the converter and
    looks at its exit status: on status 0 it prints the success message and
    leaves the files as the converter left them; on any other status it
    writes the captured output to [model_conversion.log] and prints the
    failure report. *)
Theorem conversion_cell_log (w : World) :
  log_filename ∉ dirs w →
  let w0 := conversion_started w in
  let process := (subprocess_run command w0).1 in
  let w1 := (subprocess_run command w0).2 in
  files w0 !! log_filename = None ∧
  ∃ w',
    conversion_cell subprocess_run abspath w = (Ok tt, w') ∧
    dirs w' = dirs w1 ∧
    (returncode process = 0 →
       files w' = files w1 ∧
       console w' = (console w1 ++ ["Model conversion completed successfully!"])%list) ∧
    (returncode process ≠ 0 →
       files w' = <[log_filename := Text (stdout process)]> (files w1) ∧
       files w' !! log_filename = Some (Text (stdout process)) ∧
       console w' = (console w1 ++ failure_report abspath process)%list ∧
       "Model conversion failed!" ∈ console w').
Proof.
  intros Hdir w0 process w1.
  split; [apply lookup_delete_eq|].
  rewrite conversion_cell_start, report_conversion_ok by done.
  fold w0. fold process w1. eexists. split; [done|].
  destruct (returncode process =? 0) eqn:Hrc.
  - apply Z.eqb_eq in Hrc. by repeat split.
  - apply Z.eqb_neq in Hrc. split; [done|]. split; [done|].
    intros _. cbn. rewrite lookup_insert_eq. repeat split.
    unfold failure_report. set_solver.
Qed.
End ConversionClaims.

Lemma conversion_cell_log_witness :
  ∃ w',
    conversion_cell failing_converter id empty_world = (Ok tt, w') ∧
    files w' !! log_filename
      = Some (Text "FileNotFoundError: tokenizer.model").
Proof.
  destruct (conversion_cell_log failing_converter id empty_world)
    as (_ & w' & Hcell & _ & _ & Hfail).
  - set_solver.
  - exists w'. split; [done|].
    destruct Hfail as (_ & Hlog & _); [done|exact Hlog].
Defined.

(** ** Well-formed frames *)

Lemma list_to_set_add_column (c : string) (cols : list string) :
  list_to_set (add_column c cols) =@{gset string} {[c]} ∪ list_to_set cols.
Proof.
  apply set_eq. intros x.
  rewrite elem_of_list_to_set, elem_of_add_column. set_solver.
Qed.

Lemma list_to_set_filter_not (cs cols : list string) :
  list_to_set (filter (λ c, c ∉ cs) cols)
  =@{gset string} list_to_set cols ∖ list_to_set cs.
Proof.
  apply set_eq. intros x.
  rewrite elem_of_difference, !elem_of_list_to_set, list_elem_of_filter. tauto.
Qed.

Lemma getitem_inv (df : DataFrame) (c : string) (col : Series) :
  getitem df c = Ok col →
  c ∈ columns df ∧ Forall2 (λ (r : row) v, r !! c = Some v) (rows df) col.
Proof.
  unfold getitem. case_decide; [|done]. intros Hm%mapM_ok_inv.
  split; [done|]. eapply Forall2_impl; [exact Hm|].
  intros r v. unfold row_get. by destruct (r !! c); intros [= ->].
Qed.

Lemma setitem_wf (c : string) (s : Series) (df df' : DataFrame) :
  setitem c s df = Ok df' → wf_frame df →
  wf_frame df' ∧
  list_to_set (columns df') =@{gset string} {[c]} ∪ list_to_set (columns df).
Proof.
  unfold setitem, wf_frame. case_decide; [|done]. intros [= <-] Hwf. cbn.
  rewrite list_to_set_add_column. split; [|done].
  rewrite Forall_forall in Hwf. apply Forall_forall.
  intros r' (r & v & -> & Hr & _)%elem_of_zip_with.
  by rewrite dom_insert_L, (Hwf r Hr).
Qed.

Lemma Modify_wf (f : string → string) (c : string) (df df' : DataFrame) :
  Modify f c df = Ok df' → wf_frame df →
  wf_frame df' ∧
  list_to_set (columns df') =@{gset string} list_to_set (columns df).
Proof.
  unfold Modify.
  intros (col & [Hc _]%getitem_inv & (col' & _ & Hset)%bind_inv)%bind_inv Hwf.
  destruct (setitem_wf _ _ _ _ Hset Hwf) as [Hwf' Hcols].
  split; [done|]. rewrite Hcols.
  apply (elem_of_list_to_set (C := gset string)) in Hc. set_solver.
Qed.

Lemma ScoreFilter_wf (flt : DocumentFilter) (c : string) (df df' : DataFrame) :
  ScoreFilter flt c df = Ok df' → wf_frame df →
  wf_frame df' ∧ columns df' = columns df.
Proof.
  intros [Hcols Hrows]%ScoreFilter_inv Hwf. split; [|done].
  unfold wf_frame in *. rewrite Hcols, Hrows.
  rewrite Forall_forall in Hwf. apply Forall_forall.
  intros r [_ Hr]%list_elem_of_filter. by apply Hwf.
Qed.

Lemma df_drop_wf (cs : list string) (df df' : DataFrame) :
  df_drop cs df = Ok df' → wf_frame df →
  wf_frame df' ∧
  list_to_set (columns df')
  =@{gset string} list_to_set (columns df) ∖ list_to_set cs.
Proof.
  intros (_ & Hcols & Hrows)%df_drop_inv Hwf.
  unfold wf_frame in *. rewrite Hcols, Hrows, list_to_set_filter_not.
  split; [|done]. rewrite Forall_fmap. eapply Forall_impl; [exact Hwf|].
  intros r Hr. cbn. by rewrite foldr_delete_dom, Hr.
Qed.

Lemma iloc_rows_subseteq (df : DataFrame) (idx : list nat) :
  rows (iloc df idx) ⊆ rows df.
Proof.
  intros r (i & _ & Hi)%list_elem_of_omap. by eapply list_elem_of_lookup_2.
Qed.

(** ** What a successful formatting tells about its input *)

Lemma str_radd_inv (s : string) (v y : cell) :
  str_radd s v = Ok y → is_text v ∧ is_text y.
Proof. destruct v; [|done]. intros [= <-]. split; by eexists. Qed.

Lemma str_add_inv (s : string) (v y : cell) :
  str_add v s = Ok y → is_text v ∧ is_text y.
Proof. destruct v; [|done]. intros [= <-]. split; by eexists. Qed.

Lemma cell_add_text (a b y : cell) :
  cell_add a b = Ok y → is_text a → is_text b.
Proof. intros Hadd [s ->]. destruct b; [by eexists|done]. Qed.

Lemma format_dataset_inv_text (df df' : DataFrame) (filename : string) :
  format_dataset df filename = Ok df' →
  "title" ∈ columns df ∧ "question" ∈ columns df ∧ Forall has_text (rows df).
Proof.
  unfold format_dataset.
  intros (title & [Ht Htitle]%getitem_inv & H1)%bind_inv.
  apply bind_inv in H1 as (e1 & He1%mapM_ok_inv & H2).
  apply bind_inv in H2 as (e2 & He2%mapM_ok_inv & H3).
  apply bind_inv in H3 as (e3 & He3%mapM_ok_inv & H4).
  apply bind_inv in H4 as (question & [Hq Hquestion]%getitem_inv & H5).
  apply bind_inv in H5 as (input & Hin%mapM_ok_inv & _).
  split; [done|]. split; [done|].
  apply Forall_lookup. intros i r Hr.
  destruct (Forall2_lookup_l _ _ _ _ _ Htitle Hr) as (t & Hti & Hrt).
  destruct (Forall2_lookup_l _ _ _ _ _ He1 Hti)
    as (y1 & Hy1 & [[st ->] _]%str_radd_inv).
  destruct (Forall2_lookup_l _ _ _ _ _ He2 Hy1)
    as (y2 & Hy2 & [_ Hy2t]%str_add_inv).
  destruct (Forall2_lookup_l _ _ _ _ _ He3 Hy2)
    as (y3 & Hy3 & [_ Hy3t]%str_add_inv).
  destruct (Forall2_lookup_l _ _ _ _ _ Hquestion Hr) as (q & Hqi & Hrq).
  assert (zip e3 question !! i = Some (y3, q)) as Hzip.
  { apply lookup_zip_with_Some. by exists y3, q. }
  destruct (Forall2_lookup_l _ _ _ _ _ Hin Hzip) as (y & _ & Hadd).
  cbn in Hadd. destruct (cell_add_text _ _ _ Hadd Hy3t) as [sq ->].
  split; by eexists.
Qed.

(** The fields of the records of a frame that [format_dataset] returns. *)
Lemma format_dataset_fields (df df' : DataFrame) (filename : string) :
  wf_frame df → format_dataset df filename = Ok df' →
  list_to_set (columns df) ∖ {["title"; "question"; "tags"]}
    ⊆@{gset string} formatted_fields →
  Forall (λ r, dom r = formatted_fields ∧ r !! "filename" = Some (Str filename))
    (rows df').
Proof.
  intros Hwf Hfmt Hcols.
  destruct (format_dataset_inv_text _ _ _ Hfmt) as (Ht & Hq & Htext).
  destruct (format_dataset_ok df filename Hwf Ht Hq Htext) as (cols & Hok & _).
  rewrite Hok in Hfmt. injection Hfmt as <-. cbn.
  rewrite Forall_fmap. unfold wf_frame in Hwf.
  eapply Forall_impl; [exact Hwf|]. intros r Hr. unfold compose.
  rewrite format_row_dom, format_row_filename, Hr. split; [|done].
  unfold formatted_fields in *. set_solver.
Qed.

(** ** The curation notebook, cell by cell *)

Lemma assert_inv (cond : bool) (msg : string) (w w' : World) (a : unit) :
  assert cond msg w = (Ok a, w') → cond = true ∧ w' = w.
Proof. destruct cond; [|done]. by intros [= _ <-]. Qed.

Lemma tag_formatted_record (fn : string) (r : row) :
  formatted_record r → formatted_record (tag fn r).
Proof.
  unfold formatted_record, tag, formatted_fields. intros Hr.
  rewrite dom_insert_L, Hr. set_solver.
Qed.

Section NotebookFacts.
Variable UnicodeReformatter : string → string.
Variable permutation : nat → list nat.
Variable read_json : string → IO DataFrame.
Variable DATA_DIR : string.
Variable device : string.

Lemma run_curation_pipeline_wf (raw curated : DataFrame) (w w' : World) :
  run_curation_pipeline UnicodeReformatter raw device w = (Ok curated, w') →
  wf_frame raw →
  files w' = files w ∧ wf_frame curated ∧
  list_to_set (columns curated)
  =@{gset string}
    list_to_set (columns raw) ∖ {["answer"; "answer_score"; "question_score"]}.
Proof.
  intros (Hfiles & _ & d4 & Hseq & Hdrop)%run_curation_pipeline_inv Hwf.
  apply Sequential_cpu_curation_steps_inv in Hseq
    as (d1 & d2 & d3 & H1 & H2 & H3 & H4).
  destruct (Modify_wf _ _ _ _ H1 Hwf) as [Hwf1 Hc1].
  destruct (Modify_wf _ _ _ _ H2 Hwf1) as [Hwf2 Hc2].
  destruct (ScoreFilter_wf _ _ _ _ H3 Hwf2) as [Hwf3 Hc3].
  destruct (ScoreFilter_wf _ _ _ _ H4 Hwf3) as [Hwf4 Hc4].
  destruct (df_drop_wf _ _ _ Hdrop Hwf4) as [Hwf5 Hc5].
  split; [done|]. split; [done|].
  rewrite Hc5, Hc4, Hc3, Hc2, Hc1. set_solver.
Qed.

Lemma curation_cells_files (raw formatted : DataFrame) (w w' : World) :
  wf_frame raw →
  list_to_set (columns raw) =@{gset string} list_to_set raw_columns →
  curation_cells UnicodeReformatter DATA_DIR device raw w = (Ok formatted, w') →
  Forall formatted_record (rows formatted) ∧ wrote formatted_record w w'.
Proof.
  intros Hwf Hcols. unfold curation_cells.
  intros (curated & w1 & Hrun & H1)%io_bind_inv.
  apply io_bind_inv in H1 as (fmt & ? & [Hfmt ->]%lift_inv & H2).
  apply io_bind_inv in H2 as (? & w2 & (Hf2 & _)%print_inv & H3).
  apply io_bind_inv in H3 as (? & w3 & (Hf3 & _)%print_inv & H4).
  apply io_bind_inv in H4 as (? & w4 & (Hf4 & _)%print_inv & H5).
  apply io_bind_inv in H5 as (? & w5 & (Hf5 & _)%print_inv & H6).
  apply io_bind_inv in H6 as (? & w6 & (Hf6 & _)%print_inv & H7).
  apply io_bind_inv in H7 as (? & w7 & Hjson & [= <- <-]).
  destruct (run_curation_pipeline_wf _ _ _ _ Hrun Hwf) as (Hf1 & Hwfc & Hcc).
  assert (Forall formatted_record (rows fmt)) as Hrows.
  { eapply Forall_impl.
    - apply (format_dataset_fields curated fmt _ Hwfc Hfmt).
      rewrite Hcc, Hcols. unfold raw_columns, formatted_fields. set_solver.
    - by intros r [Hr _]. }
  split; [done|].
  apply (wrote_trans _ _ w6); [apply wrote_same_files; congruence|].
  exact (to_json_files _ _ _ _ _ _ Hrows Hjson).
Qed.

Lemma split_cell_files (df : DataFrame) (train val : Indexed) (v : Q)
    (w w' : World) :
  Forall formatted_record (rows df) →
  split_cell permutation DATA_DIR df v w = (Ok (train, val), w') →
  Forall formatted_record (rows (frame train)) ∧
  Forall formatted_record (rows (frame val)) ∧
  wrote formatted_record w w'.
Proof.
  intros Hdf Hcell.
  destruct (split_cell_inv _ _ _ _ _ _ _ _ Hcell) as (_ & _ & _ & Htrain & Hval).
  cbv zeta in Htrain, Hval.
  assert (∀ fn idx, Forall formatted_record
            (rows (frame (set_filename fn (iloc_indexed df idx))))) as Htag.
  { intros fn idx. cbn [rows frame set_filename iloc_indexed setitem_scalar].
    rewrite Forall_fmap.
    rewrite Forall_forall in Hdf. apply Forall_forall.
    intros r Hr%iloc_rows_subseteq. by apply tag_formatted_record, Hdf. }
  assert (Forall formatted_record (rows (frame train))) as Ht
    by (rewrite Htrain; apply Htag).
  assert (Forall formatted_record (rows (frame val))) as Hv
    by (rewrite Hval; apply Htag).
  assert (∀ part, Forall formatted_record (rows (frame part)) →
                  Forall formatted_record (rows (from_pandas part))) as Hsort.
  { intros part Hpart. rewrite Forall_forall in Hpart. apply Forall_forall.
    intros r Hr%from_pandas_rows_subseteq. by apply Hpart. }
  split; [done|]. split; [done|].
  revert Hcell. unfold split_cell. cbv zeta.
  intros (? & w1 & [_ ->]%assert_inv & H1)%io_bind_inv.
  apply io_bind_inv in H1 as (? & w2 & [_ ->]%assert_inv & H2).
  apply io_bind_inv in H2 as (? & w3 & [= _ <-] & H3).
  apply io_bind_inv in H3 as ([tr va] & ? & [_ ->]%lift_inv & H4).
  apply io_bind_inv in H4 as (? & w4 & (Hf4 & _)%print_inv & H5).
  apply io_bind_inv in H5 as (? & w5 & (Hf5 & _)%print_inv & H6).
  apply io_bind_inv in H6 as (? & w6 & (Hf6 & _)%print_inv & H7).
  apply io_bind_inv in H7 as (? & w7 & (Hf7 & _)%print_inv & H8).
  apply io_bind_inv in H8 as (? & w8 & Hj1 & H9).
  apply io_bind_inv in H9 as (? & w9 & Hj2 & [= <- <- <-]).
  apply (wrote_trans _ _ w7).
  { apply wrote_same_files. cbn in *. congruence. }
  apply (wrote_trans _ _ w8).
  - exact (to_json_files _ _ _ _ _ _ (Hsort _ Ht) Hj1).
  - exact (to_json_files _ _ _ _ _ _ (Hsort _ Hv) Hj2).
Qed.

Hypothesis read_json_spec : ∀ p w sub w1,
  read_json p w = (Ok sub, w1) →
  files w1 = files w ∧ wf_frame sub ∧
  list_to_set (columns sub) =@{gset string} {["title"; "question"]}.

Lemma submission_cell_files (w w' : World) :
  submission_cell read_json DATA_DIR w = (Ok tt, w') →
  wrote formatted_record w w'.
Proof.
  unfold submission_cell. cbv zeta.
  intros (found & w1 & [= _ <-] & H1)%io_bind_inv.
  apply io_bind_inv in H1 as (? & w2 & [_ ->]%assert_inv & H2).
  apply io_bind_inv in H2 as (sub & w3 & (Hf3 & Hwf & Hcols)%read_json_spec & H3).
  apply io_bind_inv in H3 as (fmt & ? & [Hfmt ->]%lift_inv & H4).
  apply io_bind_inv in H4 as (? & w4 & (Hf4 & _)%print_inv & Hjson).
  apply (wrote_trans _ _ w4); [apply wrote_same_files; congruence|].
  refine (to_json_files _ _ _ _ _ _ _ Hjson).
  eapply Forall_impl.
  - apply (format_dataset_fields sub fmt _ Hwf Hfmt).
    rewrite Hcols. unfold formatted_fields. set_solver.
  - by intros r [Hr _].
Qed.

(** C6.  On a raw dataset with the six fields of a record and a submission
    set with a title and a question, every file that the notebook writes
    (the curated dataset, the training and the validation part, and the
    submission set) holds records with exactly the fields [input], [output]
    and [filename]. *)
Theorem persisted_records_fields (raw : DataFrame) (v : Q) (w w' : World) :
  wf_frame raw →
  list_to_set (columns raw) =@{gset string} list_to_set raw_columns →
  step_1 UnicodeReformatter permutation read_json DATA_DIR device raw v w
    = (Ok tt, w') →
  ∀ p, files w' !! p = files w !! p ∨
       ∃ recs, files w' !! p = Some (Jsonl recs) ∧
               Forall (λ r, dom r = formatted_fields) recs.
Proof.
  intros Hwf Hcols. unfold step_1.
  intros (fmt & w1 & [Hfmt Hw1]%curation_cells_files & H1)%io_bind_inv; [|done..].
  apply io_bind_inv in H1 as ([train val] & w2 & (_ & _ & Hw2)%split_cell_files & H2);
    [|done].
  apply submission_cell_files in H2.
  exact (wrote_trans _ _ _ _ (wrote_trans _ _ _ _ Hw1 Hw2) H2).
Qed.
End NotebookFacts.

Lemma persisted_records_fields_witness :
  ∃ w',
    step_1 id (seq 0) sample_read_json "data" "cpu" sample_dataset (1 # 2)
      sample_world = (Ok tt, w') ∧
    Forall (λ p, ∃ recs, files w' !! p = Some (Jsonl recs) ∧
                         Forall (λ r, dom r = formatted_fields) recs)
      output_files.
Proof.
  assert (∃ w',
    step_1 id (seq 0) sample_read_json "data" "cpu" sample_dataset (1 # 2)
      sample_world = (Ok tt, w') ∧
    Forall (λ p, files w' !! p ≠ files sample_world !! p) output_files)
    as (w' & Hrun & Hnew).
  { eexists. split; [vm_compute; reflexivity|].
    repeat constructor; by vm_compute. }
  exists w'. split; [exact Hrun|].
  eapply Forall_impl; [exact Hnew|]. intros p Hp.
  destruct (persisted_records_fields id (seq 0) sample_read_json "data" "cpu")
    with (raw := sample_dataset) (v := 1 # 2) (w := sample_world) (w' := w')
         (p := p) as [Hsame|Hrecs].
  - intros p' w sub w1 [= <- <-]. split; [done|]. split; [|set_solver].
    repeat constructor.
  - repeat constructor.
  - done.
  - exact Hrun.
  - destruct (Hp Hsame).
  - exact Hrecs.
Defined.

(** ** The normalization stage *)

Lemma text_Some (c : string) (r : row) (s : string) :
  r !! c = Some (Str s) → text c r = s.
Proof. unfold text. by intros ->. Qed.

Lemma Modify_ok (f : string → string) (c : string) (df : DataFrame) :
  c ∈ columns df →
  (∀ r, r ∈ rows df → ∃ s, r !! c = Some (Str s)) →
  Modify f c df =
    Ok {| columns := columns df;
          rows := (λ r : row, <[c := Str (f (text c r))]> r) <$> rows df |}.
Proof.
  intros Hc Htext. unfold Modify.
  rewrite (getitem_fmap c (λ r, Str (text c r))); [|done|].
  2:{ intros r [s Hs]%Htext. by rewrite (text_Some _ _ _ Hs). }
  rewrite bind_ok, mapM_fmap.
  rewrite (mapM_ok_fmap _ (λ r, Str (f (text c r)))) by done.
  rewrite bind_ok, setitem_fmap. unfold add_column.
  by rewrite decide_True by done.
Qed.

Lemma Modify_inv (f : string → string) (c : string) (df df' : DataFrame) :
  Modify f c df = Ok df' →
  c ∈ columns df ∧ ∀ r, r ∈ rows df → ∃ s, r !! c = Some (Str s).
Proof.
  unfold Modify.
  intros (col & [Hc Hcol]%getitem_inv & (col' & Hm%mapM_ok_inv & _)%bind_inv)%bind_inv.
  split; [done|]. intros r [i Hi]%list_elem_of_lookup_1.
  destruct (Forall2_lookup_l _ _ _ _ _ Hcol Hi) as (v & Hv & Hrv).
  destruct (Forall2_lookup_l _ _ _ _ _ Hm Hv) as (v' & _ & Hv').
  destruct v as [s|z]; [|done]. by exists s.
Qed.

(** Running a modifier stage a second time changes nothing, provided the
    modifier itself is idempotent on texts. *)
Lemma Modify_idempotent (f : string → string) (c : string) (df df' : DataFrame) :
  (∀ s, f (f s) = f s) →
  Modify f c df = Ok df' → Modify f c df' = Ok df'.
Proof.
  intros Hf Hm. destruct (Modify_inv _ _ _ _ Hm) as [Hc Htext].
  rewrite Modify_ok in Hm by done. injection Hm as <-.
  rewrite Modify_ok; cbn [columns rows]; [|done|].
  2:{ intros r' (r & -> & _)%list_elem_of_fmap. eexists. apply lookup_insert_eq. }
  f_equal. f_equal. rewrite <-list_fmap_compose.
  apply list_fmap_ext. intros i r _. unfold compose.
  rewrite (text_Some c (<[c := _]> r) _ (lookup_insert_eq _ _ _)).
  by rewrite Hf, insert_insert_eq.
Qed.

(** * Further properties of the notebooks' code *)

(** ** The formatter *)

Lemma format_dataset_columns_inv (df df' : DataFrame) (filename : string) :
  format_dataset df filename = Ok df' →
  ("title" ∉ columns df') ∧ ("question" ∉ columns df') ∧ ("tags" ∉ columns df').
Proof.
  unfold format_dataset. cbv zeta.
  intros (title & _ & H1)%bind_inv.
  apply bind_inv in H1 as (e1 & _ & H2).
  apply bind_inv in H2 as (e2 & _ & H3).
  apply bind_inv in H3 as (e3 & _ & H4).
  apply bind_inv in H4 as (question & _ & H5).
  apply bind_inv in H5 as (input & _ & H6).
  apply bind_inv in H6 as (d1 & Hd1 & H7).
  apply bind_inv in H7 as (d2 & Hd2 & H8).
  apply bind_inv in H8 as (d3 & (_ & Hc3 & _)%df_drop_inv & H9).
  assert (("title" ∉ columns d3) ∧ ("question" ∉ columns d3)) as [Ht Hq].
  { rewrite Hc3. split; intros [Hn _]%list_elem_of_filter; set_solver. }
  unfold setitem in Hd1. case_decide; [|done]. injection Hd1 as <-.
  destruct (bool_decide_reflect ("tags" ∈ columns df)) as [Htags|Htags].
  - apply df_drop_inv in H9 as (_ & Hc & _). rewrite Hc.
    repeat split; intros [Hn Hin]%list_elem_of_filter; set_solver.
  - injection H9 as <-. repeat split; [done..|].
    rewrite Hc3. intros [_ Hin]%list_elem_of_filter.
    injection Hd2 as <-. cbn in Hin.
    rewrite !elem_of_add_column in Hin. set_solver.
Qed.

Lemma getitem_missing (df : DataFrame) (c : string) :
  c ∉ columns df → getitem df c = Raise (KeyError c).
Proof. intros Hc. unfold getitem. by rewrite decide_False. Qed.

(** X1.  A formatted dataset cannot be formatted again: it has no [title]
    column any more, and the second call raises [KeyError] for it. *)
Theorem format_dataset_twice (df df' : DataFrame) (filename filename' : string) :
  format_dataset df filename = Ok df' →
  format_dataset df' filename' = Raise (KeyError "title").
Proof.
  intros (Ht & _)%format_dataset_columns_inv.
  unfold format_dataset. cbv zeta.
  by rewrite (getitem_missing df' "title").
Qed.

Lemma format_dataset_twice_witness :
  ∃ df', format_dataset empty_tags_dataset "submission.jsonl" = Ok df' ∧
         format_dataset df' "submission.jsonl" = Raise (KeyError "title").
Proof.
  assert (∃ df', format_dataset empty_tags_dataset "submission.jsonl" = Ok df')
    as [df' Hf] by (eexists; vm_compute; reflexivity).
  exists df'. split; [exact Hf|].
  exact (format_dataset_twice _ _ _ _ Hf).
Defined.

(** X2.  On a well-formed frame the formatter succeeds exactly when the frame
    has a [title] and a [question] column and every title and question is a
    text; without a [title] column it raises [KeyError] for it. *)
Theorem format_dataset_succeeds_iff (df : DataFrame) (filename : string) :
  wf_frame df →
  ((∃ df', format_dataset df filename = Ok df') ↔
     "title" ∈ columns df ∧ "question" ∈ columns df ∧ Forall has_text (rows df)) ∧
  ("title" ∉ columns df → format_dataset df filename = Raise (KeyError "title")).
Proof.
  intros Hwf. split; [split|].
  - intros [df' Hf]. by eapply format_dataset_inv_text.
  - intros (Ht & Hq & Htext).
    destruct (format_dataset_ok df filename Hwf Ht Hq Htext) as (cols & Hok & _).
    by eexists.
  - intros Ht. unfold format_dataset. cbv zeta.
    by rewrite (getitem_missing df "title").
Qed.

Lemma format_dataset_succeeds_iff_witness :
  (∃ df', format_dataset submission_with_id "submission.jsonl" = Ok df') ∧
  format_dataset (numbered_dataset 2) "submission.jsonl" = Raise (KeyError "title").
Proof.
  split.
  - apply (format_dataset_succeeds_iff submission_with_id "submission.jsonl").
    + repeat constructor.
    + split; [set_solver|]. split; [set_solver|].
      repeat constructor; eexists; reflexivity.
  - apply (format_dataset_succeeds_iff (numbered_dataset 2) "submission.jsonl").
    + repeat constructor.
    + set_solver.
Defined.

Lemma format_row_other (filename c : string) (r : row) :
  c ∉ formatter_columns → format_row filename r !! c = r !! c.
Proof.
  intros Hc. unfold format_row, formatter_columns in *.
  rewrite foldr_delete_lookup, decide_False by set_solver.
  rewrite !lookup_insert_ne; [done|set_solver..].
Qed.

Lemma format_row_dropped (filename c : string) (r : row) :
  c ∈ ["tags"; "title"; "question"] → format_row filename r !! c = None.
Proof.
  intros Hc. unfold format_row. by rewrite foldr_delete_lookup, decide_True.
Qed.

(** X3.  The formatter touches six columns only: every formatted record has
    lost [title], [question] and [tags], carries the given [filename]
    whatever it had before, and keeps each of its other fields as it was; so
    the columns of the result are the other columns of the input and
    [input], [output], [filename]. *)
Theorem format_dataset_frame (df : DataFrame) (filename : string) :
  wf_frame df → "title" ∈ columns df → "question" ∈ columns df →
  Forall has_text (rows df) →
  ∃ df', format_dataset df filename = Ok df' ∧
    list_to_set (columns df')
    =@{gset string}
      (list_to_set (columns df) ∖ {["title"; "question"; "tags"]})
      ∪ formatted_fields ∧
    ∀ i r, rows df !! i = Some r →
      ∃ r', rows df' !! i = Some r' ∧
        r' !! "title" = None ∧ r' !! "question" = None ∧ r' !! "tags" = None ∧
        r' !! "filename" = Some (Str filename) ∧
        ∀ c, c ∉ formatter_columns → r' !! c = r !! c.
Proof.
  intros Hwf Ht Hq Htext.
  destruct (format_dataset_ok df filename Hwf Ht Hq Htext) as (cols & -> & Hcols).
  eexists. split; [done|]. split; [exact Hcols|]. cbn.
  intros i r Hi. exists (format_row filename r).
  rewrite list_lookup_fmap, Hi. split; [done|].
  rewrite format_row_filename.
  split; [by apply format_row_dropped; set_solver|].
  split; [by apply format_row_dropped; set_solver|].
  split; [by apply format_row_dropped; set_solver|].
  split; [done|]. intros c Hc. by apply format_row_other.
Qed.

Lemma format_dataset_frame_witness :
  ∃ df' r',
    format_dataset submission_with_id "submission.jsonl" = Ok df' ∧
    rows df' !! 0%nat = Some r' ∧ r' !! "id" = Some (Num 17).
Proof.
  destruct (format_dataset_frame submission_with_id "submission.jsonl")
    as (df' & Hf & _ & Hrows).
  - repeat constructor.
  - set_solver.
  - set_solver.
  - repeat constructor; eexists; reflexivity.
  - destruct (Hrows 0%nat _ eq_refl) as (r' & Hr' & _ & _ & _ & _ & Hother).
    exists df', r'. split; [done|]. split; [done|].
    rewrite (Hother "id"); [reflexivity|].
    unfold formatter_columns. set_solver.
Defined.

(** ** The curation pipeline, stage by stage *)

Lemma filter_fmap {A B} (P : B → Prop) `{!∀ x, Decision (P x)}
    (f : A → B) (l : list A) :
  filter P (f <$> l) = f <$> filter (P ∘ f) l.
Proof.
  induction l as [|x l IH]; [done|].
  rewrite fmap_cons, !filter_cons, IH. unfold compose.
  by destruct (decide (P (f x))).
Qed.

Lemma filter_ext_in {A} (P Q : A → Prop) `{!∀ x, Decision (P x)}
    `{!∀ x, Decision (Q x)} (l : list A) :
  (∀ x, x ∈ l → P x ↔ Q x) → filter P l = filter Q l.
Proof.
  induction l as [|x l IH]; intros Hl; [done|].
  rewrite !filter_cons, IH by (intros; apply Hl; set_solver).
  destruct (decide (P x)) as [HP|HP], (decide (Q x)) as [HQ|HQ]; try done;
    exfalso; apply (Hl x) in HP || apply (Hl x) in HQ; set_solver.
Qed.

Lemma typed_record_normalize (reformat : string → string) (r : row) :
  typed_record r →
  passes (WordCountFilter 50 500) "question" (normalize_row reformat r)
  && passes (FilterLowScores 0) "question_score" (normalize_row reformat r)
  = survives reformat r.
Proof.
  intros [_ [z Hz]]. unfold passes, normalize_row, survives, number.
  rewrite lookup_insert_eq, !lookup_insert_ne, Hz by done. done.
Qed.

Section PipelineFacts.
Variable UnicodeReformatter : string → string.

Lemma Sequential_cpu_curation_steps_ok (raw : DataFrame) :
  "title" ∈ columns raw → "question" ∈ columns raw →
  "question_score" ∈ columns raw →
  Forall typed_record (rows raw) →
  Sequential (cpu_curation_steps UnicodeReformatter) raw =
    Ok {| columns := columns raw;
          rows := normalize_row UnicodeReformatter
                  <$> filter (λ r, survives UnicodeReformatter r = true) (rows raw) |}.
Proof.
  intros Ht Hq Hs Htyped. rewrite Forall_forall in Htyped.
  unfold Sequential, cpu_curation_steps. cbn [foldl]. rewrite bind_ok.
  rewrite Modify_ok; [|done|].
  2:{ intros r [[[t Hr] _] _]%Htyped. by exists t. }
  rewrite bind_ok, Modify_ok; cbn [columns rows]; [|done|].
  2:{ intros r' (r & -> & [[_ [q Hr]] _]%Htyped)%list_elem_of_fmap.
      exists q. by rewrite lookup_insert_ne. }
  rewrite bind_ok, ScoreFilter_ok; cbn [columns rows]; [|done|].
  2:{ intros r' (r1 & -> & _)%list_elem_of_fmap.
      eexists _, _. split; [apply lookup_insert_eq|reflexivity]. }
  rewrite bind_ok, ScoreFilter_ok; cbn [columns rows]; [|done|].
  2:{ intros r' [_ (r1 & -> & (r & -> & [_ [z Hz]]%Htyped)%list_elem_of_fmap)%list_elem_of_fmap]%list_elem_of_filter.
      exists (Num z), (0 <=? z). split; [|done].
      by rewrite !lookup_insert_ne. }
  f_equal. f_equal.
  rewrite list_filter_filter, <-list_fmap_compose, filter_fmap.
  rewrite (filter_ext_in _ (λ r, survives UnicodeReformatter r = true)).
  - apply list_fmap_ext. intros i r _. unfold compose, normalize_row, text.
    by rewrite lookup_insert_ne.
  - intros r Hr%Htyped. unfold compose.
    change (<["question" := _]> (<["title" := _]> r))
      with (<["question" := Str (UnicodeReformatter
              (text "question" (<["title" := Str (UnicodeReformatter (text "title" r))]> r)))]>
            (<["title" := Str (UnicodeReformatter (text "title" r))]> r)).
    assert (text "question" (<["title" := Str (UnicodeReformatter (text "title" r))]> r)
            = text "question" r) as ->
      by (unfold text; by rewrite lookup_insert_ne).
    fold (normalize_row UnicodeReformatter r).
    rewrite <-(typed_record_normalize _ _ Hr), andb_true_iff. tauto.
Qed.

(** X4.  On a dataset of typed records the pipeline keeps, in order, the
    records whose question has 50 to 500 words once the modifier has
    rewritten it and whose score is not negative; a kept record has its title
    and question rewritten by the modifier and loses [answer],
    [answer_score] and [question_score], nothing else.  Nothing is written,
    and the two lengths are printed. *)
Theorem run_curation_pipeline_survivors (raw : DataFrame) (device : string)
    (w : World) :
  "title" ∈ columns raw → "question" ∈ columns raw →
  dropped_columns ⊆ columns raw →
  Forall typed_record (rows raw) →
  let kept := filter (λ r, survives UnicodeReformatter r = true) (rows raw) in
  ∃ w',
    run_curation_pipeline UnicodeReformatter raw device w =
      (Ok {| columns := filter (λ c, c ∉ dropped_columns) (columns raw);
             rows := (λ r, foldr delete (normalize_row UnicodeReformatter r)
                             dropped_columns) <$> kept |}, w') ∧
    files w' = files w ∧
    console w' =
      (console w ++
       [ ("Running curation pipeline on '" ++ device ++ "'...")%string;
         ("Original dataset length: " ++ pretty (len raw))%string;
         ("New dataset length: " ++ pretty (Z.of_nat (length kept)))%string ])%list.
Proof.
  intros Ht Hq Hdrop Htyped kept. unfold run_curation_pipeline.
  rewrite Sequential_cpu_curation_steps_ok; [|done|done| |done].
  2:{ apply Hdrop. unfold dropped_columns. set_solver. }
  unfold io_bind, print, lift, io_ret. cbv beta iota.
  unfold dask_drop. rewrite df_drop_ok by done. cbv beta iota.
  cbn [columns rows]. rewrite <-list_fmap_compose.
  eexists. split; [reflexivity|]. cbn [files console]. split; [done|].
  unfold len. cbn [rows]. by rewrite !length_fmap, <-!app_assoc.
Qed.

(** X5.  Whatever the dataset, a pipeline run that succeeds has not added a
    record and has no [answer], [answer_score] or [question_score] column
    left; the files are as they were. *)
Theorem run_curation_pipeline_shrinks (raw curated : DataFrame)
    (device : string) (w w' : World) :
  run_curation_pipeline UnicodeReformatter raw device w = (Ok curated, w') →
  len curated ≤ len raw ∧
  (∀ c, c ∈ columns curated ↔ c ∈ columns raw ∧ c ∉ dropped_columns) ∧
  files w' = files w.
Proof.
  intros (Hfiles & _ & d4 & Hseq & Hdrop)%run_curation_pipeline_inv.
  apply Sequential_cpu_curation_steps_inv in Hseq
    as (d1 & d2 & d3 & H1 & H2 & H3 & H4).
  destruct (Modify_inv _ _ _ _ H1) as [Hc1 Ht1].
  rewrite Modify_ok in H1 by done. injection H1 as <-.
  destruct (Modify_inv _ _ _ _ H2) as [Hc2 Ht2].
  rewrite Modify_ok in H2 by done. injection H2 as <-.
  apply ScoreFilter_inv in H3 as [Hcols3 Hrows3].
  apply ScoreFilter_inv in H4 as [Hcols4 Hrows4].
  apply df_drop_inv in Hdrop as (_ & Hcols5 & Hrows5).
  split; [|split; [|done]].
  - unfold len. rewrite Hrows5, length_fmap, Hrows4.
    pose proof (length_filter
      (λ r, passes (FilterLowScores 0) "question_score" r = true) (rows d3)).
    rewrite Hrows3 in *.
    pose proof (length_filter
      (λ r, passes (WordCountFilter 50 500) "question" r = true)
      (rows {| columns := columns raw;
               rows := (λ r : row, <["question" := Str (UnicodeReformatter (text "question" r))]> r)
                       <$> ((λ r : row, <["title" := Str (UnicodeReformatter (text "title" r))]> r)
                            <$> rows raw) |})).
    cbn [rows] in *. rewrite !length_fmap in *. lia.
  - intros c. rewrite Hcols5, list_elem_of_filter, Hcols4, Hcols3.
    unfold dropped_columns. cbn. tauto.
Qed.

(** X6.  A dataset of typed records that lacks [answer] or [answer_score]
    goes through the modifiers and the filters and then fails at the final
    column drop.  The frame is a dask frame there, so the error is the
    [ValueError] of dask's metadata inference, not the [KeyError] of pandas;
    only the first line has been printed and the lengths are not reported.
    With the three columns present the run does not fail. *)
Theorem run_curation_pipeline_missing_column (raw : DataFrame)
    (device : string) (w : World) :
  "title" ∈ columns raw → "question" ∈ columns raw →
  "question_score" ∈ columns raw →
  Forall typed_record (rows raw) →
  (¬ dropped_columns ⊆ columns raw →
   ∃ msg,
     run_curation_pipeline UnicodeReformatter raw device w =
       (Raise (ValueError msg),
        {| files := files w; dirs := dirs w;
           console := console w
                      ++ ["Running curation pipeline on '" ++ device ++ "'..."] |})) ∧
  (dropped_columns ⊆ columns raw →
   ∃ curated w',
     run_curation_pipeline UnicodeReformatter raw device w = (Ok curated, w')).
Proof.
  intros Ht Hq Hs Htyped. split.
  - intros Hmissing. unfold run_curation_pipeline.
    rewrite Sequential_cpu_curation_steps_ok by done.
    unfold io_bind, print, lift, io_ret. cbv beta iota.
    match goal with |- context [dask_drop ?cs ?d] =>
      destruct (dask_drop cs d) as [d5|e] eqn:Hdrop end.
    + apply dask_drop_inv, df_drop_inv in Hdrop as (Hsub & _).
      destruct (Hmissing Hsub).
    + apply dask_drop_raise in Hdrop as [-> _]. by eexists.
  - intros Hsub.
    destruct (run_curation_pipeline_survivors raw device w Ht Hq Hsub Htyped)
      as (w' & Hrun & _).
    by eexists _, w'.
Qed.
End PipelineFacts.

Lemma typed_sample_dataset : Forall typed_record (rows sample_dataset).
Proof. repeat constructor; eexists; reflexivity. Qed.

Lemma run_curation_pipeline_survivors_witness :
  ∃ curated w',
    run_curation_pipeline id sample_dataset "cpu" empty_world = (Ok curated, w') ∧
    text "title" <$> rows curated = ["Tenant rights"; "Security deposit"].
Proof.
  destruct (run_curation_pipeline_survivors id sample_dataset "cpu" empty_world)
    as (w' & Hrun & _).
  - unfold sample_dataset, raw_columns, columns. set_solver.
  - unfold sample_dataset, raw_columns, columns. set_solver.
  - unfold sample_dataset, raw_columns, dropped_columns, columns. set_solver.
  - apply typed_sample_dataset.
  - eexists _, w'. split; [exact Hrun|]. vm_compute. reflexivity.
Defined.

Lemma run_curation_pipeline_shrinks_witness :
  ∃ curated w',
    run_curation_pipeline id sample_dataset "cpu" empty_world = (Ok curated, w') ∧
    len curated ≤ len sample_dataset.
Proof.
  assert (∃ curated w', run_curation_pipeline id sample_dataset "cpu" empty_world
                        = (Ok curated, w')) as (curated & w' & Hrun)
    by (eexists _, _; vm_compute; reflexivity).
  exists curated, w'. split; [exact Hrun|].
  exact (proj1 (run_curation_pipeline_shrinks id _ _ _ _ _ Hrun)).
Defined.

Lemma run_curation_pipeline_missing_column_witness :
  ∃ msg w', run_curation_pipeline id sample_without_answer "cpu" empty_world
            = (Raise (ValueError msg), w').
Proof.
  destruct (run_curation_pipeline_missing_column id sample_without_answer
              "cpu" empty_world) as [Hfails _].
  - by vm_compute; set_solver.
  - by vm_compute; set_solver.
  - by vm_compute; set_solver.
  - repeat constructor; eexists; reflexivity.
  - destruct Hfails as [msg Hrun]; [|by eexists msg, _].
    intros Hsub.
    assert ("answer" ∈ columns sample_without_answer) as Hin
      by (apply Hsub; unfold dropped_columns; set_solver).
    vm_compute in Hin. set_solver.
Defined.

(** ** The validation size *)

(** X7.  [val_size = int(len(df) * VAL_RATIO)] is computed in binary64
    arithmetic.  For a length below [2^53] and a ratio in [[0,1]] it lies
    between 0 and the length, and between the exact product rounded down and
    the exact product rounded up.  For the notebook's ratio 0.05 and fewer
    than [2^32] records it is the twentieth part of the length, rounded down.
    It is not the exact product rounded down in general: 10 records at the
    ratio 0.7 give 7, the exact product being below 7. *)
Theorem val_size_bounds :
  (∀ (n : Z) (v : Q),
     0 ≤ n < 2 ^ 53 → (0 <= v)%Q → (v <= 1)%Q →
     0 ≤ val_size n v ≤ n ∧
     Qfloor (inject_Z n * v) ≤ val_size n v ≤ Qceiling (inject_Z n * v)) ∧
  (∀ n : Z, 0 ≤ n < 2 ^ 32 → val_size n VAL_RATIO = n / 20) ∧
  (val_size 10 ratio_0_7 = 7 ∧ Qfloor (inject_Z 10 * ratio_0_7) = 6).
Proof.
  split; [|split].
  - intros n v Hn Hv0 Hv1.
    destruct (val_size_between n v Hn Hv0 Hv1) as [Hbetween Hrange]. done.
  - apply val_size_VAL_RATIO.
  - split; vm_compute; reflexivity.
Qed.

Lemma val_size_bounds_witness :
  0 ≤ val_size 35 VAL_RATIO ≤ 35 ∧ val_size 35 VAL_RATIO = 1.
Proof.
  destruct val_size_bounds as (Hbounds & Hratio & _). split.
  - apply (Hbounds 35 VAL_RATIO); [lia|done|done].
  - rewrite Hratio by lia. reflexivity.
Defined.

(** ** The split cell *)

Lemma length_from_pandas_part (fn : string) (df : DataFrame) (idx : list nat) :
  Forall (λ i, (i < length (rows df))%nat) idx →
  length (rows (from_pandas (set_filename fn (iloc_indexed df idx))))
    = length idx.
Proof.
  intros Hidx. rewrite from_pandas_sorted by done.
  rewrite length_fmap, length_omap_lookup by (by rewrite merge_sort_Permutation).
  by rewrite merge_sort_Permutation.
Qed.

Section SplitWrites.
Variable permutation : nat → list nat.
Variable DATA_DIR : string.
Hypothesis permutation_spec : ∀ n, permutation n ≡ₚ seq 0 n.

(** X8.  A split that succeeds has created the split directory and written
    exactly two files into it, [train.jsonl] and [val.jsonl], neither
    empty; every other file is as it was.  A file holds the records of its
    part tagged with the file name, and holds them in the order of their
    positions in the dataset, not in the order of the shuffle:
    [from_pandas] sorts a part by its index before it is written. *)
Theorem split_cell_writes (df : DataFrame) (train val : Indexed) (v : Q)
    (w w' : World) :
  split_cell permutation DATA_DIR df v w = (Ok (train, val), w') →
  let dir := DATA_DIR ++ "/split" in
  let written (fn : string) (part : Indexed) :=
    Jsonl (tag fn <$> omap (λ i, rows df !! i) (merge_sort le (index part))) in
  index train ≠ [] ∧ index val ≠ [] ∧
  dirs w' = {[dir]} ∪ dirs w ∧
  files w' !! (dir ++ "/" ++ "train.jsonl")
    = Some (written "train.jsonl" train) ∧
  files w' !! (dir ++ "/" ++ "val.jsonl") = Some (written "val.jsonl" val) ∧
  ∀ p, p ≠ dir ++ "/" ++ "train.jsonl" → p ≠ dir ++ "/" ++ "val.jsonl" →
       files w' !! p = files w !! p.
Proof.
  intros Hcell dir written.
  destruct (split_cell_inv _ _ _ _ _ _ _ _ Hcell)
    as (Hsize & Hv0 & Hv1 & Htrain & Hval).
  set (p := permutation (length (rows df))) in *.
  set (n_test := Z.to_nat (val_size (len df) v)) in *.
  assert (Forall (λ i, (i < length (rows df))%nat) (drop n_test p)) as Hbt
    by apply (permutation_bound permutation permutation_spec), subseteq_drop.
  assert (Forall (λ i, (i < length (rows df))%nat) (take n_test p)) as Hbv
    by apply (permutation_bound permutation permutation_spec), subseteq_take.
  assert (length p = length (rows df)) as Hp
    by apply (permutation_length permutation permutation_spec).
  assert (index train ≠ []) as Hnt.
  { rewrite Htrain. cbn [index set_filename iloc_indexed].
    intros Hnil%(f_equal length). rewrite length_drop, Hp in Hnil.
    cbn [length] in Hnil. unfold n_test, len in *. lia. }
  assert (index val ≠ []) as Hnv.
  { rewrite Hval. cbn [index set_filename iloc_indexed].
    intros Hnil%(f_equal length). rewrite length_take, Hp in Hnil.
    cbn [length] in Hnil. unfold n_test, len in *. lia. }
  subst train val. revert Hcell. unfold split_cell. cbv zeta.
  replace (0 <? len df) with true by (symmetry; apply Z.ltb_lt; lia).
  replace (Qle_bool 0 v && Qle_bool v 1) with true.
  2:{ symmetry. apply andb_true_iff. by rewrite !Qle_bool_iff. }
  rewrite (train_test_split_ok permutation) by done.
  fold p n_test.
  unfold io_bind at 1 2 3 4. unfold assert, io_ret, makedirs, lift.
  cbv beta iota.
  unfold io_bind at 1 2 3 4. unfold print. cbv beta iota.
  unfold io_bind at 1. rewrite to_json_part. cbv beta iota zeta.
  unfold io_bind at 1. rewrite to_json_part. cbv beta iota zeta.
  unfold io_ret.
  rewrite !decide_False.
  2,3: intros Hnil%(f_equal length);
       rewrite length_from_pandas_part in Hnil by done;
       rewrite ?length_drop, ?length_take, Hp in Hnil;
       cbn [length] in Hnil; unfold n_test, len in *; lia.
  rewrite !from_pandas_sorted by done.
  intros [= <-]. cbn [files dirs console].
  split; [done|]. split; [done|]. split; [set_solver|].
  unfold written. cbn [index set_filename iloc_indexed].
  split; [|split].
  - rewrite lookup_insert_ne, lookup_insert_eq; [done|].
    intros Heq. by apply (inj (String.app dir)) in Heq.
  - by rewrite lookup_insert_eq.
  - intros q Hq1 Hq2. by rewrite !lookup_insert_ne.
Qed.

(** X9.  The checks of the split cell admit ratios that the split itself
    refuses: when the validation size comes out as 0, or when the ratio is
    1 and nothing is left for training, the cell gets past its asserts,
    creates the split directory and then fails with a [ValueError], writing
    no file.  With the notebook's ratio 0.05 this is what happens to every
    dataset of fewer than 20 records. *)
Theorem split_cell_degenerate (df : DataFrame) (w : World) :
  0 < len df < 2 ^ 32 →
  let failed (v : Q) :=
    ∃ msg,
      split_cell permutation DATA_DIR df v w =
        (Raise (ValueError msg),
         {| files := files w; dirs := {[DATA_DIR ++ "/split"]} ∪ dirs w;
            console := console w |}) in
  (∀ v, (0 <= v)%Q → (v <= 1)%Q →
        val_size (len df) v = 0 ∨ (v == 1)%Q → failed v) ∧
  (len df < 20 → failed VAL_RATIO).
Proof.
  intros Hlen failed. split.
  - intros v Hv0 Hv1 Hdeg.
    apply split_cell_rejected; [lia|done|done|].
    destruct Hdeg as [->|Hone]; [lia|]. right.
    destruct (val_size_between (len df) v) as [[Hlo _] _]; [lia|done|done|].
    assert (inject_Z (len df) * v == inject_Z (len df))%Q as Heq
      by (rewrite Hone; apply Qmult_1_r).
    by rewrite (Qfloor_comp _ _ Heq), Qfloor_Z in Hlo.
  - intros Hsmall.
    apply split_cell_rejected; [lia|done|done|].
    left. rewrite val_size_VAL_RATIO by lia.
    rewrite Z.div_small by lia. done.
Qed.
End SplitWrites.

Lemma split_cell_writes_witness :
  ∃ train val w',
    split_cell backwards "data" (numbered_dataset 40) VAL_RATIO empty_world
      = (Ok (train, val), w') ∧
    index val = [39; 38]%nat ∧
    files w' !! "data/split/val.jsonl"
      = Some (Jsonl (tag "val.jsonl"
                     <$> omap (λ i, rows (numbered_dataset 40) !! i)
                           [38; 39]%nat)).
Proof.
  assert (val_size (Z.of_nat 40) VAL_RATIO = 2) as Hvs
    by (vm_compute; reflexivity).
  destruct (split_cell_ok backwards "data" (numbered_dataset 40) VAL_RATIO
              empty_world) as [w' Hcell];
    [done|done|rewrite len_numbered_dataset, Hvs; lia|].
  destruct (split_cell_writes backwards "data" backwards_spec _ _ _ _ _ _ Hcell)
    as (_ & _ & _ & _ & Hval & _).
  assert (take (Z.to_nat (val_size (len (numbered_dataset 40)) VAL_RATIO))
            (backwards (length (rows (numbered_dataset 40)))) = [39; 38]%nat)
    as Hidx.
  { rewrite len_numbered_dataset, Hvs. unfold numbered_dataset. cbn [rows].
    rewrite length_fmap, length_seq. vm_compute. reflexivity. }
  eexists _, _, w'. split; [exact Hcell|].
  cbn [index set_filename iloc_indexed] in *. rewrite Hidx in *.
  split; [reflexivity|]. exact Hval.
Defined.

Lemma split_cell_degenerate_witness :
  ∃ msg w',
    split_cell backwards "data" (numbered_dataset 10) VAL_RATIO empty_world
      = (Raise (ValueError msg), w') ∧
    files w' = files empty_world.
Proof.
  destruct (split_cell_degenerate backwards "data" (numbered_dataset 10)
              empty_world) as [_ Hsmall].
  - rewrite len_numbered_dataset. lia.
  - destruct Hsmall as [msg Hcell]; [rewrite len_numbered_dataset; lia|].
    exists msg. eexists. split; [exact Hcell|reflexivity].
Defined.

(** ** The conversion cell and its log *)

Section ConversionLog.
Variable subprocess_run : string → World → CompletedProcess * World.
Variable abspath : string → string.

(** X10.  Provided the converter itself leaves [model_conversion.log] alone,
    the log exists after the cell exactly when this run of the converter
    failed: a log left by an earlier run does not outlive a successful
    conversion, and a failed one always leaves its output there. *)
Theorem conversion_log_iff_failed (w : World) :
  log_filename ∉ dirs w →
  let w0 := conversion_started w in
  let process := (subprocess_run command w0).1 in
  files (subprocess_run command w0).2 !! log_filename = files w0 !! log_filename →
  ∃ w', conversion_cell subprocess_run abspath w = (Ok tt, w') ∧
    (is_Some (files w' !! log_filename) ↔ returncode process ≠ 0) ∧
    (returncode process ≠ 0 →
       files w' !! log_filename = Some (Text (stdout process))).
Proof.
  intros Hdir w0 process Hkeep.
  rewrite conversion_cell_start, report_conversion_ok by done.
  fold w0. fold process. eexists. split; [done|].
  destruct (returncode process =? 0) eqn:Hrc; cbn [files].
  - apply Z.eqb_eq in Hrc. rewrite Hkeep. unfold w0, conversion_started.
    cbn [files]. rewrite lookup_delete_eq. split; [|done].
    split; [by intros [? ?]|done].
  - apply Z.eqb_neq in Hrc. rewrite lookup_insert_eq. split; [|done].
    split; [done|by eexists].
Qed.

(** X11.  When the name of the log is taken by a directory, the cell fails
    with an [OSError] while clearing the old log: the converter is not
    started and nothing is printed. *)
Theorem conversion_cell_log_directory (w : World) :
  log_filename ∈ dirs w → files w !! log_filename = None →
  conversion_cell subprocess_run abspath w = (Raise OSError, w).
Proof.
  intros Hdir Hfile. unfold conversion_cell.
  unfold io_bind at 1. unfold path_exists.
  rewrite (bool_decide_eq_true_2 (log_filename ∈ dirs w)) by done.
  rewrite orb_true_r. unfold io_bind at 1. unfold io_bind at 1.
  unfold remove. by rewrite Hfile.
Qed.
End ConversionLog.

Lemma conversion_log_iff_failed_witness :
  ∃ w', conversion_cell passing_converter id world_with_old_log = (Ok tt, w') ∧
        files w' !! log_filename = None.
Proof.
  destruct (conversion_log_iff_failed passing_converter id world_with_old_log)
    as (w' & Hcell & Hiff & _).
  - set_solver.
  - reflexivity.
  - exists w'. split; [exact Hcell|].
    apply eq_None_not_Some. intros Hsome. by apply Hiff in Hsome.
Defined.

Lemma conversion_cell_log_directory_witness :
  conversion_cell passing_converter id world_with_log_directory
  = (Raise OSError, world_with_log_directory).
Proof.
  apply (conversion_cell_log_directory passing_converter id).
  - set_solver.
  - reflexivity.
Defined.

(** ** The cells that write the datasets *)

Lemma format_dataset_rows (df df' : DataFrame) (filename : string) :
  wf_frame df → format_dataset df filename = Ok df' →
  "filename" ∈ columns df' ∧ rows df' = format_row filename <$> rows df.
Proof.
  intros Hwf Hfmt.
  destruct (format_dataset_inv_text _ _ _ Hfmt) as (Ht & Hq & Htext).
  destruct (format_dataset_ok df filename Hwf Ht Hq Htext) as (cols & Hok & Hcols).
  rewrite Hok in Hfmt. injection Hfmt as <-. split; [|done]. cbn.
  apply (elem_of_list_to_set (C := gset string)). rewrite Hcols.
  unfold formatted_fields. set_solver.
Qed.

Lemma format_row_filename_all (filename : string) (l : list row) (r : row) :
  r ∈ format_row filename <$> l → r !! "filename" = Some (Str filename).
Proof. intros (r0 & -> & _)%list_elem_of_fmap. apply format_row_filename. Qed.

Section CuratedFile.
Variable UnicodeReformatter : string → string.
Variable DATA_DIR : string.
Variable device : string.

Lemma run_curation_pipeline_columns (raw curated : DataFrame) (w w' : World) :
  run_curation_pipeline UnicodeReformatter raw device w = (Ok curated, w') →
  "title" ∈ columns curated ∧ "question" ∈ columns curated ∧
  (length (rows curated) ≤ length (rows raw))%nat.
Proof.
  intros (_ & _ & d4 & Hseq & Hdrop)%run_curation_pipeline_inv.
  apply Sequential_cpu_curation_steps_inv in Hseq
    as (d1 & d2 & d3 & H1 & H2 & H3 & H4).
  destruct (Modify_inv _ _ _ _ H1) as [Hc1 Ht1].
  rewrite Modify_ok in H1 by done. injection H1 as <-.
  destruct (Modify_inv _ _ _ _ H2) as [Hc2 Ht2].
  rewrite Modify_ok in H2 by done. injection H2 as <-.
  apply ScoreFilter_inv in H3 as [Hcols3 Hrows3].
  apply ScoreFilter_inv in H4 as [Hcols4 Hrows4].
  apply df_drop_inv in Hdrop as (_ & Hcols5 & Hrows5).
  rewrite Hcols5, Hcols4, Hcols3, Hrows5, Hrows4, Hrows3. cbn [columns rows].
  rewrite !list_elem_of_filter. split; [set_solver|]. split; [set_solver|].
  rewrite length_fmap.
  etransitivity; [apply length_filter|].
  etransitivity; [apply length_filter|].
  by rewrite !length_fmap.
Qed.

(** X12.  The cells that save the curated dataset write one file,
    [law-stackexchange-curated.jsonl] under [curated_dataset], holding the
    formatted records, each with that name as [filename] and no more of
    them than the raw dataset has records; every other file is as it
    was. *)
Theorem curation_cells_writes (raw formatted : DataFrame) (w w' : World) :
  wf_frame raw →
  curation_cells UnicodeReformatter DATA_DIR device raw w = (Ok formatted, w') →
  rows formatted ≠ [] →
  files w' =
    <[(DATA_DIR ++ "/curated_dataset") ++ "/" ++ "law-stackexchange-curated.jsonl"
      := Jsonl (rows formatted)]> (files w) ∧
  Forall (λ r : row, r !! "filename"
                     = Some (Str "law-stackexchange-curated.jsonl"))
    (rows formatted) ∧
  (length (rows formatted) ≤ length (rows raw))%nat.
Proof.
  intros Hwf. unfold curation_cells.
  intros (curated & w1 & Hrun & H1)%io_bind_inv.
  apply io_bind_inv in H1 as (fmt & ? & [Hfmt ->]%lift_inv & H2).
  apply io_bind_inv in H2 as (? & w2 & (Hf2 & _)%print_inv & H3).
  apply io_bind_inv in H3 as (? & w3 & (Hf3 & _)%print_inv & H4).
  apply io_bind_inv in H4 as (? & w4 & (Hf4 & _)%print_inv & H5).
  apply io_bind_inv in H5 as (? & w5 & (Hf5 & _)%print_inv & H6).
  apply io_bind_inv in H6 as (? & w6 & (Hf6 & _)%print_inv & H7).
  apply io_bind_inv in H7 as (? & w7 & Hjson & [= <- <-]).
  intros Hne.
  destruct (run_curation_pipeline_wf _ _ _ _ _ _ Hrun Hwf) as (Hf1 & Hwfc & _).
  destruct (run_curation_pipeline_columns _ _ _ _ Hrun) as (_ & _ & Hlen).
  destruct (format_dataset_rows _ _ _ Hwfc Hfmt) as [Hcol Hrows].
  rewrite (to_json_constant fmt "law-stackexchange-curated.jsonl") in Hjson.
  2:{ done. }
  2:{ rewrite Hrows. apply format_row_filename_all. }
  injection Hjson as _ <-. cbn [files]. rewrite decide_False by done.
  split; [congruence|]. split.
  - apply Forall_forall. rewrite Hrows. apply format_row_filename_all.
  - by rewrite Hrows, length_fmap.
Qed.

End CuratedFile.

Section EmptyCuration.
Variable UnicodeReformatter : string → string.
Variable permutation : nat → list nat.
Variable read_json : string → IO DataFrame.
Variable DATA_DIR : string.
Variable device : string.

(** X13.  When the filters leave no record, the notebook stops at the split
    cell with the assertion error for an empty dataset; no file has been
    written by then, not even an empty curated one. *)
Theorem step_1_empty (raw curated : DataFrame) (v : Q) (w w1 : World) :
  run_curation_pipeline UnicodeReformatter raw device w = (Ok curated, w1) →
  rows curated = [] →
  ∃ w',
    step_1 UnicodeReformatter permutation read_json DATA_DIR device raw v w =
      (Raise (AssertionError "The dataset is empty."), w') ∧
    files w' = files w.
Proof.
  intros Hrun Hnil.
  destruct (run_curation_pipeline_columns _ _ _ _ _ _ Hrun) as (Ht & Hq & _).
  destruct (run_curation_pipeline_inv _ _ _ _ _ _ Hrun) as (Hf1 & _).
  destruct (format_dataset_ok curated "law-stackexchange-curated.jsonl")
    as (cols & Hfmt & Hcols); [by unfold wf_frame; rewrite Hnil|done|done|
                               by rewrite Hnil|].
  rewrite Hnil in Hfmt. cbn in Hfmt.
  assert ("filename" ∈ cols) as Hfn.
  { apply (elem_of_list_to_set (C := gset string)). rewrite Hcols.
    unfold formatted_fields. set_solver. }
  unfold step_1, curation_cells.
  unfold io_bind at 1. unfold io_bind at 1. rewrite Hrun.
  unfold io_bind at 1. unfold lift at 1. rewrite Hfmt.
  unfold io_bind at 1 2 3 4 5. unfold print. cbv beta iota.
  unfold io_bind at 1.
  rewrite (to_json_constant _ "law-stackexchange-curated.jsonl");
    [|done|cbn; set_solver].
  cbv beta iota. unfold io_ret at 1. cbv beta iota.
  unfold io_bind at 1. rewrite split_cell_empty by done.
  eexists. split; [done|]. cbn. done.
Qed.
End EmptyCuration.

Section SubmissionCell.
Variable read_json : string → IO DataFrame.
Variable DATA_DIR : string.

(** X14.  Without the submission file the submission cell raises its
    assertion error at once: the reader is not called, nothing is printed
    and nothing is written. *)
Theorem submission_cell_missing (w : World) :
  files w !! submission_path = None → submission_path ∉ dirs w →
  submission_cell read_json DATA_DIR w =
    (Raise (AssertionError
       ("The submission dataset does not exist at '" ++ submission_path ++ "'")),
     w).
Proof.
  intros Hfile Hdir. unfold submission_cell. cbv zeta.
  unfold io_bind at 1. unfold path_exists. fold submission_path.
  rewrite bool_decide_eq_false_2 by (rewrite Hfile; by intros [? ?]).
  by rewrite bool_decide_eq_false_2.
Qed.

(** X15.  A submission set without a [tags] column is written to
    [submission.jsonl] in the split directory, one record for each of its
    records and in their order, every one with an empty [output] and with
    [submission.jsonl] as [filename]; every other file is as it was. *)
Theorem submission_cell_writes (sub : DataFrame) (w : World) :
  is_Some (files w !! submission_path) →
  read_json submission_path w = (Ok sub, w) →
  wf_frame sub → "title" ∈ columns sub → "question" ∈ columns sub →
  "tags" ∉ columns sub → Forall has_text (rows sub) → rows sub ≠ [] →
  let written := format_row "submission.jsonl" <$> rows sub in
  ∃ w',
    submission_cell read_json DATA_DIR w = (Ok tt, w') ∧
    files w' =
      <[(DATA_DIR ++ "/split") ++ "/" ++ "submission.jsonl" := Jsonl written]>
        (files w) ∧
    Forall (λ r : row, r !! "output" = Some (Str "") ∧
                       r !! "filename" = Some (Str "submission.jsonl")) written.
Proof.
  intros Hfile Hread Hwf Ht Hq Htags Htext Hne written.
  destruct (format_dataset_ok sub "submission.jsonl" Hwf Ht Hq Htext)
    as (cols & Hfmt & Hcols).
  assert ("filename" ∈ cols) as Hfn.
  { apply (elem_of_list_to_set (C := gset string)). rewrite Hcols.
    unfold formatted_fields. set_solver. }
  unfold submission_cell. cbv zeta.
  unfold io_bind at 1. unfold path_exists. fold submission_path.
  rewrite bool_decide_eq_true_2 by done. rewrite orb_true_l.
  unfold io_bind at 1. unfold assert, io_ret. cbv beta iota.
  unfold io_bind at 1. rewrite Hread.
  unfold io_bind at 1. unfold lift at 1. rewrite Hfmt.
  unfold io_bind at 1. unfold print. cbv beta iota.
  unfold output_dir.
  rewrite (to_json_constant _ "submission.jsonl");
    [|done|apply format_row_filename_all].
  cbn [rows files]. fold written.
  rewrite decide_False by (unfold written; by intros ?%fmap_nil_inv).
  eexists. split; [done|]. split; [done|].
  apply Forall_forall. intros r' (r & -> & Hr)%list_elem_of_fmap.
  rewrite format_row_output, format_row_filename. split; [|done].
  assert (r !! "tags" = None) as ->; [|done].
  apply eq_None_not_Some. by rewrite (wf_frame_lookup sub r "tags").
Qed.
End SubmissionCell.

Lemma curation_cells_writes_witness :
  ∃ formatted w',
    curation_cells id "data" "cpu" sample_dataset empty_world
      = (Ok formatted, w') ∧
    files w' !! "data/curated_dataset/law-stackexchange-curated.jsonl"
      = Some (Jsonl (rows formatted)).
Proof.
  assert (∃ formatted w',
    curation_cells id "data" "cpu" sample_dataset empty_world
      = (Ok formatted, w') ∧ rows formatted ≠ []) as (formatted & w' & Hrun & Hne).
  { eexists _, _. split; [vm_compute; reflexivity|].
    intros Hnil%(f_equal length). revert Hnil. vm_compute. discriminate. }
  exists formatted, w'. split; [exact Hrun|].
  destruct (curation_cells_writes id "data" "cpu" sample_dataset formatted
              empty_world w') as (Hfiles & _); [repeat constructor|done|done|].
  rewrite Hfiles. apply lookup_insert_eq.
Defined.

Lemma step_1_empty_witness :
  ∃ w',
    step_1 id (seq 0) sample_read_json "data" "cpu" short_dataset VAL_RATIO
      sample_world
    = (Raise (AssertionError "The dataset is empty."), w') ∧
    files w' = files sample_world.
Proof.
  assert (∃ curated w1,
    run_curation_pipeline id short_dataset "cpu" sample_world = (Ok curated, w1)
    ∧ rows curated = []) as (curated & w1 & Hrun & Hnil).
  { eexists _, _. split; [vm_compute; reflexivity|]. reflexivity. }
  exact (step_1_empty id (seq 0) sample_read_json "data" "cpu" short_dataset
           curated VAL_RATIO sample_world w1 Hrun Hnil).
Defined.

Lemma submission_cell_missing_witness :
  ∃ msg, submission_cell sample_read_json "data" empty_world
         = (Raise (AssertionError msg), empty_world).
Proof.
  eexists. apply (submission_cell_missing sample_read_json "data" empty_world).
  - reflexivity.
  - set_solver.
Defined.

Lemma submission_cell_writes_witness :
  ∃ w',
    submission_cell sample_read_json "data" sample_world = (Ok tt, w') ∧
    files w' !! "data/split/submission.jsonl"
      = Some (Jsonl (format_row "submission.jsonl" <$> rows submission_sample)).
Proof.
  destruct (submission_cell_writes sample_read_json "data" submission_sample
              sample_world) as (w' & Hcell & Hfiles & _).
  - by eexists.
  - reflexivity.
  - repeat constructor.
  - set_solver.
  - set_solver.
  - set_solver.
  - repeat constructor; eexists; reflexivity.
  - done.
  - exists w'. split; [exact Hcell|]. rewrite Hfiles. apply lookup_insert_eq.
Defined.

(** ** The model name *)

Lemma contains_slash_last_component (s : string) :
  contains_slash (last_component s) = false.
Proof.
  induction s as [|a s IH]; [done|]. cbn [last_component].
  destruct (contains_slash s) eqn:Hs; [done|].
  destruct (Ascii.eqb a "/") eqn:Ha; [done|].
  cbn [contains_slash]. by rewrite Ha, Hs.
Qed.

Lemma last_component_no_slash (s : string) :
  contains_slash s = false → last_component s = s.
Proof.
  destruct s as [|a s]; [done|]. cbn [contains_slash last_component].
  intros [Ha Hs]%orb_false_iff. by rewrite Hs, Ha.
Qed.

Lemma last_component_suffix (s : string) :
  ∃ pre, s = (pre ++ last_component s)%string ∧
         (pre = "" ∨ ∃ pre', pre = (pre' ++ "/")%string).
Proof.
  induction s as [|a s (pre & IHs & IHp)]; [exists ""; by split; [|left]|].
  cbn [last_component]. destruct (contains_slash s) eqn:Hs.
  - destruct IHp as [->|[pre' ->]].
    + assert (s = last_component s) as Heq by exact IHs.
      rewrite Heq, contains_slash_last_component in Hs. done.
    + exists (String a (pre' ++ "/")). split; [|right; by exists (String a pre')].
      change (String a s = String a ((pre' ++ "/") ++ last_component s))%string.
      by f_equal.
  - destruct (Ascii.eqb a "/") eqn:Ha.
    + apply Ascii.eqb_eq in Ha as ->. exists "/". split; [done|].
      right. by exists "".
    + exists "". split; [done|by left].
Qed.

Lemma lower_ascii_idemp (a : ascii) : lower_ascii (lower_ascii a) = lower_ascii a.
Proof. by destruct a as [[] [] [] [] [] [] [] []]. Qed.

Lemma lower_ascii_slash (a : ascii) :
  Ascii.eqb (lower_ascii a) "/" = Ascii.eqb a "/".
Proof. by destruct a as [[] [] [] [] [] [] [] []]. Qed.

Lemma lower_idemp (s : string) : lower (lower s) = lower s.
Proof.
  induction s as [|a s IH]; [done|]. cbn [lower].
  by rewrite lower_ascii_idemp, IH.
Qed.

Lemma contains_slash_lower (s : string) :
  contains_slash (lower s) = contains_slash s.
Proof.
  induction s as [|a s IH]; [done|]. cbn [lower contains_slash].
  by rewrite lower_ascii_slash, IH.
Qed.

Lemma derive_model_name_model_to_use : derive_model_name model_to_use = model_name.
Proof. reflexivity. Qed.

Lemma lower_ascii_capital (a : ascii) (k : nat) :
  String.get k capital_letters = Some a →
  String.get k small_letters = Some (lower_ascii a).
Proof.
  unfold capital_letters, small_letters.
  do 26 (destruct k as [|k]; [by intros [= <-]|]). done.
Qed.

Lemma lower_ascii_other (a : ascii) :
  (∀ k, String.get k capital_letters ≠ Some a) → lower_ascii a = a.
Proof.
  intros Hk. destruct a as [[] [] [] [] [] [] [] []]; try reflexivity;
    exfalso; unfold capital_letters in Hk;
    first [ by apply (Hk 0%nat) | by apply (Hk 1%nat) | by apply (Hk 2%nat)
          | by apply (Hk 3%nat) | by apply (Hk 4%nat) | by apply (Hk 5%nat)
          | by apply (Hk 6%nat) | by apply (Hk 7%nat) | by apply (Hk 8%nat)
          | by apply (Hk 9%nat) | by apply (Hk 10%nat) | by apply (Hk 11%nat)
          | by apply (Hk 12%nat) | by apply (Hk 13%nat) | by apply (Hk 14%nat)
          | by apply (Hk 15%nat) | by apply (Hk 16%nat) | by apply (Hk 17%nat)
          | by apply (Hk 18%nat) | by apply (Hk 19%nat) | by apply (Hk 20%nat)
          | by apply (Hk 21%nat) | by apply (Hk 22%nat) | by apply (Hk 23%nat)
          | by apply (Hk 24%nat) | by apply (Hk 25%nat) ].
Qed.

Lemma get_lower (i : nat) (s : string) :
  String.get i (lower s) = lower_ascii <$> String.get i s.
Proof.
  revert i. induction s as [|a s IH]; intros i; [done|].
  destruct i as [|i]; [done|]. cbn [lower String.get]. apply IH.
Qed.

Lemma length_lower (s : string) : String.length (lower s) = String.length s.
Proof. induction s as [|a s IH]; [done|]. cbn. by rewrite IH. Qed.

(** X16.  The model name derived from an ASCII model identifier is what
    follows the identifier's last slash, or all of it when it has none, put
    into lower case: every capital letter is replaced by its small
    counterpart and every other character stays.  The name has no slash, so
    [models/<name>.nemo] lies directly under [models], and deriving a name
    from a derived name changes nothing. *)
Theorem derive_model_name_spec (model_to_use : string) :
  is_ascii model_to_use = true →
  let component := last_component model_to_use in
  let name := derive_model_name model_to_use in
  (∃ pre, model_to_use = (pre ++ component)%string ∧
          (pre = "" ∨ ∃ pre', pre = (pre' ++ "/")%string)) ∧
  contains_slash component = false ∧
  String.length name = String.length component ∧
  (∀ i a, String.get i component = Some a →
     (∀ k, String.get k capital_letters = Some a →
           String.get i name = String.get k small_letters) ∧
     ((∀ k, String.get k capital_letters ≠ Some a) →
      String.get i name = Some a)) ∧
  contains_slash name = false ∧
  derive_model_name name = name.
Proof.
  intros _ component name. unfold name, derive_model_name. fold component.
  split; [apply last_component_suffix|].
  split; [apply contains_slash_last_component|].
  split; [apply length_lower|].
  assert (contains_slash (lower component) = false) as Hno
    by (by rewrite contains_slash_lower; apply contains_slash_last_component).
  split; [|split; [done|]].
  - intros i a Ha. rewrite get_lower, Ha.
    change (lower_ascii <$> Some a) with (Some (lower_ascii a)). split.
    + intros k Hk. by rewrite (lower_ascii_capital a k Hk).
    + intros Hother. by rewrite lower_ascii_other.
  - by rewrite (last_component_no_slash (lower component)), lower_idemp.
Qed.

Lemma derive_model_name_spec_witness :
  contains_slash (derive_model_name "Google/Gemma-2-2B") = false ∧
  String.get 0 (derive_model_name "Google/Gemma-2-2B") = Some "g"%char ∧
  derive_model_name "Google/Gemma-2-2B" = "gemma-2-2b".
Proof.
  destruct (derive_model_name_spec "Google/Gemma-2-2B")
    as (_ & _ & _ & Hchars & Hslash & _); [reflexivity|].
  split; [exact Hslash|]. split; [|reflexivity].
  destruct (Hchars 0%nat "G"%char) as [Hcapital _]; [reflexivity|].
  by rewrite (Hcapital 6%nat).
Defined.

(** ** The cells of the training notebook *)

Lemma cell_bind_ok_eq {A B} (m : Cell A) (f : A → Cell B) (k k1 : Kernel) (a : A) :
  m k = (Ok a, k1) → cell_bind m f k = f a k1.
Proof. unfold cell_bind. by intros ->. Qed.

Lemma cell_bind_raise_eq {A B} (m : Cell A) (f : A → Cell B) (k k1 : Kernel)
    (e : error) :
  m k = (Raise e, k1) → cell_bind m f k = (Raise e, k1).
Proof. unfold cell_bind. by intros ->. Qed.

Lemma assert_exists_present (p msg : string) (k : Kernel) :
  present (world k) p = true → assert_exists p msg k = (Ok tt, k).
Proof.
  intros Hp. destruct k as [w env]. unfold assert_exists, cell_bind, run_io.
  cbn. unfold present in Hp. cbn in Hp. by rewrite Hp.
Qed.

Lemma assert_exists_absent (p msg : string) (k : Kernel) :
  present (world k) p = false →
  assert_exists p msg k = (Raise (AssertionError msg), k).
Proof.
  intros Hp. destruct k as [w env]. unfold assert_exists, cell_bind, run_io.
  cbn. unfold present in Hp. cbn in Hp. by rewrite Hp.
Qed.

Lemma cell_bind_set_env {B} (name value : string) (f : unit → Cell B)
    (k : Kernel) :
  cell_bind (set_env name value) f k =
    f tt {| world := {| files := files (world k); dirs := dirs (world k);
                        console := console (world k)
                                   ++ ["env: " ++ name ++ "=" ++ value] |};
            environ := <[name := value]> (environ k) |}.
Proof. reflexivity. Qed.

Lemma cell_bind_print {B} (s : string) (f : unit → Cell B) (k : Kernel) :
  cell_bind (run_io (print s)) f k =
    f tt {| world := {| files := files (world k); dirs := dirs (world k);
                        console := console (world k) ++ [s] |};
            environ := environ k |}.
Proof. reflexivity. Qed.

Ltac cell_step :=
  first [rewrite cell_bind_set_env | rewrite cell_bind_print];
  cbn [world environ files dirs console].

Section TrainingFacts.
Variable abspath : string → string.

(** X17.  When the checkpoint, the data directory and both split files
    exist, the sanity-check cell passes: it has made the results directory,
    set the five variables [BASE_MODEL], [DATA_DIR], [TRAIN_DS], [VAL_DS] and
    [RESULT_DIR] to the paths it checked, left every other variable and every
    file alone. *)
Theorem sanity_check_cell_passes (model_to_use : string) (k : Kernel) :
  Forall (λ c : string * string,
            present (world (with_results_dir abspath k)) c.1 = true)
    (sanity_checks abspath model_to_use) →
  ∃ k', sanity_check_cell abspath model_to_use k = (Ok tt, k') ∧
    environ k' =
      <["RESULT_DIR" := result_dir abspath]>
        (<["VAL_DS" := val_fp abspath]>
           (<["TRAIN_DS" := train_fp abspath]>
              (<["DATA_DIR" := data_dir]>
                 (<["BASE_MODEL" := nemo_model_fp abspath model_to_use]>
                    (environ k))))) ∧
    files (world k') = files (world k) ∧
    dirs (world k') = {[result_dir abspath]} ∪ dirs (world k).
Proof.
  intros Hall. unfold sanity_checks in Hall.
  apply Forall_cons in Hall as [H1 Hall]. apply Forall_cons in Hall as [H2 Hall].
  apply Forall_cons in Hall as [H3 Hall]. apply Forall_cons in Hall as [H4 _].
  cbn [fst] in *. unfold sanity_check_cell. cbv zeta.
  rewrite (cell_bind_ok_eq _ _ k (with_results_dir abspath k) tt) by done.
  do 4 (erewrite cell_bind_ok_eq by (by apply assert_exists_present)).
  unfold with_results_dir. repeat cell_step.
  unfold run_io, print. cbn [world environ files dirs console].
  eexists. split; [reflexivity|]. cbn [world environ files dirs]. done.
Qed.

(** X18.  When a check of the sanity-check cell fails, the cell raises the
    assertion error of the first path that is missing, in the order
    checkpoint, data directory, training file, validation file; it has set
    no variable and printed nothing, but the results directory has already
    been made. *)
Theorem sanity_check_cell_fails (model_to_use : string) (k : Kernel)
    (p msg : string) :
  find (λ c : string * string,
          negb (present (world (with_results_dir abspath k)) c.1))
    (sanity_checks abspath model_to_use) = Some (p, msg) →
  sanity_check_cell abspath model_to_use k =
    (Raise (AssertionError msg), with_results_dir abspath k).
Proof.
  unfold sanity_checks, sanity_check_cell. cbv zeta.
  rewrite (cell_bind_ok_eq _ _ k (with_results_dir abspath k) tt) by done.
  set (k1 := with_results_dir abspath k).
  cbn [find fst].
  destruct (present (world k1) (nemo_model_fp abspath model_to_use)) eqn:H1.
  2:{ intros [= <- <-].
      by rewrite (cell_bind_raise_eq _ _ _ _ _ (assert_exists_absent _ _ _ H1)). }
  rewrite (cell_bind_ok_eq _ _ _ _ _ (assert_exists_present _ _ _ H1)).
  destruct (present (world k1) data_dir) eqn:H2.
  2:{ intros [= <- <-].
      by rewrite (cell_bind_raise_eq _ _ _ _ _ (assert_exists_absent _ _ _ H2)). }
  rewrite (cell_bind_ok_eq _ _ _ _ _ (assert_exists_present _ _ _ H2)).
  destruct (present (world k1) (train_fp abspath)) eqn:H3.
  2:{ intros [= <- <-].
      by rewrite (cell_bind_raise_eq _ _ _ _ _ (assert_exists_absent _ _ _ H3)). }
  rewrite (cell_bind_ok_eq _ _ _ _ _ (assert_exists_present _ _ _ H3)).
  destruct (present (world k1) (val_fp abspath)) eqn:H4.
  2:{ intros [= <- <-].
      by rewrite (cell_bind_raise_eq _ _ _ _ _ (assert_exists_absent _ _ _ H4)). }
  done.
Qed.

(** X19.  Without the formatted submission file the inference cell raises its
    assertion error and leaves the kernel wholly as it was; with it, the
    cell makes the inference directory and sets [TEST_DS], [TEST_FP] and
    [TRAINED_ADAPTER], where [TEST_FP] is the last component of [TEST_DS] and
    so has no slash. *)
Theorem inference_cell_outcome (k : Kernel) :
  let test_fp := abspath (data_dir ++ "/submission.jsonl") in
  (present (world k) test_fp = false →
   inference_cell abspath k =
     (Raise (AssertionError
               ("The submission data at '" ++ test_fp
                ++ "' does not exist. Please ensure the data was prepared successfully.")),
      k)) ∧
  (present (world k) test_fp = true →
   ∃ k', inference_cell abspath k = (Ok tt, k') ∧
     environ k' !! "TEST_DS" = Some (abspath test_fp) ∧
     environ k' !! "TEST_FP" = Some (last_component (abspath test_fp)) ∧
     contains_slash (last_component (abspath test_fp)) = false ∧
     environ k' !! "TRAINED_ADAPTER"
       = Some (result_dir abspath
               ++ "/checkpoints/megatron_gpt_peft_lora_tuning.nemo") ∧
     (∀ x, x ∉ ["TEST_DS"; "TEST_FP"; "TRAINED_ADAPTER"] →
           environ k' !! x = environ k !! x) ∧
     files (world k') = files (world k) ∧
     dirs (world k') = {[result_dir abspath ++ "/inference"]} ∪ dirs (world k)).
Proof.
  intros test_fp. unfold inference_cell. cbv zeta. fold test_fp. split.
  - intros Hp.
    by rewrite (cell_bind_raise_eq _ _ _ _ _ (assert_exists_absent _ _ _ Hp)).
  - intros Hp.
    rewrite (cell_bind_ok_eq _ _ _ _ _ (assert_exists_present _ _ _ Hp)).
    eexists. split; [reflexivity|].
    unfold cell_bind, run_io, set_env, makedirs, print.
    cbn [environ world files dirs fst snd].
    split; [by do 2 (rewrite lookup_insert_ne by done); rewrite lookup_insert_eq|].
    split; [by rewrite lookup_insert_ne by done; rewrite lookup_insert_eq|].
    split; [apply contains_slash_last_component|].
    split; [by rewrite lookup_insert_eq|].
    split; [|done].
    intros x Hx. by do 3 (rewrite lookup_insert_ne by set_solver).
Qed.
End TrainingFacts.

Lemma sanity_check_cell_passes_witness :
  ∃ k', sanity_check_cell ws_abspath model_to_use prepared_kernel = (Ok tt, k') ∧
        environ k' !! "BASE_MODEL" = Some "/ws/models/gemma-2-2b.nemo".
Proof.
  destruct (sanity_check_cell_passes ws_abspath model_to_use prepared_kernel)
    as (k' & Hcell & Henv & _).
  - repeat constructor.
  - exists k'. split; [exact Hcell|]. rewrite Henv.
    by do 4 (rewrite lookup_insert_ne by done); rewrite lookup_insert_eq.
Defined.

Lemma sanity_check_cell_fails_witness :
  ∃ msg,
    sanity_check_cell ws_abspath model_to_use empty_kernel =
      (Raise (AssertionError msg), with_results_dir ws_abspath empty_kernel).
Proof.
  eexists.
  apply (sanity_check_cell_fails ws_abspath model_to_use empty_kernel
           "/ws/models/gemma-2-2b.nemo").
  reflexivity.
Defined.

Lemma inference_cell_outcome_witness :
  (∃ msg, inference_cell ws_abspath empty_kernel
          = (Raise (AssertionError msg), empty_kernel)) ∧
  ∃ k', inference_cell ws_abspath prepared_kernel = (Ok tt, k').
Proof.
  split.
  - eexists. by apply (inference_cell_outcome ws_abspath empty_kernel).
  - destruct (proj2 (inference_cell_outcome ws_abspath prepared_kernel))
      as (k' & Hcell & _); [reflexivity|by exists k'].
Defined.
